(** * go-appstore-connect-api: a shallow embedding and its properties

    The development follows the layout of the Go repository:

    - [jwtutil]    pkg/jwt/jwt.go          (key parser and token issuer)
    - [httpclient] pkg/httpclient/client.go (transport)
    - [appstore]   pkg/appstore/client.go, device.go (facade, device client)

    Go strings are byte sequences and are modelled by [string] (a list of
    8-bit [ascii]).  A Go [error] is modelled by its message; [nil] is
    [None].  Go maps are [gmap]s; a nil map reads like the empty map and no
    code below writes to or compares a possibly-nil map, so both are [∅]. *)

From Stdlib Require Import ZArith Ascii String.
From stdpp Require Import gmap strings list fin_maps pretty sorting.

Local Open Scope Z_scope.
Local Open Scope string_scope.

Set Warnings "-register-all".

(** ** Go-style results *)

Definition error := string.

(** A call that returns [(value, nil)] or [(zero, err)], never both. *)
Inductive result (A : Type) : Type :=
| Ok (a : A)
| Err (e : error).
Arguments Ok {A} a.
Arguments Err {A} e.

Definition is_Ok {A} (r : result A) : bool :=
  match r with Ok _ => true | Err _ => false end.

(** [fmt.Errorf("prefix: %w", err)] as far as [Error()] can tell. *)
Definition wrapf (prefix : string) (e : error) : error := prefix ++ ": " ++ e.

(** The value a map index expression yields: the zero value when absent. *)
Definition index_str (m : gmap string string) (k : string) : string :=
  default "" (m !! k).

(** ** Decoded JSON, as [encoding/json] produces it for [interface{}] *)

(** Numbers decode to [float64]; we keep the integer part only where the code
    converts with [int(...)], so a number is modelled by the value of that
    conversion. *)
Inductive JSON :=
| JNull
| JBool (b : bool)
| JNumber (n : Z)
| JString (s : string)
| JArray (l : list JSON)
| JObject (m : gmap string JSON).

(** Type assertions [v.(T)] on a map entry: [ok] is false when the key is
    absent (nil interface) or holds another dynamic type. *)
Definition as_string (v : option JSON) : option string :=
  match v with Some (JString s) => Some s | _ => None end.
Definition as_array (v : option JSON) : option (list JSON) :=
  match v with Some (JArray l) => Some l | _ => None end.
Definition as_object (v : option JSON) : option (gmap string JSON) :=
  match v with Some (JObject m) => Some m | _ => None end.
Definition as_float64 (v : option JSON) : option Z :=
  match v with Some (JNumber n) => Some n | _ => None end.

(** ** time *)

(** An instant is its distance from the Unix epoch in nanoseconds;
    a [Duration] is a nanosecond count. *)
Definition Time := Z.
Definition Duration := Z.
Definition Second : Duration := 1000000000.
Definition Minute : Duration := 60 * Second.
Definition time_Add (t : Time) (d : Duration) : Time := t + d.
(** [Unix()] is the number of whole seconds since the epoch (rounded down). *)
Definition time_Unix (t : Time) : Z := t / 1000000000.

(** ** The libraries the token issuer rests on *)

Record pem_Block := { block_Type : string; block_Bytes : string }.

Record rsa_PrivateKey := { rsa_N : Z; rsa_E : Z; rsa_D : Z }.
Record ecdsa_PrivateKey := { ecdsa_Curve : string; ecdsa_D : Z }.

(** Dynamic type of the [any] that [x509.ParsePKCS8PrivateKey] returns. *)
Inductive any_key :=
| KeyRSA (k : rsa_PrivateKey)
| KeyECDSA (k : ecdsa_PrivateKey)
| KeyEd25519 (k : string)
| KeyECDH (k : string).

Inductive claim_value :=
| CString (s : string)
| CInt64 (n : Z).

Inductive SigningMethod := SigningMethodES256 | SigningMethodES384 | SigningMethodES512.
Definition Alg (m : SigningMethod) : string :=
  match m with
  | SigningMethodES256 => "ES256"
  | SigningMethodES384 => "ES384"
  | SigningMethodES512 => "ES512"
  end.

(** [jwt.Token]. *)
Record Token := {
  tok_Header : gmap string claim_value;
  tok_Claims : gmap string claim_value;
  tok_Method : SigningMethod
}.

(** [jwt.NewWithClaims]. *)
Definition NewWithClaims (m : SigningMethod) (claims : gmap string claim_value) : Token :=
  {| tok_Header := <["typ" := CString "JWT"]> (<["alg" := CString (Alg m)]> ∅);
     tok_Claims := claims;
     tok_Method := m |}.

Definition set_Header (k : string) (v : claim_value) (t : Token) : Token :=
  {| tok_Header := <[k := v]> (tok_Header t);
     tok_Claims := tok_Claims t;
     tok_Method := tok_Method t |}.

(** What [encoding/pem], [crypto/x509] and golang-jwt compute is not part of
    the repository; it is a parameter of the model.  The types are Go's:
    [ParsePKCS1PrivateKey] can only return an RSA key. *)
Record Crypto := {
  pem_Decode : string -> option pem_Block;
  x509_ParsePKCS8PrivateKey : string -> result any_key;
  x509_ParsePKCS1PrivateKey : string -> result rsa_PrivateKey;
  (** header and claims, each JSON-encoded and base64url-encoded, dot-joined *)
  jwt_SigningString : Token -> result string;
  jwt_Sign : SigningMethod -> string -> ecdsa_PrivateKey -> result string;
  jwt_EncodeSegment : string -> string
}.

(** [Token.SignedString]: the signing string, a dot, the encoded signature. *)
Definition SignedString (L : Crypto) (t : Token) (key : ecdsa_PrivateKey) : result string :=
  match jwt_SigningString L t with
  | Err e => Err e
  | Ok sstr =>
      match jwt_Sign L (tok_Method t) sstr key with
      | Err e => Err e
      | Ok sig => Ok (sstr ++ "." ++ jwt_EncodeSegment L sig)
      end
  end.

(** * pkg/jwt/jwt.go *)

Module jwtutil.

Definition jwtAud : string := "appstoreconnect-v1".
Definition jwtAlg : string := "ES256".

Record JWTConfig := {
  Issuer : string;
  KeyID : string;
  PrivateKey : string
}.

Record Generator := { config : JWTConfig }.

Definition NewGenerator (cfg : JWTConfig) : result Generator :=
  if decide (Issuer cfg = "") then Err "issuer is required"
  else if decide (KeyID cfg = "") then Err "key id is required"
  else if decide (PrivateKey cfg = "") then Err "private key is required"
  else Ok {| config := cfg |}.

Section Issuer.
Variable L : Crypto.

(** Lines 84-91: PKCS#8 first, PKCS#1 on failure. *)
Definition parseKeyContainer (der : string) : result any_key :=
  match x509_ParsePKCS8PrivateKey L der with
  | Ok key => Ok key
  | Err _ =>
      match x509_ParsePKCS1PrivateKey L der with
      | Ok k => Ok (KeyRSA k)
      | Err e => Err (wrapf "failed to parse private key" e)
      end
  end.

Definition parsePrivateKey (g : Generator) : result ecdsa_PrivateKey :=
  match pem_Decode L (PrivateKey (config g)) with
  | None => Err "failed to decode PEM block"
  | Some block =>
      match parseKeyContainer (block_Bytes block) with
      | Err e => Err e
      | Ok (KeyECDSA ecdsaKey) => Ok ecdsaKey
      | Ok _ => Err "private key is not ECDSA"
      end
  end.

(** Lines 54-64: the claims and the unsigned token minted at [now]. *)
Definition mintClaims (g : Generator) (now : Time) : gmap string claim_value :=
  <["iss" := CString (Issuer (config g))]>
  (<["iat" := CInt64 (time_Unix (time_Add now (-60 * Second)))]>
  (<["exp" := CInt64 (time_Unix (time_Add now (19 * Minute)))]>
  (<["aud" := CString jwtAud]> ∅))).

Definition mintToken (g : Generator) (now : Time) : Token :=
  set_Header "kid" (CString (KeyID (config g)))
    (NewWithClaims SigningMethodES256 (mintClaims g now)).

(** [now] is what [time.Now()] returns during the call. *)
Definition GenerateToken (g : Generator) (now : Time) : result string :=
  match parsePrivateKey g with
  | Err e => Err (wrapf "failed to parse private key" e)
  | Ok privateKey =>
      match SignedString L (mintToken g now) privateKey with
      | Err e => Err (wrapf "failed to sign token" e)
      | Ok tokenString => Ok tokenString
      end
  end.

End Issuer.

End jwtutil.

(** * net/url: query escaping, as far as the transport uses it *)

Module url.

Definition upperhex : string := "0123456789ABCDEF".

Definition hexdigit (n : N) : ascii :=
  default "0"%char (String.get (N.to_nat n) upperhex).

Definition between (lo hi c : ascii) : bool :=
  ((N_of_ascii lo <=? N_of_ascii c) && (N_of_ascii c <=? N_of_ascii hi))%N.

Definition is_alnum (c : ascii) : bool :=
  between "a" "z" c || between "A" "Z" c || between "0" "9" c.

(** [shouldEscape(c, encodeQueryComponent)]: only the unreserved bytes
    pass unescaped. *)
Definition shouldEscape (c : ascii) : bool :=
  if is_alnum c then false
  else match c with
       | "-" | "_" | "." | "~" => false
       | _ => true
       end%char.

Fixpoint QueryEscape (s : string) : string :=
  match s with
  | EmptyString => EmptyString
  | String c s' =>
      if Ascii.eqb c " " then String "+" (QueryEscape s')
      else if shouldEscape c then
        String "%" (String (hexdigit (N_of_ascii c / 16))
                   (String (hexdigit (N_of_ascii c mod 16)) (QueryEscape s')))
      else String c (QueryEscape s')
  end.

Definition ishex (c : ascii) : bool :=
  between "0" "9" c || between "a" "f" c || between "A" "F" c.

Definition unhex (c : ascii) : N :=
  if between "0" "9" c then N_of_ascii c - N_of_ascii "0"
  else if between "a" "f" c then N_of_ascii c - N_of_ascii "a" + 10
  else if between "A" "F" c then N_of_ascii c - N_of_ascii "A" + 10
  else 0.

(** [unescape(s, encodeQueryComponent)].  The error carries the offending
    fragment (at most three bytes), as [EscapeError] does. *)
Fixpoint QueryUnescape (s : string) : result string :=
  match s with
  | EmptyString => Ok EmptyString
  | String "%" (String h (String l rest)) =>
      if ishex h && ishex l then
        match QueryUnescape rest with
        | Ok t => Ok (String (ascii_of_N (N.lor (N.shiftl (unhex h) 4) (unhex l))) t)
        | Err e => Err e
        end
      else Err ("invalid URL escape " ++ String "%" (String h (String l EmptyString)))
  | String "%" rest => Err ("invalid URL escape " ++ String "%" rest)
  | String "+" rest =>
      match QueryUnescape rest with
      | Ok t => Ok (String " " t)
      | Err e => Err e
      end
  | String c rest =>
      match QueryUnescape rest with
      | Ok t => Ok (String c t)
      | Err e => Err e
      end
  end.

(** [strings.Cut] with a one-byte separator: before, after, found. *)
Fixpoint Cut (sep : ascii) (s : string) : string * string * bool :=
  match s with
  | EmptyString => (EmptyString, EmptyString, false)
  | String c s' =>
      if Ascii.eqb c sep then (EmptyString, s', true)
      else let '(before, after, found) := Cut sep s' in (String c before, after, found)
  end.

Fixpoint ContainsByte (sep : ascii) (s : string) : bool :=
  match s with
  | EmptyString => false
  | String c s' => Ascii.eqb c sep || ContainsByte sep s'
  end.

(** [url.Values] *)
Abbreviation Values := (gmap string (list string)).

Definition Add (k v : string) (m : Values) : Values :=
  <[k := (default [] (m !! k) ++ [v])%list]> m.

Definition sortedKeys (v : Values) : list string :=
  merge_sort (fun a b : string => String.leb a b) (map_to_list v).*1.

Definition writePair (keyEscaped : string) (buf v : string) : string :=
  (if decide (buf = "") then buf else buf ++ "&") ++ keyEscaped ++ "=" ++ QueryEscape v.

(** [Values.Encode]: keys in sorted order, values in insertion order. *)
Definition Encode (v : Values) : string :=
  foldl (fun buf k => foldl (writePair (QueryEscape k)) buf (default [] (v !! k)))
        "" (sortedKeys v).

(** The loop of [parseQuery]; every turn consumes at least one byte of a
    non-empty [query], so [length query] turns are enough. *)
Fixpoint parseQuery (fuel : nat) (m : Values) (err : option error) (query : string)
  : Values * option error :=
  match fuel with
  | O => (m, err)
  | S fuel' =>
      if decide (query = "") then (m, err)
      else
        let '(key, query', _) := Cut "&" query in
        if ContainsByte ";" key then
          parseQuery fuel' m (Some "invalid semicolon separator in query") query'
        else if decide (key = "") then parseQuery fuel' m err query'
        else
          let '(key, value, _) := Cut "=" key in
          match QueryUnescape key with
          | Err err1 => parseQuery fuel' m (Some (default err1 err)) query'
          | Ok key =>
              match QueryUnescape value with
              | Err err1 => parseQuery fuel' m (Some (default err1 err)) query'
              | Ok value => parseQuery fuel' (Add key value m) err query'
              end
          end
  end.

Definition ParseQuery (query : string) : Values * option error :=
  parseQuery (String.length query) ∅ None query.

End url.

(** * The world outside the process *)

Record Request := {
  req_Method : string;
  req_URL : string;
  (** the entries a verb hands to [req.Header.Set], one call per entry.
      [Set] stores a key in its canonical form; the model keeps the keys as
      written.  That is the header sent, up to the spelling of its keys, when
      no two keys share a canonical form, and exactly so for a client without
      custom headers *)
  req_Header : gmap string string;
  req_Body : option string
}.

Record Response := {
  StatusCode : Z;
  (** what [io.ReadAll(resp.Body)] returns *)
  Body : result string
}.

Record System := {
  (** the k-th reading of the wall clock *)
  time_Now : nat -> Time;
  (** [os.Stat(path)] returned no error *)
  os_Stat : string -> bool;
  os_ReadFile : string -> result string;
  (** [http.NewRequest] rejects a URL it cannot parse *)
  http_NewRequest_err : string -> string -> option error;
  (** the remote end: its answer may depend on every request sent before *)
  http_Do : list Request -> Request -> result Response;
  json_Unmarshal : string -> result (gmap string JSON);
  json_Marshal : JSON -> result string;
  strings_ToUpper : string -> string
}.

Record World := {
  w_ticks : nat;
  w_sent : list Request
}.

Definition tick (w : World) : World :=
  {| w_ticks := S (w_ticks w); w_sent := w_sent w |}.

Definition sent (r : Request) (w : World) : World :=
  {| w_ticks := w_ticks w; w_sent := (w_sent w ++ [r])%list |}.

(** * pkg/httpclient/client.go *)

Module httpclient.

Record Config := {
  BaseURL : string;
  APIVersion : string;
  Token : string;
  Headers : gmap string string
}.

Record Client := { config : Config }.

Definition NewClient (cfg : Config) : Client := {| config := cfg |}.

Definition SetToken (token : string) (c : Client) : Client :=
  {| config := {| BaseURL := BaseURL (config c);
                  APIVersion := APIVersion (config c);
                  Token := token;
                  Headers := Headers (config c) |} |}.

Definition SetHeaders (headers : gmap string string) (c : Client) : Client :=
  {| config := {| BaseURL := BaseURL (config c);
                  APIVersion := APIVersion (config c);
                  Token := Token (config c);
                  Headers := headers ∪ Headers (config c) |} |}.

Definition GetHeaders (c : Client) : gmap string string :=
  let headers := Headers (config c) in
  if decide (Token (config c) = "") then headers
  else <["Authorization" := "Bearer " ++ Token (config c)]> headers.

Definition BuildURL (c : Client) (path : string) : string :=
  BaseURL (config c) ++ "/" ++ APIVersion (config c) ++ path.

(** Lines 276-283 (and 375-382): the URL with its query string. *)
Definition queryValues (params : gmap string string) : url.Values :=
  map_fold (fun k v values => url.Add k v values) ∅ params.

Definition fullURL (c : Client) (path : string) (params : gmap string string) : string :=
  if decide (params = ∅) then BuildURL c path
  else BuildURL c path ++ "?" ++ url.Encode (queryValues params).

Definition statusError (code : Z) : error :=
  "API request failed with status " ++ pretty code.

Section Transport.
Variable S : System.

(** The part the three verbs share: send, read, parse, check the status. *)
Definition roundTrip (req : Request) (w : World)
  : (gmap string JSON * option error) * World :=
  match http_Do S (w_sent w) req with
  | Err e => ((∅, Some (wrapf "failed to send request" e)), sent req w)
  | Ok resp =>
      match Body resp with
      | Err e => ((∅, Some (wrapf "failed to read response" e)), sent req w)
      | Ok body =>
          match json_Unmarshal S body with
          | Err e => ((∅, Some (wrapf "failed to parse JSON" e)), sent req w)
          | Ok result =>
              if bool_decide (StatusCode resp >= 400)
              then ((result, Some (statusError (StatusCode resp))), sent req w)
              else ((result, None), sent req w)
          end
      end
  end.

Definition Get (c : Client) (path : string) (params : gmap string string) (w : World)
  : (gmap string JSON * option error) * World :=
  let fullURL := fullURL c path params in
  match http_NewRequest_err S "GET" fullURL with
  | Some e => ((∅, Some (wrapf "failed to create request" e)), w)
  | None =>
      roundTrip {| req_Method := "GET"; req_URL := fullURL;
                   req_Header := GetHeaders c; req_Body := None |} w
  end.

Definition PostJSON (c : Client) (path : string) (body : JSON) (w : World)
  : (gmap string JSON * option error) * World :=
  let fullURL := BuildURL c path in
  match json_Marshal S body with
  | Err e => ((∅, Some (wrapf "failed to marshal JSON" e)), w)
  | Ok jsonBody =>
      match http_NewRequest_err S "POST" fullURL with
      | Some e => ((∅, Some (wrapf "failed to create request" e)), w)
      | None =>
          roundTrip {| req_Method := "POST"; req_URL := fullURL;
                       req_Header := <["Content-Type" := "application/json"]> (GetHeaders c);
                       req_Body := Some jsonBody |} w
      end
  end.

Definition Delete (c : Client) (path : string) (params : gmap string string) (w : World)
  : (gmap string JSON * option error) * World :=
  let fullURL := fullURL c path params in
  match http_NewRequest_err S "DELETE" fullURL with
  | Some e => ((∅, Some (wrapf "failed to create request" e)), w)
  | None =>
      roundTrip {| req_Method := "DELETE"; req_URL := fullURL;
                   req_Header := GetHeaders c; req_Body := None |} w
  end.

End Transport.

End httpclient.

(** * pkg/appstore/client.go and pkg/appstore/device.go *)

Module appstore.

Definition baseURI : string := "https://api.appstoreconnect.apple.com".
Definition defaultAPIVersion : string := "v1".

Record Config := {
  Issuer : string;
  KeyID : string;
  Secret : string;
  APIVersion : string
}.

Record Client := {
  config : Config;
  httpClient : httpclient.Client;
  jwtGenerator : jwtutil.Generator
}.

(** Everything a method of the client can read or change: the client it
    points to (shared by all resource clients) and the outside world. *)
Record State := {
  st_client : Client;
  st_world : World
}.

(** A call either returns or panics (a failed unchecked type assertion). *)
Inductive outcome (A : Type) : Type :=
| Returns (a : A)
| Panics (msg : string).
Arguments Returns {A} a.
Arguments Panics {A} msg.

Definition M (A : Type) : Type := State -> outcome A * State.

#[export] Instance M_ret : MRet M := fun A a st => (Returns a, st).
#[export] Instance M_bind : MBind M := fun A B f m st =>
  match m st with
  | (Returns a, st') => f a st'
  | (Panics msg, st') => (Panics msg, st')
  end.

Definition panic {A} (msg : string) : M A := fun st => (Panics msg, st).

Definition GetHTTPClient : M httpclient.Client :=
  fun st => (Returns (httpClient (st_client st)), st).

Definition getGenerator : M jwtutil.Generator :=
  fun st => (Returns (jwtGenerator (st_client st)), st).

Definition updateHTTPClient (f : httpclient.Client -> httpclient.Client) : M unit :=
  fun st =>
    (Returns tt,
     {| st_client := {| config := config (st_client st);
                        httpClient := f (httpClient (st_client st));
                        jwtGenerator := jwtGenerator (st_client st) |};
        st_world := st_world st |}).

Definition liftW {A} (f : World -> A * World) : M A :=
  fun st =>
    let '(a, w) := f (st_world st) in
    (Returns a, {| st_client := st_client st; st_world := w |}).

Definition interfaceConversion : string :=
  "interface conversion: interface {} is not map[string]interface {}".

Record DeviceType := {
  Success : bool;
  DeviceClass : string;
  Model : string;
  Platform : string;
  Status : string;
  IsIPhone : bool;
  IsIPad : bool;
  IsMac : bool;
  Error : string
}.

(** [DeviceType{Success: false, Error: e}] *)
Definition failed (e : string) : DeviceType :=
  {| Success := false; DeviceClass := ""; Model := ""; Platform := ""; Status := "";
     IsIPhone := false; IsIPad := false; IsMac := false; Error := e |}.

(** The composite literal both lookups end with (lines 115-124, 183-192). *)
Definition described (deviceClass model platform status : string) : DeviceType :=
  {| Success := true; DeviceClass := deviceClass; Model := model;
     Platform := platform; Status := status;
     IsIPhone := String.eqb deviceClass "IPHONE";
     IsIPad := String.eqb deviceClass "IPAD";
     IsMac := String.eqb deviceClass "MAC";
     Error := "" |}.

(** [if v, ok := attributes[k].(string); ok { x = v }] with [x] preset to "". *)
Definition stringField (attributes : gmap string JSON) (k : string) : string :=
  default "" (as_string (attributes !! k)).

(** The check each helper makes on a response (lines 72-76, 137-145,
    260-267): the first entry of a non-empty "errors" array is asserted to
    be an object without a comma-ok, then its "detail" is read with one. *)
Inductive detail :=
| NoDetail
| Detail (errorDetail : string)
| NotAnObject.

Definition errorsDetail (response : gmap string JSON) : detail :=
  match as_array (response !! "errors") with
  | Some (JObject first :: _) =>
      match as_string (first !! "detail") with
      | Some errorDetail => Detail errorDetail
      | None => NoDetail
      end
  | Some (_ :: _) => NotAnObject
  | _ => NoDetail
  end.

(** [strings.Contains] *)
Fixpoint Contains (s substr : string) : bool :=
  String.prefix substr s ||
  match s with
  | EmptyString => false
  | String _ s' => Contains s' substr
  end.

Record DataInfo := {
  IPHONE : Z;
  IPAD : Z;
  MAC : Z;
  Email : string
}.

Record DeviceSortResult := {
  Code : Z;
  Msg : string;
  Data : DataInfo
}.

Definition zeroData : DataInfo := {| IPHONE := 0; IPAD := 0; MAC := 0; Email := "" |}.

(** Go's [int] is 64 bits wide here. *)
Definition wrap64 (z : Z) : Z := (z + 2^63) mod 2^64 - 2^63.

(** One turn of the loop of lines 230-242. *)
Definition countDevice (acc : Z * Z) (item : JSON) : Z * Z :=
  let '(iPhone, iPad) := acc in
  match item with
  | JObject device =>
      match as_object (device !! "attributes") with
      | Some attributes =>
          match as_string (attributes !! "deviceClass") with
          | Some deviceClass =>
              if String.eqb deviceClass "IPHONE" then (iPhone + 1, iPad)
              else if String.eqb deviceClass "IPAD" then (iPhone, iPad + 1)
              else acc
          | None => acc
          end
      | None => acc
      end
  | _ => acc
  end.

(** The counters never leave the range of [int]: they are bounded by the
    length of the slice. *)
Definition countDevices (iOSData : gmap string JSON) : Z * Z :=
  match as_array (iOSData !! "data") with
  | Some data => foldl countDevice (0, 0) data
  | None => (0, 0)
  end.

Definition macTotal (macData : gmap string JSON) : Z :=
  match as_object (macData !! "meta") with
  | Some meta =>
      match as_object (meta !! "paging") with
      | Some paging => default 0 (as_float64 (paging !! "total"))
      | None => 0
      end
  | None => 0
  end.

Definition userEmail (userData : gmap string JSON) : string :=
  match as_array (userData !! "data") with
  | Some (JObject user :: _) =>
      match as_object (user !! "attributes") with
      | Some attributes => stringField attributes "username"
      | None => ""
      end
  | _ => ""
  end.

Inductive api := DeviceAPI | BundleIdAPI | BundleIdCapabilityAPI | ProfilesAPI | CertificatesAPI.

Definition API (name : string) : result api :=
  if String.eqb name "device" then Ok DeviceAPI
  else if String.eqb name "bundleId" then Ok BundleIdAPI
  else if String.eqb name "bundleIdCapabilities" then Ok BundleIdCapabilityAPI
  else if String.eqb name "profiles" then Ok ProfilesAPI
  else if String.eqb name "certificates" then Ok CertificatesAPI
  else Err ("undefined API: " ++ name).

Section Facade.
Variable L : Crypto.
Variable S : System.

Definition NewClient (cfg : Config) : result Client :=
  if decide (Issuer cfg = "") then Err "issuer is required"
  else if decide (KeyID cfg = "") then Err "key id is required"
  else if decide (Secret cfg = "") then Err "secret is required"
  else
    let cfg :=
      if decide (APIVersion cfg = "")
      then {| Issuer := Issuer cfg; KeyID := KeyID cfg; Secret := Secret cfg;
              APIVersion := defaultAPIVersion |}
      else cfg in
    let readSecret : result string :=
      if os_Stat S (Secret cfg) then
        match os_ReadFile S (Secret cfg) with
        | Err e => Err (wrapf "failed to read secret file" e)
        | Ok content => Ok content
        end
      else Ok (Secret cfg) in
    match readSecret with
    | Err e => Err e
    | Ok privateKey =>
        match jwtutil.NewGenerator
                {| jwtutil.Issuer := Issuer cfg; jwtutil.KeyID := KeyID cfg;
                   jwtutil.PrivateKey := privateKey |} with
        | Err e => Err (wrapf "failed to create JWT generator" e)
        | Ok jwtGenerator =>
            Ok {| config := cfg;
                  httpClient := httpclient.NewClient
                    {| httpclient.BaseURL := baseURI;
                       httpclient.APIVersion := APIVersion cfg;
                       httpclient.Token := "";
                       httpclient.Headers := ∅ |};
                  jwtGenerator := jwtGenerator |}
        end
    end.

(** [GenerateToken] reads the clock once, after the key has parsed. *)
Definition GetToken : M (result string) :=
  fun st =>
    let g := jwtGenerator (st_client st) in
    let w := st_world st in
    let w' := if is_Ok (jwtutil.parsePrivateKey L g) then tick w else w in
    (Returns match jwtutil.GenerateToken L g (time_Now S (w_ticks w)) with
             | Err e => Err (wrapf "failed to generate token" e)
             | Ok token => Ok token
             end,
     {| st_client := st_client st; st_world := w' |}).

Definition EnsureAuth : M (option error) :=
  c ← GetHTTPClient;
  if decide (index_str (httpclient.GetHeaders c) "Authorization" = "") then
    r ← GetToken;
    match r with
    | Err err => mret (Some err)
    | Ok token => _ ← updateHTTPClient (httpclient.SetToken token); mret None
    end
  else mret None.

Definition All (params : gmap string string) : M (gmap string JSON * option error) :=
  err ← EnsureAuth;
  match err with
  | Some err => mret (∅, Some err)
  | None => c ← GetHTTPClient; liftW (httpclient.Get S c "/devices" params)
  end.

Definition registerBody (name platform udid : string) : JSON :=
  JObject {[ "data" := JObject (
    <["type" := JString "devices"]>
    {[ "attributes" := JObject (
         <["name" := JString name]>
        (<["platform" := JString (strings_ToUpper S platform)]>
         {[ "udid" := JString udid ]})) ]}) ]}.

Definition Register (name platform udid : string) : M (gmap string JSON * option error) :=
  err ← EnsureAuth;
  match err with
  | Some err => mret (∅, Some err)
  | None =>
      c ← GetHTTPClient;
      liftW (httpclient.PostJSON S c "/devices" (registerBody name platform udid))
  end.

(** The [params] literal of lines 61-64. *)
Definition lookupParams (udid : string) : gmap string string :=
  <["filter[udid]" := udid]>
  {[ "fields[devices]" := "deviceClass,model,platform,status" ]}.

Definition GetDeviceType (udid : string) : M (DeviceType * option error) :=
  let params := lookupParams udid in
  '(response, err) ← All params;
  match err with
  | Some err => mret (failed err, None)
  | None =>
      match errorsDetail response with
      | NotAnObject => panic interfaceConversion
      | Detail errorDetail => mret (failed errorDetail, None)
      | NoDetail =>
          match as_array (response !! "data") with
          | None | Some [] => mret (failed "Device not found", None)
          | Some (JObject device :: _) =>
              match as_object (device !! "attributes") with
              | None => mret (failed "Invalid device attributes", None)
              | Some attributes =>
                  mret (described (stringField attributes "deviceClass")
                                  (stringField attributes "model")
                                  (stringField attributes "platform")
                                  (stringField attributes "status"), None)
              end
          | Some (_ :: _) => mret (failed "Invalid device data", None)
          end
      end
  end.

Definition RegisterAndGetType (name platform udid : string) : M (DeviceType * option error) :=
  '(registration, err) ← Register name platform udid;
  match err with
  | Some err => mret (failed err, None)
  | None =>
      let afterErrors : M (DeviceType * option error) :=
        match as_object (registration !! "data") with
        | None => mret (failed "Invalid registration data", None)
        | Some data =>
            match as_object (data !! "attributes") with
            | None => mret (failed "Invalid device attributes", None)
            | Some attributes =>
                mret (described (stringField attributes "deviceClass")
                                (stringField attributes "model")
                                (stringField attributes "platform")
                                (stringField attributes "status"), None)
            end
        end in
      match errorsDetail registration with
      | NotAnObject => panic interfaceConversion
      | Detail errorDetail =>
          if Contains errorDetail "already exists on this team"
          then GetDeviceType udid
          else mret (failed errorDetail, None)
      | NoDetail => afterErrors
      end
  end.

Definition failedSort (msg : string) : DeviceSortResult :=
  {| Code := 1001; Msg := msg; Data := zeroData |}.

Definition zeroSort : DeviceSortResult :=
  {| Code := 0; Msg := ""; Data := zeroData |}.

Definition iOSParams : gmap string string :=
  <["filter[platform]" := "IOS"]>
  (<["fields[devices]" := "deviceClass"]> {[ "limit" := "200" ]}).

Definition macParams : gmap string string :=
  <["filter[platform]" := "MAC_OS"]> {[ "fields[devices]" := "deviceClass" ]}.

Definition DeviceSort : M (DeviceSortResult * option error) :=
  '(iOSData, err) ← All iOSParams;
  match err with
  | Some err => mret (zeroSort, Some err)
  | None =>
      let '(iPhone, iPad) := countDevices iOSData in
      '(macData, err) ← All macParams;
      match err with
      | Some _ => mret (failedSort "Failed to query Mac devices", None)
      | None =>
          match errorsDetail macData with
          | NotAnObject => panic interfaceConversion
          | Detail errorDetail => mret (failedSort errorDetail, None)
          | NoDetail =>
              let mac := macTotal macData in
              c ← GetHTTPClient;
              '(userData, err) ← liftW (httpclient.Get S c "/users" ∅);
              match err with
              | Some err => mret (zeroSort, Some err)
              | None =>
                  mret ({| Code := 1; Msg := "ok";
                           Data := {| IPHONE := 100 - iPhone;
                                      IPAD := 100 - iPad;
                                      MAC := wrap64 (100 - mac);
                                      Email := userEmail userData |} |}, None)
              end
          end
      end
  end.

End Facade.

End appstore.

(** * A small concrete environment, used to run the model *)

Module demo.

Definition ecKey : ecdsa_PrivateKey := {| ecdsa_Curve := "P-256"; ecdsa_D := 7 |}.
Definition rsaKey : rsa_PrivateKey := {| rsa_N := 3233; rsa_E := 17; rsa_D := 2753 |}.

(** A stand-in for the armour and the containers: the text after "PEM:" is
    the payload, and four payloads are recognised. *)
Definition crypto : Crypto := {|
  pem_Decode s :=
    if String.prefix "PEM:" s
    then Some {| block_Type := "PRIVATE KEY";
                 block_Bytes := String.substring 4 (String.length s - 4) s |}
    else None;
  x509_ParsePKCS8PrivateKey der :=
    if String.eqb der "pkcs8-ec" then Ok (KeyECDSA ecKey)
    else if String.eqb der "pkcs8-rsa" then Ok (KeyRSA rsaKey)
    else Err "x509: failed to parse private key";
  x509_ParsePKCS1PrivateKey der :=
    if String.eqb der "pkcs1-rsa" then Ok rsaKey
    else Err "x509: failed to parse private key";
  jwt_SigningString t := Ok "e30.e30";
  jwt_Sign m sstr key := Ok "signature";
  jwt_EncodeSegment sig := sig
|}.

Definition generator (pemText : string) : jwtutil.Generator :=
  {| jwtutil.config := {| jwtutil.Issuer := "issuer-1"; jwtutil.KeyID := "KEY1";
                          jwtutil.PrivateKey := pemText |} |}.

(** 2023-11-14T22:13:20.5Z *)
Definition noon : Time := 1700000000500000000.

(** The remote end and the rest of the machine.  Response bodies are named
    rather than spelled out; [json_Unmarshal] maps a name to what the
    decoder would produce for that body. *)
Definition device (class : string) : JSON :=
  JObject (<["type" := JString "devices"]>
           {[ "attributes" := JObject (<["deviceClass" := JString class]>
                                       {[ "model" := JString "model-1" ]}) ]}).

Definition listing : gmap string JSON :=
  {[ "data" := JArray [device "IPHONE"; device "IPAD"; device "IPHONE"] ]}.

Definition conflict : gmap string JSON :=
  {[ "errors" := JArray [JObject {[ "detail" :=
       JString "A device with number 'UDID-1' already exists on this team." ]}] ]}.

Definition unmarshal (body : string) : result (gmap string JSON) :=
  if String.eqb body "listing" then Ok listing
  else if String.eqb body "conflict" then Ok conflict
  else if String.eqb body "{}" then Ok ∅
  else Err "invalid character".

Definition system (server : list Request -> Request -> result Response) : System := {|
  time_Now k := noon + Z.of_nat k * Second;
  os_Stat path := String.eqb path "/keys/AuthKey.p8";
  os_ReadFile path :=
    if String.eqb path "/keys/AuthKey.p8" then Ok "PEM:pkcs8-ec" else Err "no such file";
  http_NewRequest_err method url := None;
  http_Do := server;
  json_Unmarshal := unmarshal;
  json_Marshal body := Ok "{}";
  strings_ToUpper s := s
|}.

Definition respond (code : Z) (body : string) : result Response :=
  Ok {| StatusCode := code; Body := Ok body |}.

(** Answers every request with the three-device listing. *)
Definition upServer (_ : list Request) (_ : Request) : result Response :=
  respond 200 "listing".

(** Unreachable. *)
Definition downServer (_ : list Request) (_ : Request) : result Response :=
  Err "connection refused".

(** Lists devices, but refuses the query for Mac devices. *)
Definition macDownServer (_ : list Request) (r : Request) : result Response :=
  if appstore.Contains (req_URL r) "MAC_OS" then Err "connection refused"
  else respond 200 "listing".

(** Knows the device already: registration is a 409 with the vendor's
    error body, a lookup finds the device. *)
Definition conflictServer (_ : list Request) (r : Request) : result Response :=
  if String.eqb (req_Method r) "POST" then respond 409 "conflict"
  else respond 200 "listing".

(** Rejects every request with status 403 and an empty JSON object. *)
Definition forbiddenServer (_ : list Request) (_ : Request) : result Response :=
  respond 403 "{}".

Definition clientConfig : appstore.Config :=
  {| appstore.Issuer := "issuer-1"; appstore.KeyID := "KEY1";
     appstore.Secret := "/keys/AuthKey.p8"; appstore.APIVersion := "" |}.

Definition transport : httpclient.Client :=
  httpclient.NewClient {| httpclient.BaseURL := appstore.baseURI;
                          httpclient.APIVersion := "v1";
                          httpclient.Token := "";
                          httpclient.Headers := ∅ |}.

Definition client : appstore.Client :=
  {| appstore.config :=
       {| appstore.Issuer := "issuer-1"; appstore.KeyID := "KEY1";
          appstore.Secret := "/keys/AuthKey.p8"; appstore.APIVersion := "v1" |};
     appstore.httpClient := transport;
     appstore.jwtGenerator := generator "PEM:pkcs8-ec" |}.

Definition world0 : World := {| w_ticks := 0; w_sent := [] |}.

Definition start : appstore.State :=
  {| appstore.st_client := client; appstore.st_world := world0 |}.

End demo.

(** * Vocabulary of the statements below *)

(** The lifetime written into a token: [exp - iat], when both are integers. *)
Definition lifetime (t : Token) : option Z :=
  match tok_Claims t !! "exp", tok_Claims t !! "iat" with
  | Some (CInt64 exp), Some (CInt64 iat) => Some (exp - iat)
  | _, _ => None
  end.

Definition configErrors : list error :=
  ["issuer is required"; "key id is required"; "secret is required"].

(** The text the generator is given: the file's content when the secret
    names an existing file, the secret itself otherwise. *)
Definition resolvedSecret (S : System) (secret : string) : result string :=
  if os_Stat S secret then os_ReadFile S secret else Ok secret.

(** [c.httpClient.GetHeaders()["Authorization"]] *)
Definition authorization (c : httpclient.Client) : string :=
  index_str (httpclient.GetHeaders c) "Authorization".

(** The client with [token] as the transport's token and all else as in [c]. *)
Definition attach (token : string) (c : appstore.Client) : appstore.Client :=
  let t := httpclient.config (appstore.httpClient c) in
  {| appstore.config := appstore.config c;
     appstore.httpClient :=
       {| httpclient.config :=
            {| httpclient.BaseURL := httpclient.BaseURL t;
               httpclient.APIVersion := httpclient.APIVersion t;
               httpclient.Token := token;
               httpclient.Headers := httpclient.Headers t |} |};
     appstore.jwtGenerator := appstore.jwtGenerator c |}.

Definition attachedToken (c : appstore.Client) : string :=
  httpclient.Token (httpclient.config (appstore.httpClient c)).

Definition at_world (c : appstore.Client) (w : World) : appstore.State :=
  {| appstore.st_client := c; appstore.st_world := w |}.


(** The requests the three verbs build. *)
Definition getRequest (c : httpclient.Client) (path : string) (params : gmap string string)
  : Request :=
  {| req_Method := "GET"; req_URL := httpclient.fullURL c path params;
     req_Header := httpclient.GetHeaders c; req_Body := None |}.

Definition postRequest (c : httpclient.Client) (path : string) (jsonBody : string) : Request :=
  {| req_Method := "POST"; req_URL := httpclient.BuildURL c path;
     req_Header := <["Content-Type" := "application/json"]> (httpclient.GetHeaders c);
     req_Body := Some jsonBody |}.

Definition deleteRequest (c : httpclient.Client) (path : string) (params : gmap string string)
  : Request :=
  {| req_Method := "DELETE"; req_URL := httpclient.fullURL c path params;
     req_Header := httpclient.GetHeaders c; req_Body := None |}.

(** What the remote end answered: a response whose body was read and
    parsed as a JSON object. *)
Definition answered (S : System) (w : World) (req : Request) (code : Z)
    (result : gmap string JSON) : Prop :=
  exists resp text,
    http_Do S (w_sent w) req = Ok resp
    /\ StatusCode resp = code
    /\ Body resp = Ok text
    /\ json_Unmarshal S text = Ok result.

(** Flags of a [DeviceType] against its class. *)
Definition flagsAgree (d : appstore.DeviceType) : Prop :=
  (appstore.IsIPhone d = true <-> appstore.DeviceClass d = "IPHONE")
  /\ (appstore.IsIPad d = true <-> appstore.DeviceClass d = "IPAD")
  /\ (appstore.IsMac d = true <-> appstore.DeviceClass d = "MAC").

Definition flagCount (d : appstore.DeviceType) : nat :=
  (Nat.b2n (appstore.IsIPhone d) + Nat.b2n (appstore.IsIPad d) + Nat.b2n (appstore.IsMac d))%nat.

Definition noFlag (d : appstore.DeviceType) : Prop :=
  appstore.IsIPhone d = false /\ appstore.IsIPad d = false /\ appstore.IsMac d = false.

(** The device class an entry of a listing carries, if it has one. *)
Definition deviceClassOf (item : JSON) : option string :=
  match item with
  | JObject device =>
      match as_object (device !! "attributes") with
      | Some attributes => as_string (attributes !! "deviceClass")
      | None => None
      end
  | _ => None
  end.

(** The entries of a listing response's data array. *)
Definition listed (response : gmap string JSON) : list JSON :=
  default [] (as_array (response !! "data")).

(** How many of them are of a given class. *)
Definition classCount (class : string) (data : list JSON) : Z :=
  Z.of_nat (length (filter (fun item => deviceClassOf item = Some class) data)).

(** ** Query strings *)

(** A parameter map as [url.Values]: every key with its one value. *)
Definition singletons (params : gmap string string) : url.Values :=
  (fun v => [v]) <$> params.

(** What [QueryEscape] writes for one byte. *)
Definition escapeByte (c : ascii) : string :=
  if Ascii.eqb c " " then "+"
  else if url.shouldEscape c then
    String "%" (String (url.hexdigit (N_of_ascii c / 16))
               (String (url.hexdigit (N_of_ascii c mod 16)) EmptyString))
  else String c EmptyString.

(** One pair of the encoded query. *)
Definition segment (p : string * string) : string :=
  url.QueryEscape p.1 ++ "=" ++ url.QueryEscape p.2.

Fixpoint moreSegments (ps : list (string * string)) : string :=
  match ps with
  | [] => ""
  | p :: ps' => "&" ++ segment p ++ moreSegments ps'
  end.

Definition segments (ps : list (string * string)) : string :=
  match ps with
  | [] => ""
  | p :: ps' => segment p ++ moreSegments ps'
  end.


(** The pairs [Encode] writes, in the order it writes them. *)
Definition encodedPairs (params : gmap string string) : list (string * string) :=
  (fun k => (k, default "" (params !! k))) <$> url.sortedKeys (singletons params).

(** ** The claims that fail, as they are worded *)

(** "When the underlying listing call fails, [GetDeviceType] returns that
    failure to its caller as an error." *)
Definition lookupFailureIsError (L : Crypto) (S : System) (udid : string)
    (st : appstore.State) : Prop :=
  forall response e st1,
    appstore.All L S (appstore.lookupParams udid) st
      = (appstore.Returns (response, Some e), st1) ->
    exists d e' st',
      appstore.GetDeviceType L S udid st = (appstore.Returns (d, Some e'), st').

(** "When the underlying registration call fails, [RegisterAndGetType]
    returns that failure to its caller as an error." *)
Definition registerFailureIsError (L : Crypto) (S : System) (name platform udid : string)
    (st : appstore.State) : Prop :=
  forall registration e st1,
    appstore.Register L S name platform udid st
      = (appstore.Returns (registration, Some e), st1) ->
    exists d e' st',
      appstore.RegisterAndGetType L S name platform udid st
        = (appstore.Returns (d, Some e'), st').

(** "For every device listing response with N devices of class IPHONE and
    M of class IPAD, [DeviceSort] returns IPHONE = 100 - N and
    IPAD = 100 - M in its result data." *)
Definition slotsFollowListing (L : Crypto) (S : System) (st : appstore.State) : Prop :=
  forall iOSData err st1,
    appstore.All L S appstore.iOSParams st = (appstore.Returns (iOSData, err), st1) ->
    exists r e st',
      appstore.DeviceSort L S st = (appstore.Returns (r, e), st')
      /\ appstore.IPHONE (appstore.Data r) = 100 - classCount "IPHONE" (listed iOSData)
      /\ appstore.IPAD (appstore.Data r) = 100 - classCount "IPAD" (listed iOSData).

(** * The other resource clients *)

#[global] Existing Instance appstore.M_ret.
#[global] Existing Instance appstore.M_bind.

(** ** pkg/appstore/bundleid.go *)

Module bundleid.
Section Client.
Variable L : Crypto.
Variable S : System.

Definition All (params : gmap string string)
  : appstore.M (gmap string JSON * option error) :=
  err ← appstore.EnsureAuth L S;
  match err with
  | Some err => mret (∅, Some err)
  | None => c ← appstore.GetHTTPClient; appstore.liftW (httpclient.Get S c "/bundleIds" params)
  end.

Definition registerBody (name platform bundleId : string) : JSON :=
  JObject {[ "data" := JObject (
    <["type" := JString "bundleIds"]>
    {[ "attributes" := JObject (
         <["identifier" := JString bundleId]>
        (<["name" := JString name]>
         {[ "platform" := JString platform ]})) ]}) ]}.

Definition Register (name platform bundleId : string)
  : appstore.M (gmap string JSON * option error) :=
  err ← appstore.EnsureAuth L S;
  match err with
  | Some err => mret (∅, Some err)
  | None =>
      c ← appstore.GetHTTPClient;
      appstore.liftW (httpclient.PostJSON S c "/bundleIds" (registerBody name platform bundleId))
  end.

Definition Delete (bId : string) : appstore.M (gmap string JSON * option error) :=
  err ← appstore.EnsureAuth L S;
  match err with
  | Some err => mret (∅, Some err)
  | None =>
      c ← appstore.GetHTTPClient;
      appstore.liftW (httpclient.Delete S c ("/bundleIds/" ++ bId) ∅)
  end.

Definition Query (bId : string) (params : gmap string string)
  : appstore.M (gmap string JSON * option error) :=
  err ← appstore.EnsureAuth L S;
  match err with
  | Some err => mret (∅, Some err)
  | None =>
      c ← appstore.GetHTTPClient;
      appstore.liftW
        (httpclient.Get S c ("/bundleIds/" ++ bId ++ "/bundleIdCapabilities") params)
  end.

End Client.
End bundleid.

(** ** pkg/appstore/bundleidcapability.go *)

Module bundleidcapability.
Section Client.
Variable L : Crypto.
Variable S : System.

Definition enableBody (bId capability : string) : JSON :=
  JObject {[ "data" := JObject (
    <["type" := JString "bundleIdCapabilities"]>
   (<["relationships" := JObject {[ "bundleId" := JObject {[ "data" := JObject (
         <["type" := JString "bundleIds"]> {[ "id" := JString bId ]}) ]} ]}]>
    {[ "attributes" := JObject {[ "capabilityType" := JString capability ]} ]})) ]}.

Definition Enable (bId capability : string)
  : appstore.M (gmap string JSON * option error) :=
  err ← appstore.EnsureAuth L S;
  match err with
  | Some err => mret (∅, Some err)
  | None =>
      c ← appstore.GetHTTPClient;
      appstore.liftW
        (httpclient.PostJSON S c "/bundleIdCapabilities" (enableBody bId capability))
  end.

Definition Disable (bcId : string) : appstore.M (gmap string JSON * option error) :=
  err ← appstore.EnsureAuth L S;
  match err with
  | Some err => mret (∅, Some err)
  | None =>
      c ← appstore.GetHTTPClient;
      appstore.liftW (httpclient.Delete S c ("/bundleIdCapabilities/" ++ bcId) ∅)
  end.

End Client.
End bundleidcapability.

(** ** pkg/appstore/profiles.go *)

Module profiles.

(** [ProfileRelationship], as [encoding/json] writes it. *)
Definition ProfileRelationship (type id : string) : JSON :=
  JObject (<["type" := JString type]> {[ "id" := JString id ]}).

Definition createBody (name bId profileType : string) (devices certificates : list string)
  : JSON :=
  let devicesData := (fun device => ProfileRelationship "devices" device) <$> devices in
  let certificatesData :=
    (fun cert => ProfileRelationship "certificates" cert) <$> certificates in
  JObject {[ "data" := JObject (
    <["type" := JString "profiles"]>
   (<["relationships" := JObject (
        <["bundleId" := JObject {[ "data" := ProfileRelationship "bundleIds" bId ]}]>
       (<["devices" := JObject {[ "data" := JArray devicesData ]}]>
        {[ "certificates" := JObject {[ "data" := JArray certificatesData ]} ]}))]>
    {[ "attributes" := JObject (
         <["profileType" := JString profileType]> {[ "name" := JString name ]}) ]})) ]}.

Section Client.
Variable L : Crypto.
Variable S : System.

Definition Query (params : gmap string string)
  : appstore.M (gmap string JSON * option error) :=
  err ← appstore.EnsureAuth L S;
  match err with
  | Some err => mret (∅, Some err)
  | None => c ← appstore.GetHTTPClient; appstore.liftW (httpclient.Get S c "/profiles" params)
  end.

Definition Create (name bId profileType : string) (devices certificates : list string)
  : appstore.M (gmap string JSON * option error) :=
  err ← appstore.EnsureAuth L S;
  match err with
  | Some err => mret (∅, Some err)
  | None =>
      c ← appstore.GetHTTPClient;
      appstore.liftW
        (httpclient.PostJSON S c "/profiles"
           (createBody name bId profileType devices certificates))
  end.

Definition ListDevices (pId : string) (params : gmap string string)
  : appstore.M (gmap string JSON * option error) :=
  err ← appstore.EnsureAuth L S;
  match err with
  | Some err => mret (∅, Some err)
  | None =>
      c ← appstore.GetHTTPClient;
      appstore.liftW (httpclient.Get S c ("/profiles/" ++ pId ++ "/devices") params)
  end.

Definition ListCertificates (pId : string) (params : gmap string string)
  : appstore.M (gmap string JSON * option error) :=
  err ← appstore.EnsureAuth L S;
  match err with
  | Some err => mret (∅, Some err)
  | None =>
      c ← appstore.GetHTTPClient;
      appstore.liftW
        (httpclient.Get S c ("/profiles/" ++ pId ++ "/relationships/certificates") params)
  end.

Definition Delete (pId : string) : appstore.M (gmap string JSON * option error) :=
  err ← appstore.EnsureAuth L S;
  match err with
  | Some err => mret (∅, Some err)
  | None =>
      c ← appstore.GetHTTPClient;
      appstore.liftW (httpclient.Delete S c ("/profiles/" ++ pId) ∅)
  end.

End Client.
End profiles.

(** ** pkg/appstore/certificates.go

    [getRandomCSR] and [Create] draw a fresh RSA key from [crypto/rand] and
    are not modelled; the listing, the deletion and the string helpers are. *)

Module certificates.

(** [s[lo:hi]] for [lo <= hi <= len(s)]. *)
Definition slice (s : string) (lo hi : nat) : string :=
  String.substring lo (hi - lo) s.

Definition trimPrefix (s prefix : string) : string :=
  if (String.length prefix <=? String.length s)%nat
     && String.eqb (slice s 0 (String.length prefix)) prefix
  then slice s (String.length prefix) (String.length s)
  else s.

Definition trimSuffix (s suffix : string) : string :=
  if (String.length suffix <=? String.length s)%nat
     && String.eqb (slice s (String.length s - String.length suffix) (String.length s)) suffix
  then slice s 0 (String.length s - String.length suffix)
  else s.

Definition trim (s : string) : string :=
  trimSuffix (trimPrefix s " ") " ".

Definition pemHeadersToContent (pemString : string) : string :=
  let content := pemString in
  let content := trimPrefix content "-----BEGIN CERTIFICATE REQUEST-----" in
  let content := trimPrefix content "-----BEGIN CERTIFICATE-----" in
  let content := trimSuffix content "-----END CERTIFICATE REQUEST-----" in
  let content := trimSuffix content "-----END CERTIFICATE-----" in
  trim content.

Definition charset : string := "abcdefghijklmnopqrstuvwxyz0123456789".

(** [UnixNano()]: the nanosecond count as an [int64]. *)
Definition time_UnixNano (t : Time) : Z := appstore.wrap64 t.

(** The loop of [randomString] from index [i] on, [n] bytes to go.  Every
    turn reads the clock; [%] is Go's truncated remainder, and a negative
    index into [charset] panics. *)
Fixpoint randomBytes (S : System) (n : nat) (i : Z) (w : World)
  : appstore.outcome string * World :=
  match n with
  | O => (appstore.Returns "", w)
  | Datatypes.S n' =>
      let now := time_Now S (w_ticks w) in
      let index :=
        Z.rem (appstore.wrap64 (time_UnixNano now + i)) (Z.of_nat (String.length charset)) in
      match (if (index <? 0)%Z then None else String.get (Z.to_nat index) charset) with
      | None => (appstore.Panics "index out of range", tick w)
      | Some b =>
          match randomBytes S n' (i + 1) (tick w) with
          | (appstore.Returns rest, w') => (appstore.Returns (String b rest), w')
          | (appstore.Panics msg, w') => (appstore.Panics msg, w')
          end
      end
  end.

Definition randomString (S : System) (length : Z) (w : World)
  : appstore.outcome string * World :=
  if (length <? 0)%Z then (appstore.Panics "makeslice: len out of range", w)
  else randomBytes S (Z.to_nat length) 0 w.

Section Client.
Variable L : Crypto.
Variable S : System.

Definition All (params : gmap string string)
  : appstore.M (gmap string JSON * option error) :=
  err ← appstore.EnsureAuth L S;
  match err with
  | Some err => mret (∅, Some err)
  | None =>
      c ← appstore.GetHTTPClient; appstore.liftW (httpclient.Get S c "/certificates" params)
  end.

Definition Delete (id : string) : appstore.M (gmap string JSON * option error) :=
  err ← appstore.EnsureAuth L S;
  match err with
  | Some err => mret (∅, Some err)
  | None =>
      c ← appstore.GetHTTPClient;
      appstore.liftW (httpclient.Delete S c ("/certificates/" ++ id) ∅)
  end.

End Client.
End certificates.

(** * More vocabulary *)

Definition newline : string := String "010" "".

(** The world after [n] more readings of the clock. *)
Definition advance (n : nat) (w : World) : World :=
  {| w_ticks := w_ticks w + n; w_sent := w_sent w |}.

(** Every byte of [s] occurs in [alphabet]. *)
Definition bytesIn (alphabet s : string) : Prop :=
  forall i b, String.get i s = Some b -> exists j, String.get j alphabet = Some b.

Fixpoint allBytes (P : ascii -> bool) (s : string) : bool :=
  match s with
  | EmptyString => true
  | String c s' => P c && allBytes P s'
  end.

(** The bytes a query string is made of. *)
Definition querySafe (c : ascii) : bool :=
  url.is_alnum c
  || match c with
     | "-" | "_" | "." | "~" | "%" | "+" | "=" | "&" => true
     | _ => false
     end%char.

(** * More concrete environments *)

Module scenario.

(** A machine whose secret file exists but cannot be read. *)
Definition unreadable : System := {|
  time_Now := time_Now (demo.system demo.upServer);
  os_Stat path := true;
  os_ReadFile path := Err "permission denied";
  http_NewRequest_err method url := None;
  http_Do := demo.upServer;
  json_Unmarshal := demo.unmarshal;
  json_Marshal body := Ok "{}";
  strings_ToUpper s := s
|}.

(** Answers with status 502 and a body that is not JSON. *)
Definition gatewayServer (_ : list Request) (_ : Request) : result Response :=
  demo.respond 502 "<html>".

(** Answers a registration with status 200 and the vendor's error body,
    and a lookup with the listing. *)
Definition softConflictServer (_ : list Request) (r : Request) : result Response :=
  if String.eqb (req_Method r) "POST" then demo.respond 200 "conflict"
  else demo.respond 200 "listing".

(** A client whose secret is not PEM text. *)
Definition badKeyClient : appstore.Client :=
  {| appstore.config := appstore.config demo.client;
     appstore.httpClient := demo.transport;
     appstore.jwtGenerator := demo.generator "not a key" |}.

(** A client with a token attached. *)
Definition authed : appstore.State :=
  at_world (attach "e30.e30.signature" demo.client) demo.world0.

(** Bodies the decoder of [demo] does not know. *)
Definition strange : gmap string JSON :=
  {[ "errors" := JArray [JString "rate limited"] ]}.

Definition registered : gmap string JSON :=
  {[ "data" := JObject (<["id" := JString "D1"]>
       {[ "attributes" := JObject (<["deviceClass" := JString "IPAD"]>
                                   {[ "status" := JString "ENABLED" ]}) ]}) ]}.

Definition unmarshal (body : string) : result (gmap string JSON) :=
  if String.eqb body "strange" then Ok strange
  else if String.eqb body "registered" then Ok registered
  else demo.unmarshal body.

Definition system (server : list Request -> Request -> result Response) : System := {|
  time_Now := time_Now (demo.system server);
  os_Stat := os_Stat (demo.system server);
  os_ReadFile := os_ReadFile (demo.system server);
  http_NewRequest_err method url := None;
  http_Do := server;
  json_Unmarshal := unmarshal;
  json_Marshal body := Ok "{}";
  strings_ToUpper s := s
|}.

(** Answers every request with status 200 and an errors array whose entry
    is a string. *)
Definition strangeServer (_ : list Request) (_ : Request) : result Response :=
  demo.respond 200 "strange".

(** Registers the device: status 201 and the new resource. *)
Definition registeringServer (_ : list Request) (r : Request) : result Response :=
  if String.eqb (req_Method r) "POST" then demo.respond 201 "registered"
  else demo.respond 200 "listing".

(** Answers every request with status 200 and an empty JSON object. *)
Definition emptyServer (_ : list Request) (_ : Request) : result Response :=
  demo.respond 200 "{}".

End scenario.

(** * Key files *)

(** The container a private key is stored in: PKCS#8, or the bare form that
    the retry of lines 87-90 reads. *)
Inductive container := PKCS8 | PKCS1.

(** A key file: a key of some family in one of the two containers. *)
Record keyFile := { kf_container : container; kf_key : any_key }.

(** The library reads payloads as [contents] describes them: the PKCS#8
    parser accepts the PKCS#8 containers and returns the key inside,
    whatever its family; the PKCS#1 parser accepts the RSA keys in PKCS#1
    form, which is all that its result type, [*rsa.PrivateKey], can hold. *)
Definition reads (L : Crypto) (contents : string -> option keyFile) : Prop :=
  forall der,
    (forall key,
        x509_ParsePKCS8PrivateKey L der = Ok key
        <-> contents der = Some {| kf_container := PKCS8; kf_key := key |})
    /\ (forall k,
        x509_ParsePKCS1PrivateKey L der = Ok k
        <-> contents der = Some {| kf_container := PKCS1; kf_key := KeyRSA k |}).

(** "For every valid PEM-encoded elliptic-curve private key in PKCS#8 or
    PKCS#1 form, the key parser succeeds and returns the elliptic-curve
    private key." *)
Definition ecKeyIsReturned (L : Crypto) (contents : string -> option keyFile) : Prop :=
  forall g block form key,
    pem_Decode L (jwtutil.PrivateKey (jwtutil.config g)) = Some block ->
    contents (block_Bytes block)
      = Some {| kf_container := form; kf_key := KeyECDSA key |} ->
    jwtutil.parsePrivateKey L g = Ok key.

Module keys.

(** The payloads that [demo.crypto] recognises, and one more: the
    elliptic-curve key of [demo] without the PKCS#8 wrapper. *)
Definition contents (der : string) : option keyFile :=
  if String.eqb der "pkcs8-ec"
  then Some {| kf_container := PKCS8; kf_key := KeyECDSA demo.ecKey |}
  else if String.eqb der "pkcs8-rsa"
  then Some {| kf_container := PKCS8; kf_key := KeyRSA demo.rsaKey |}
  else if String.eqb der "pkcs1-rsa"
  then Some {| kf_container := PKCS1; kf_key := KeyRSA demo.rsaKey |}
  else if String.eqb der "pkcs1-ec"
  then Some {| kf_container := PKCS1; kf_key := KeyECDSA demo.ecKey |}
  else None.

Definition block (der : string) : pem_Block :=
  {| block_Type := "PRIVATE KEY"; block_Bytes := der |}.

End keys.
(** * Properties of the token issuer *)

Lemma time_Unix_Add_seconds (t : Time) (k : Z) :
  time_Unix (time_Add t (k * Second)) = time_Unix t + k.
Proof.
  unfold time_Unix, time_Add, Second.
  now rewrite Z.div_add by lia.
Qed.

Lemma time_Unix_Add_minutes (t : Time) (k : Z) :
  time_Unix (time_Add t (k * Minute)) = time_Unix t + 60 * k.
Proof.
  unfold Minute. replace (k * (60 * Second)) with ((60 * k) * Second) by lia.
  apply time_Unix_Add_seconds.
Qed.

Lemma mintClaims_iat (g : jwtutil.Generator) (now : Time) :
  jwtutil.mintClaims g now !! "iat" = Some (CInt64 (time_Unix now - 60)).
Proof.
  unfold jwtutil.mintClaims. rewrite time_Unix_Add_seconds.
  rewrite lookup_insert_ne by done. now rewrite lookup_insert_eq.
Qed.

Lemma mintClaims_exp (g : jwtutil.Generator) (now : Time) :
  jwtutil.mintClaims g now !! "exp" = Some (CInt64 (time_Unix now + 1140)).
Proof.
  unfold jwtutil.mintClaims. rewrite time_Unix_Add_minutes.
  do 2 (rewrite lookup_insert_ne by done). now rewrite lookup_insert_eq.
Qed.

(** C1.  Whenever the configured key parses and the token can be signed,
    [GenerateToken] at mint time [now] returns the compact serialisation of
    a token whose claims are iat = now - 60 s, exp = now + 19 min (so that
    exp - iat is exactly 1200 s), aud = "appstoreconnect-v1" and iss = the
    configured issuer, and whose header has alg = "ES256" and kid = the
    configured key ID. *)
Theorem GenerateToken_claims (L : Crypto) (g : jwtutil.Generator) (now : Time)
    (key : ecdsa_PrivateKey) (sstr sig : string) :
  jwtutil.parsePrivateKey L g = Ok key ->
  jwt_SigningString L (jwtutil.mintToken g now) = Ok sstr ->
  jwt_Sign L SigningMethodES256 sstr key = Ok sig ->
  let t := jwtutil.mintToken g now in
  jwtutil.GenerateToken L g now = Ok (sstr ++ "." ++ jwt_EncodeSegment L sig)
  /\ SignedString L t key = Ok (sstr ++ "." ++ jwt_EncodeSegment L sig)
  /\ tok_Claims t !! "iat" = Some (CInt64 (time_Unix now - 60))
  /\ tok_Claims t !! "exp" = Some (CInt64 (time_Unix now + 19 * 60))
  /\ lifetime t = Some 1200
  /\ tok_Claims t !! "aud" = Some (CString "appstoreconnect-v1")
  /\ tok_Claims t !! "iss" = Some (CString (jwtutil.Issuer (jwtutil.config g)))
  /\ tok_Header t !! "alg" = Some (CString "ES256")
  /\ tok_Header t !! "kid" = Some (CString (jwtutil.KeyID (jwtutil.config g))).
Proof.
  intros Hkey Hsstr Hsig t.
  assert (Hsigned : SignedString L t key = Ok (sstr ++ "." ++ jwt_EncodeSegment L sig)).
  { unfold SignedString. subst t. rewrite Hsstr. cbn. now rewrite Hsig. }
  assert (Hiat := mintClaims_iat g now).
  assert (Hexp := mintClaims_exp g now).
  repeat apply conj.
  - unfold jwtutil.GenerateToken. rewrite Hkey. fold t. now rewrite Hsigned.
  - exact Hsigned.
  - exact Hiat.
  - exact Hexp.
  - unfold lifetime. cbn. rewrite Hexp, Hiat. f_equal. lia.
  - reflexivity.
  - cbn. unfold jwtutil.mintClaims. now rewrite lookup_insert_eq.
  - reflexivity.
  - cbn. now rewrite lookup_insert_eq.
Qed.

Lemma GenerateToken_claims_witness :
  jwtutil.GenerateToken demo.crypto (demo.generator "PEM:pkcs8-ec") demo.noon
    = Ok "e30.e30.signature"
  /\ lifetime (jwtutil.mintToken (demo.generator "PEM:pkcs8-ec") demo.noon) = Some 1200
  /\ tok_Claims (jwtutil.mintToken (demo.generator "PEM:pkcs8-ec") demo.noon) !! "iat"
       = Some (CInt64 1699999940).
Proof.
  destruct (GenerateToken_claims demo.crypto (demo.generator "PEM:pkcs8-ec") demo.noon
              demo.ecKey "e30.e30" "signature" eq_refl eq_refl eq_refl)
    as (H1 & _ & H3 & _ & H5 & _).
  split; [exact H1 | split; [exact H5 | exact H3]].
Defined.

(** With a token in hand the converse holds as well: what [GenerateToken]
    returns is always the signed serialisation of [mintToken]. *)
Lemma GenerateToken_Ok_inv (L : Crypto) (g : jwtutil.Generator) (now : Time) (s : string) :
  jwtutil.GenerateToken L g now = Ok s ->
  exists key sstr sig,
    jwtutil.parsePrivateKey L g = Ok key
    /\ jwt_SigningString L (jwtutil.mintToken g now) = Ok sstr
    /\ jwt_Sign L SigningMethodES256 sstr key = Ok sig
    /\ s = sstr ++ "." ++ jwt_EncodeSegment L sig.
Proof.
  unfold jwtutil.GenerateToken, SignedString.
  destruct (jwtutil.parsePrivateKey L g) as [key|]; [|discriminate].
  destruct (jwt_SigningString L (jwtutil.mintToken g now)) as [sstr|]; [|discriminate].
  cbn. destruct (jwt_Sign L SigningMethodES256 sstr key) as [sig|] eqn:Hs; [|discriminate].
  intros [= <-]. now exists key, sstr, sig.
Qed.

Lemma GenerateToken_nonempty (L : Crypto) (g : jwtutil.Generator) (now : Time) (s : string) :
  jwtutil.GenerateToken L g now = Ok s -> s <> "".
Proof.
  intros (key & sstr & sig & _ & _ & _ & ->)%GenerateToken_Ok_inv.
  destruct sstr; discriminate.
Qed.

(** * Properties of the key parser *)

(** The fallback cannot produce anything but an RSA key: that is the type
    of [x509.ParsePKCS1PrivateKey]. *)
Lemma parseKeyContainer_fallback (L : Crypto) (der : string) (key : any_key) :
  is_Ok (x509_ParsePKCS8PrivateKey L der) = false ->
  jwtutil.parseKeyContainer L der = Ok key ->
  exists k, x509_ParsePKCS1PrivateKey L der = Ok k /\ key = KeyRSA k.
Proof.
  unfold jwtutil.parseKeyContainer.
  destruct (x509_ParsePKCS8PrivateKey L der); [discriminate|].
  intros _. destruct (x509_ParsePKCS1PrivateKey L der) as [k|]; [|discriminate].
  intros [= <-]. now exists k.
Qed.

(** Hence a key is returned only through the PKCS#8 interpretation. *)
Lemma parsePrivateKey_Ok_inv (L : Crypto) (g : jwtutil.Generator) (key : ecdsa_PrivateKey) :
  jwtutil.parsePrivateKey L g = Ok key <->
  exists block,
    pem_Decode L (jwtutil.PrivateKey (jwtutil.config g)) = Some block
    /\ x509_ParsePKCS8PrivateKey L (block_Bytes block) = Ok (KeyECDSA key).
Proof.
  unfold jwtutil.parsePrivateKey, jwtutil.parseKeyContainer. split.
  - destruct (pem_Decode L _) as [block|]; [|discriminate].
    destruct (x509_ParsePKCS8PrivateKey L (block_Bytes block)) as [[]|] eqn:H8.
    all: try discriminate.
    + intros [= <-]. now exists block.
    + destruct (x509_ParsePKCS1PrivateKey L (block_Bytes block)); discriminate.
  - intros (block & -> & ->). reflexivity.
Qed.

(** The library of [demo] reads the four key files as they are. *)
Lemma demo_reads : reads demo.crypto keys.contents.
Proof.
  intros der. unfold keys.contents. cbn.
  destruct (String.eqb der "pkcs8-ec") eqn:H1;
    [apply String.eqb_eq in H1; subst der; cbn; split; intros ?; split; congruence|].
  destruct (String.eqb der "pkcs8-rsa") eqn:H2;
    [apply String.eqb_eq in H2; subst der; cbn; split; intros ?; split; congruence|].
  destruct (String.eqb der "pkcs1-rsa") eqn:H3;
    [apply String.eqb_eq in H3; subst der; cbn; split; intros ?; split; congruence|].
  destruct (String.eqb der "pkcs1-ec") eqn:H4; split; intros ?; split; congruence.
Qed.

(** C2.  The key parser.  (1) An elliptic-curve key in PKCS#8 form is
    returned.  (2) When the PKCS#8 interpretation of the payload fails, the
    parser fails whatever the PKCS#1 retry gives: with the key-type error if
    the retry parses (it can only yield an RSA key), with the key-format
    error "failed to parse private key: ..." carrying the retry's error if
    it does not.  (3) An input with no PEM block fails with the key-format
    error "failed to decode PEM block".  (4) An RSA key, in PKCS#8 or in
    PKCS#1 form, fails with the key-type error.  (5, 6) In terms of key
    files, for a library that reads them faithfully: an elliptic-curve key
    is returned from the PKCS#8 container and rejected with the key-format
    error from the other one; an RSA key is rejected with the key-type error
    from either. *)
Theorem parsePrivateKey_by_container (L : Crypto) (g : jwtutil.Generator) :
  let pemText := jwtutil.PrivateKey (jwtutil.config g) in
  (forall block key,
      pem_Decode L pemText = Some block ->
      x509_ParsePKCS8PrivateKey L (block_Bytes block) = Ok (KeyECDSA key) ->
      jwtutil.parsePrivateKey L g = Ok key)
  /\ (forall block e8,
      pem_Decode L pemText = Some block ->
      x509_ParsePKCS8PrivateKey L (block_Bytes block) = Err e8 ->
      jwtutil.parsePrivateKey L g
        = match x509_ParsePKCS1PrivateKey L (block_Bytes block) with
          | Ok _ => Err "private key is not ECDSA"
          | Err e1 => Err ("failed to parse private key: " ++ e1)
          end)
  /\ (pem_Decode L pemText = None ->
      jwtutil.parsePrivateKey L g = Err "failed to decode PEM block")
  /\ (forall block k,
      pem_Decode L pemText = Some block ->
      x509_ParsePKCS8PrivateKey L (block_Bytes block) = Ok (KeyRSA k)
      \/ (is_Ok (x509_ParsePKCS8PrivateKey L (block_Bytes block)) = false
          /\ x509_ParsePKCS1PrivateKey L (block_Bytes block) = Ok k) ->
      jwtutil.parsePrivateKey L g = Err "private key is not ECDSA")
  /\ (forall contents block form key,
      reads L contents ->
      pem_Decode L pemText = Some block ->
      contents (block_Bytes block)
        = Some {| kf_container := form; kf_key := KeyECDSA key |} ->
      match form with
      | PKCS8 => jwtutil.parsePrivateKey L g = Ok key
      | PKCS1 =>
          exists e1,
            x509_ParsePKCS1PrivateKey L (block_Bytes block) = Err e1
            /\ jwtutil.parsePrivateKey L g = Err ("failed to parse private key: " ++ e1)
      end)
  /\ (forall contents block form k,
      reads L contents ->
      pem_Decode L pemText = Some block ->
      contents (block_Bytes block) = Some {| kf_container := form; kf_key := KeyRSA k |} ->
      jwtutil.parsePrivateKey L g = Err "private key is not ECDSA").
Proof.
  intros pemText. unfold jwtutil.parsePrivateKey, jwtutil.parseKeyContainer. fold pemText.
  repeat apply conj.
  - intros block key -> ->. reflexivity.
  - intros block e8 -> ->.
    now destruct (x509_ParsePKCS1PrivateKey L (block_Bytes block)).
  - intros ->. reflexivity.
  - intros block k -> [-> | [H8 ->]]; [reflexivity|].
    now destruct (x509_ParsePKCS8PrivateKey L (block_Bytes block)).
  - intros contents block form key Hreads -> Hc.
    destruct (Hreads (block_Bytes block)) as [H8 H1].
    destruct form.
    + now rewrite (proj2 (H8 _) Hc).
    + destruct (x509_ParsePKCS8PrivateKey L (block_Bytes block)) as [key'|e8] eqn:E8.
      { rewrite (proj1 (H8 key') eq_refl) in Hc. discriminate Hc. }
      destruct (x509_ParsePKCS1PrivateKey L (block_Bytes block)) as [k|e1] eqn:E1.
      { rewrite (proj1 (H1 k) eq_refl) in Hc. discriminate Hc. }
      now exists e1.
  - intros contents block form k Hreads -> Hc.
    destruct (Hreads (block_Bytes block)) as [H8 H1].
    destruct form.
    + now rewrite (proj2 (H8 _) Hc).
    + rewrite (proj2 (H1 k) Hc).
      destruct (x509_ParsePKCS8PrivateKey L (block_Bytes block)) as [key'|e8] eqn:E8;
        [|reflexivity].
      rewrite (proj1 (H8 key') eq_refl) in Hc. discriminate Hc.
Qed.

Lemma parsePrivateKey_by_container_witness :
  jwtutil.parsePrivateKey demo.crypto (demo.generator "PEM:pkcs8-ec") = Ok demo.ecKey
  /\ jwtutil.parsePrivateKey demo.crypto (demo.generator "PEM:pkcs1-ec")
       = Err "failed to parse private key: x509: failed to parse private key"
  /\ jwtutil.parsePrivateKey demo.crypto (demo.generator "no armour")
       = Err "failed to decode PEM block"
  /\ jwtutil.parsePrivateKey demo.crypto (demo.generator "PEM:pkcs8-rsa")
       = Err "private key is not ECDSA"
  /\ jwtutil.parsePrivateKey demo.crypto (demo.generator "PEM:pkcs1-rsa")
       = Err "private key is not ECDSA"
  /\ (exists e1,
        x509_ParsePKCS1PrivateKey demo.crypto "pkcs1-ec" = Err e1
        /\ jwtutil.parsePrivateKey demo.crypto (demo.generator "PEM:pkcs1-ec")
             = Err ("failed to parse private key: " ++ e1))
  /\ jwtutil.parsePrivateKey demo.crypto (demo.generator "PEM:pkcs1-rsa")
       = Err "private key is not ECDSA".
Proof.
  repeat apply conj.
  - destruct (parsePrivateKey_by_container demo.crypto (demo.generator "PEM:pkcs8-ec"))
      as (H & _).
    apply (H (keys.block "pkcs8-ec")); reflexivity.
  - destruct (parsePrivateKey_by_container demo.crypto (demo.generator "PEM:pkcs1-ec"))
      as (_ & H & _).
    apply (H (keys.block "pkcs1-ec") "x509: failed to parse private key"); reflexivity.
  - destruct (parsePrivateKey_by_container demo.crypto (demo.generator "no armour"))
      as (_ & _ & H & _).
    apply H; reflexivity.
  - destruct (parsePrivateKey_by_container demo.crypto (demo.generator "PEM:pkcs8-rsa"))
      as (_ & _ & _ & H & _).
    apply (H (keys.block "pkcs8-rsa") demo.rsaKey); [reflexivity | left; reflexivity].
  - destruct (parsePrivateKey_by_container demo.crypto (demo.generator "PEM:pkcs1-rsa"))
      as (_ & _ & _ & H & _).
    apply (H (keys.block "pkcs1-rsa") demo.rsaKey);
      [reflexivity | right; split; reflexivity].
  - destruct (parsePrivateKey_by_container demo.crypto (demo.generator "PEM:pkcs1-ec"))
      as (_ & _ & _ & _ & H & _).
    apply (H keys.contents (keys.block "pkcs1-ec") PKCS1 demo.ecKey demo_reads);
      reflexivity.
  - destruct (parsePrivateKey_by_container demo.crypto (demo.generator "PEM:pkcs1-rsa"))
      as (_ & _ & _ & _ & _ & H).
    apply (H keys.contents (keys.block "pkcs1-rsa") PKCS1 demo.rsaKey demo_reads);
      reflexivity.
Defined.

(** The elliptic-curve key of [demo] without the PKCS#8 wrapper: the PKCS#8
    interpretation fails, the retry fails as well, and the parser reports a
    key in no known format. *)
Lemma ec_key_outside_pkcs8_is_rejected :
  reads demo.crypto keys.contents
  /\ keys.contents "pkcs1-ec"
       = Some {| kf_container := PKCS1; kf_key := KeyECDSA demo.ecKey |}
  /\ jwtutil.parsePrivateKey demo.crypto (demo.generator "PEM:pkcs1-ec")
       = Err "failed to parse private key: x509: failed to parse private key"
  /\ ~ ecKeyIsReturned demo.crypto keys.contents.
Proof.
  split; [exact demo_reads|]. split; [reflexivity|]. split; [reflexivity|].
  intros H.
  specialize (H (demo.generator "PEM:pkcs1-ec") (keys.block "pkcs1-ec") PKCS1 demo.ecKey
                eq_refl eq_refl).
  discriminate H.
Qed.

(** * Properties of client construction *)

Lemma NewGenerator_Ok (cfg : jwtutil.JWTConfig) :
  jwtutil.Issuer cfg <> "" -> jwtutil.KeyID cfg <> "" -> jwtutil.PrivateKey cfg <> "" ->
  jwtutil.NewGenerator cfg = Ok {| jwtutil.config := cfg |}.
Proof.
  intros H1 H2 H3. unfold jwtutil.NewGenerator.
  repeat case_decide; congruence.
Qed.

Lemma NewGenerator_Err (cfg : jwtutil.JWTConfig) :
  jwtutil.Issuer cfg = "" \/ jwtutil.KeyID cfg = "" \/ jwtutil.PrivateKey cfg = "" ->
  exists e, jwtutil.NewGenerator cfg = Err e
            /\ e ∈ ["issuer is required"; "key id is required"; "private key is required"].
Proof.
  intros H. unfold jwtutil.NewGenerator.
  destruct (decide (jwtutil.Issuer cfg = "")).
  { eexists; split; [reflexivity | apply list_elem_of_here]. }
  destruct (decide (jwtutil.KeyID cfg = "")).
  { eexists; split; [reflexivity | do 1 apply list_elem_of_further; apply list_elem_of_here]. }
  destruct (decide (jwtutil.PrivateKey cfg = "")).
  { eexists; split; [reflexivity | do 2 apply list_elem_of_further; apply list_elem_of_here]. }
  tauto.
Qed.

(** C9.  [NewClient] fails with one of the three configuration errors when
    the issuer, the key ID or the secret is empty ([NewGenerator] makes the
    same checks on what it is given); a client it returns carries API
    version "v1" when none was configured and the configured one otherwise;
    with the three values non-empty it never fails with a configuration
    error, and it succeeds as soon as the secret resolves to a non-empty
    text. *)
Theorem NewClient_validation (S : System) (cfg : appstore.Config) :
  (appstore.Issuer cfg = "" \/ appstore.KeyID cfg = "" \/ appstore.Secret cfg = "" ->
     exists e, appstore.NewClient S cfg = Err e /\ e ∈ configErrors)
  /\ (forall c, appstore.NewClient S cfg = Ok c ->
        appstore.APIVersion (appstore.config c)
          = (if decide (appstore.APIVersion cfg = "") then "v1" else appstore.APIVersion cfg)
        /\ httpclient.APIVersion (httpclient.config (appstore.httpClient c))
          = appstore.APIVersion (appstore.config c))
  /\ (appstore.Issuer cfg <> "" -> appstore.KeyID cfg <> "" -> appstore.Secret cfg <> "" ->
        (forall e, appstore.NewClient S cfg = Err e -> e ∉ configErrors)
        /\ (forall privateKey,
              resolvedSecret S (appstore.Secret cfg) = Ok privateKey -> privateKey <> "" ->
              is_Ok (appstore.NewClient S cfg) = true))
  /\ (forall j, jwtutil.Issuer j <> "" -> jwtutil.KeyID j <> "" -> jwtutil.PrivateKey j <> "" ->
        is_Ok (jwtutil.NewGenerator j) = true)
  /\ (forall j, jwtutil.Issuer j = "" \/ jwtutil.KeyID j = "" \/ jwtutil.PrivateKey j = "" ->
        is_Ok (jwtutil.NewGenerator j) = false).
Proof.
  repeat apply conj.
  - intros H. unfold appstore.NewClient, configErrors.
    destruct (decide (appstore.Issuer cfg = "")).
    { eexists; split; [reflexivity | apply list_elem_of_here]. }
    destruct (decide (appstore.KeyID cfg = "")).
    { eexists; split; [reflexivity | do 1 apply list_elem_of_further; apply list_elem_of_here]. }
    destruct (decide (appstore.Secret cfg = "")).
    { eexists; split; [reflexivity | do 2 apply list_elem_of_further; apply list_elem_of_here]. }
    tauto.
  - intros c. unfold appstore.NewClient.
    destruct (decide (appstore.Issuer cfg = "")); [discriminate|].
    destruct (decide (appstore.KeyID cfg = "")); [discriminate|].
    destruct (decide (appstore.Secret cfg = "")); [discriminate|].
    destruct (decide (appstore.APIVersion cfg = "")); cbn;
      destruct (os_Stat S (appstore.Secret cfg));
      try destruct (os_ReadFile S (appstore.Secret cfg)); try discriminate;
      match goal with
      | |- context [jwtutil.NewGenerator ?j] => destruct (jwtutil.NewGenerator j)
      end; try discriminate; intros [= <-]; cbn; auto.
  - intros H1 H2 H3. split.
    + intros e. unfold appstore.NewClient, configErrors.
      destruct (decide (appstore.Issuer cfg = "")); [tauto|].
      destruct (decide (appstore.KeyID cfg = "")); [tauto|].
      destruct (decide (appstore.Secret cfg = "")); [tauto|].
      destruct (decide (appstore.APIVersion cfg = "")); cbn;
        destruct (os_Stat S (appstore.Secret cfg));
        try destruct (os_ReadFile S (appstore.Secret cfg)); cbn;
        try match goal with
        | |- context [jwtutil.NewGenerator ?j] => destruct (jwtutil.NewGenerator j)
        end; try discriminate; intros [= <-]; cbn;
        rewrite !elem_of_cons, elem_of_nil; intros [|[|[|[]]]]; discriminate.
    + intros privateKey Hres Hne. unfold appstore.NewClient.
      destruct (decide (appstore.Issuer cfg = "")); [tauto|].
      destruct (decide (appstore.KeyID cfg = "")); [tauto|].
      destruct (decide (appstore.Secret cfg = "")); [tauto|].
      unfold resolvedSecret in Hres.
      destruct (decide (appstore.APIVersion cfg = "")); cbn;
        destruct (os_Stat S (appstore.Secret cfg)); rewrite ?Hres;
        try (injection Hres as <-);
        rewrite NewGenerator_Ok by (cbn; assumption); reflexivity.
  - intros j H1 H2 H3. now rewrite NewGenerator_Ok.
  - intros j H. destruct (NewGenerator_Err j H) as (e & -> & _). reflexivity.
Qed.

(** * Properties of the authentication gate *)

Lemma authorization_token (c : httpclient.Client) :
  httpclient.Token (httpclient.config c) <> "" ->
  authorization c = "Bearer " ++ httpclient.Token (httpclient.config c).
Proof.
  intros H. unfold authorization, index_str, httpclient.GetHeaders.
  destruct (decide _) as [|_]; [contradiction|].
  now rewrite lookup_insert_eq.
Qed.

Lemma authorization_no_token (c : httpclient.Client) :
  httpclient.Token (httpclient.config c) = "" ->
  authorization c = index_str (httpclient.Headers (httpclient.config c)) "Authorization".
Proof.
  intros H. unfold authorization, httpclient.GetHeaders.
  now destruct (decide _).
Qed.

Lemma GenerateToken_Ok_parses (L : Crypto) (g : jwtutil.Generator) (now : Time) (s : string) :
  jwtutil.GenerateToken L g now = Ok s -> is_Ok (jwtutil.parsePrivateKey L g) = true.
Proof.
  intros (key & _ & _ & -> & _)%GenerateToken_Ok_inv. reflexivity.
Qed.

Lemma EnsureAuth_absent (L : Crypto) (S : System) (st : appstore.State) :
  authorization (appstore.httpClient (appstore.st_client st)) = "" ->
  appstore.EnsureAuth L S st =
    match jwtutil.GenerateToken L (appstore.jwtGenerator (appstore.st_client st))
            (time_Now S (w_ticks (appstore.st_world st))) with
    | Ok token =>
        (appstore.Returns None,
         at_world (attach token (appstore.st_client st)) (tick (appstore.st_world st)))
    | Err e =>
        (appstore.Returns (Some (wrapf "failed to generate token" e)),
         at_world (appstore.st_client st)
           (if is_Ok (jwtutil.parsePrivateKey L (appstore.jwtGenerator (appstore.st_client st)))
            then tick (appstore.st_world st) else appstore.st_world st))
    end.
Proof.
  intros H. unfold authorization in H.
  unfold appstore.EnsureAuth, mbind, appstore.M_bind, appstore.GetHTTPClient.
  destruct (decide _) as [_|]; [|contradiction].
  unfold appstore.GetToken.
  destruct (jwtutil.GenerateToken L _ _) as [token|e] eqn:Hgen; [|reflexivity].
  apply GenerateToken_Ok_parses in Hgen. rewrite Hgen. reflexivity.
Qed.

Lemma EnsureAuth_present (L : Crypto) (S : System) (st : appstore.State) :
  authorization (appstore.httpClient (appstore.st_client st)) <> "" ->
  appstore.EnsureAuth L S st = (appstore.Returns None, st).
Proof.
  intros H. unfold authorization in H.
  unfold appstore.EnsureAuth, mbind, appstore.M_bind, appstore.GetHTTPClient.
  destruct (decide _); [contradiction | reflexivity].
Qed.

Lemma EnsureAuth_attached (L : Crypto) (S : System) (st : appstore.State) :
  attachedToken (appstore.st_client st) <> "" ->
  appstore.EnsureAuth L S st = (appstore.Returns None, st).
Proof.
  intros H. apply EnsureAuth_present.
  rewrite authorization_token by exact H. discriminate.
Qed.

(** C3.  [EnsureAuth] mints exactly when the header set the transport
    would send has no Authorization value: then it calls the issuer with
    the current clock reading and, on success, stores the token it was given
    as the transport's token and changes nothing else; otherwise it changes
    nothing.  After a mint the attached token is the minted one, the
    Authorization header is "Bearer " followed by it, every other header is
    as before and no request has been sent.  For a client whose extra
    headers do not themselves set Authorization (every client [NewClient]
    builds), the call mints exactly when no token is attached.  Once a token
    is attached the call is a no-op whatever the time, and after any
    successful call every further call, at any later state of the world,
    leaves the client unchanged. *)
Theorem EnsureAuth_presence_check (L : Crypto) (S : System) (st : appstore.State) :
  let c := appstore.st_client st in
  let w := appstore.st_world st in
  let t := httpclient.config (appstore.httpClient c) in
  (authorization (appstore.httpClient c) = "" ->
     appstore.EnsureAuth L S st =
       match jwtutil.GenerateToken L (appstore.jwtGenerator c) (time_Now S (w_ticks w)) with
       | Ok token =>
           (appstore.Returns None,
            {| appstore.st_client :=
                 {| appstore.config := appstore.config c;
                    appstore.httpClient :=
                      {| httpclient.config :=
                           {| httpclient.BaseURL := httpclient.BaseURL t;
                              httpclient.APIVersion := httpclient.APIVersion t;
                              httpclient.Token := token;
                              httpclient.Headers := httpclient.Headers t |} |};
                    appstore.jwtGenerator := appstore.jwtGenerator c |};
               appstore.st_world := tick w |})
       | Err e =>
           (appstore.Returns (Some (wrapf "failed to generate token" e)),
            at_world c (if is_Ok (jwtutil.parsePrivateKey L (appstore.jwtGenerator c))
                        then tick w else w))
       end)
  /\ (forall token,
        authorization (appstore.httpClient c) = "" ->
        jwtutil.GenerateToken L (appstore.jwtGenerator c) (time_Now S (w_ticks w)) = Ok token ->
        let c' := appstore.st_client (snd (appstore.EnsureAuth L S st)) in
        fst (appstore.EnsureAuth L S st) = appstore.Returns None
        /\ attachedToken c' = token
        /\ httpclient.GetHeaders (appstore.httpClient c') !! "Authorization"
             = Some ("Bearer " ++ token)
        /\ (forall k, k <> "Authorization" ->
              httpclient.GetHeaders (appstore.httpClient c') !! k
                = httpclient.GetHeaders (appstore.httpClient c) !! k)
        /\ w_sent (appstore.st_world (snd (appstore.EnsureAuth L S st))) = w_sent w)
  /\ (authorization (appstore.httpClient c) <> "" ->
        appstore.EnsureAuth L S st = (appstore.Returns None, st))
  /\ (httpclient.Headers (httpclient.config (appstore.httpClient c)) !! "Authorization" = None ->
        authorization (appstore.httpClient c) = "" <-> attachedToken c = "")
  /\ (attachedToken c <> "" -> appstore.EnsureAuth L S st = (appstore.Returns None, st))
  /\ (forall st', appstore.EnsureAuth L S st = (appstore.Returns None, st') ->
        forall w', appstore.EnsureAuth L S (at_world (appstore.st_client st') w')
                   = (appstore.Returns None, at_world (appstore.st_client st') w')).
Proof.
  intros c w t. repeat apply conj.
  - apply EnsureAuth_absent.
  - intros token Habs Hgen. rewrite (EnsureAuth_absent L S st Habs). fold c w. rewrite Hgen.
    pose proof (GenerateToken_nonempty L _ _ _ Hgen) as Hne.
    cbn. unfold attachedToken, httpclient.GetHeaders. cbn.
    destruct (decide (token = "")) as [|_]; [contradiction|].
    repeat apply conj; try reflexivity.
    + now rewrite lookup_insert_eq.
    + intros k Hk. rewrite lookup_insert_ne by congruence.
      destruct (decide (httpclient.Token (httpclient.config (appstore.httpClient c)) = ""))
        as [|Hold]; [reflexivity|].
      now rewrite lookup_insert_ne by congruence.
  - apply EnsureAuth_present.
  - intros Hh. unfold attachedToken. split.
    + intros Ha. destruct (decide (httpclient.Token (httpclient.config (appstore.httpClient c)) = ""))
        as [|Hne]; [assumption|].
      rewrite authorization_token in Ha by exact Hne. discriminate.
    + intros Ht. rewrite authorization_no_token by exact Ht.
      unfold index_str. now rewrite Hh.
  - apply EnsureAuth_attached.
  - intros st' Hrun w'.
    destruct (decide (authorization (appstore.httpClient c) = "")) as [Habs|Hpres].
    + rewrite EnsureAuth_absent in Hrun by exact Habs.
      destruct (jwtutil.GenerateToken L _ _) as [token|e] eqn:Hgen; [|discriminate].
      injection Hrun as <-. apply EnsureAuth_attached. cbn.
      eapply GenerateToken_nonempty, Hgen.
    + rewrite EnsureAuth_present in Hrun by exact Hpres.
      injection Hrun as <-. apply EnsureAuth_present. exact Hpres.
Qed.

(** * Properties of the transport *)

Lemma roundTrip_answered (S : System) (req : Request) (w : World) (code : Z)
    (result : gmap string JSON) :
  answered S w req code result ->
  httpclient.roundTrip S req w =
    ((result, if bool_decide (code >= 400) then Some (httpclient.statusError code) else None),
     sent req w).
Proof.
  intros (resp & text & Hdo & <- & Hbody & Hjson).
  unfold httpclient.roundTrip. rewrite Hdo, Hbody, Hjson.
  now destruct (bool_decide _).
Qed.

Lemma Get_answered (S : System) (c : httpclient.Client) (path : string)
    (params : gmap string string) (w : World) (code : Z) (result : gmap string JSON) :
  http_NewRequest_err S "GET" (httpclient.fullURL c path params) = None ->
  answered S w (getRequest c path params) code result ->
  httpclient.Get S c path params w =
    ((result, if bool_decide (code >= 400) then Some (httpclient.statusError code) else None),
     sent (getRequest c path params) w).
Proof.
  intros Hnew Hans. unfold httpclient.Get. rewrite Hnew.
  now apply roundTrip_answered.
Qed.

Lemma PostJSON_answered (S : System) (c : httpclient.Client) (path : string)
    (body : JSON) (jsonBody : string) (w : World) (code : Z) (result : gmap string JSON) :
  json_Marshal S body = Ok jsonBody ->
  http_NewRequest_err S "POST" (httpclient.BuildURL c path) = None ->
  answered S w (postRequest c path jsonBody) code result ->
  httpclient.PostJSON S c path body w =
    ((result, if bool_decide (code >= 400) then Some (httpclient.statusError code) else None),
     sent (postRequest c path jsonBody) w).
Proof.
  intros Hm Hnew Hans. unfold httpclient.PostJSON. rewrite Hm, Hnew.
  now apply roundTrip_answered.
Qed.

Lemma Delete_answered (S : System) (c : httpclient.Client) (path : string)
    (params : gmap string string) (w : World) (code : Z) (result : gmap string JSON) :
  http_NewRequest_err S "DELETE" (httpclient.fullURL c path params) = None ->
  answered S w (deleteRequest c path params) code result ->
  httpclient.Delete S c path params w =
    ((result, if bool_decide (code >= 400) then Some (httpclient.statusError code) else None),
     sent (deleteRequest c path params) w).
Proof.
  intros Hnew Hans. unfold httpclient.Delete. rewrite Hnew.
  now apply roundTrip_answered.
Qed.

(** C6.  For each of the three verbs: when the request is answered with a
    status of 400 or more and a body that parses as a JSON object, the call
    returns that parsed body together with a non-nil error (which names the
    status). *)
Theorem status_error_keeps_body (S : System) (c : httpclient.Client) (path : string)
    (w : World) (code : Z) (result : gmap string JSON) :
  code >= 400 ->
  (forall params,
      http_NewRequest_err S "GET" (httpclient.fullURL c path params) = None ->
      answered S w (getRequest c path params) code result ->
      fst (httpclient.Get S c path params w)
        = (result, Some (httpclient.statusError code)))
  /\ (forall body jsonBody,
      json_Marshal S body = Ok jsonBody ->
      http_NewRequest_err S "POST" (httpclient.BuildURL c path) = None ->
      answered S w (postRequest c path jsonBody) code result ->
      fst (httpclient.PostJSON S c path body w)
        = (result, Some (httpclient.statusError code)))
  /\ (forall params,
      http_NewRequest_err S "DELETE" (httpclient.fullURL c path params) = None ->
      answered S w (deleteRequest c path params) code result ->
      fst (httpclient.Delete S c path params w)
        = (result, Some (httpclient.statusError code))).
Proof.
  intros Hcode.
  assert (Hb : bool_decide (code >= 400) = true) by now apply bool_decide_eq_true.
  repeat apply conj.
  - intros params Hnew Hans. rewrite (Get_answered _ _ _ _ _ _ _ Hnew Hans).
    now rewrite Hb.
  - intros body jsonBody Hm Hnew Hans.
    rewrite (PostJSON_answered _ _ _ _ _ _ _ _ Hm Hnew Hans). now rewrite Hb.
  - intros params Hnew Hans. rewrite (Delete_answered _ _ _ _ _ _ _ Hnew Hans).
    now rewrite Hb.
Qed.

Lemma conflict_answered (w : World) (req : Request) :
  req_Method req = "POST" ->
  answered (demo.system demo.conflictServer) w req 409 demo.conflict.
Proof.
  intros Hm. exists {| StatusCode := 409; Body := Ok "conflict" |}, "conflict".
  cbn. unfold demo.conflictServer. rewrite Hm. now cbn.
Qed.

Lemma forbidden_answered (w : World) (req : Request) :
  answered (demo.system demo.forbiddenServer) w req 403 ∅.
Proof.
  now exists {| StatusCode := 403; Body := Ok "{}" |}, "{}".
Qed.

Lemma status_error_keeps_body_witness :
  fst (httpclient.Get (demo.system demo.forbiddenServer) demo.transport "/devices"
         (appstore.lookupParams "UDID-1") demo.world0)
    = (∅, Some "API request failed with status 403")
  /\ fst (httpclient.PostJSON (demo.system demo.conflictServer) demo.transport "/devices"
            JNull demo.world0)
    = (demo.conflict, Some "API request failed with status 409")
  /\ fst (httpclient.Delete (demo.system demo.forbiddenServer) demo.transport
            "/certificates/C1" ∅ demo.world0)
    = (∅, Some "API request failed with status 403").
Proof.
  repeat apply conj.
  - apply (status_error_keeps_body (demo.system demo.forbiddenServer) demo.transport
             "/devices" demo.world0 403 ∅); [lia | reflexivity | apply forbidden_answered].
  - apply (status_error_keeps_body (demo.system demo.conflictServer) demo.transport
             "/devices" demo.world0 409 demo.conflict ltac:(lia)) with (jsonBody := "{}");
      [reflexivity | reflexivity | now apply conflict_answered].
  - apply (status_error_keeps_body (demo.system demo.forbiddenServer) demo.transport
             "/certificates/C1" demo.world0 403 ∅); [lia | reflexivity | apply forbidden_answered].
Defined.

(** * Properties of the device lookups *)

(** What a lookup can hand back: a failure record or a description, always
    with a nil error. *)
Inductive lookupValue : appstore.DeviceType * option error -> Prop :=
| lookup_failed (e : string) : lookupValue (appstore.failed e, None)
| lookup_described (deviceClass model platform status : string) :
    lookupValue (appstore.described deviceClass model platform status, None).

Definition lookupOutcome (r : appstore.outcome (appstore.DeviceType * option error)) : Prop :=
  match r with
  | appstore.Returns v => lookupValue v
  | appstore.Panics _ => True
  end.

Create HintDb lookups.
#[local] Hint Constructors lookupValue : lookups.

Ltac lookup_step :=
  match goal with
  | |- lookupOutcome (fst (match ?x with _ => _ end)) => destruct x eqn:?
  | |- lookupOutcome (fst (match ?x with _ => _ end _)) => destruct x eqn:?
  | |- lookupOutcome (fst (if ?x then _ else _)) => destruct x eqn:?
  | |- lookupOutcome (fst (let '(_, _) := ?x in _)) => destruct x eqn:?
  end.

Lemma GetDeviceType_outcome (L : Crypto) (S : System) (udid : string) (st : appstore.State) :
  lookupOutcome (fst (appstore.GetDeviceType L S udid st)).
Proof.
  unfold appstore.GetDeviceType, mbind, appstore.M_bind.
  destruct (appstore.All L S (appstore.lookupParams udid) st) as [[[response [err|]]|msg] st1];
    cbn; auto with lookups.
  unfold mret, appstore.M_ret, appstore.panic.
  repeat lookup_step; cbn; auto with lookups.
Qed.

Lemma RegisterAndGetType_outcome (L : Crypto) (S : System) (name platform udid : string)
    (st : appstore.State) :
  lookupOutcome (fst (appstore.RegisterAndGetType L S name platform udid st)).
Proof.
  unfold appstore.RegisterAndGetType, mbind, appstore.M_bind.
  destruct (appstore.Register L S name platform udid st)
    as [[[registration [err|]]|msg] st1]; cbn; auto with lookups.
  unfold mret, appstore.M_ret, appstore.panic.
  destruct (appstore.errorsDetail registration) as [|errorDetail|]; cbn; auto.
  - repeat lookup_step; cbn; auto with lookups.
  - destruct (appstore.Contains errorDetail _); cbn; auto with lookups.
    apply GetDeviceType_outcome.
Qed.

Lemma described_flagsAgree (deviceClass model platform status : string) :
  flagsAgree (appstore.described deviceClass model platform status).
Proof.
  unfold flagsAgree; cbn. rewrite !String.eqb_eq. tauto.
Qed.

Lemma described_flagCount (deviceClass model platform status : string) :
  (flagCount (appstore.described deviceClass model platform status) <= 1)%nat.
Proof.
  unfold flagCount; cbn.
  destruct (String.eqb_spec deviceClass "IPHONE") as [->|]; [cbn; lia|].
  destruct (String.eqb_spec deviceClass "IPAD") as [->|]; [cbn; lia|].
  destruct (String.eqb deviceClass "MAC"); cbn; lia.
Qed.

Lemma lookupValue_flags (d : appstore.DeviceType) (err : option error) :
  lookupValue (d, err) ->
  flagsAgree d /\ (flagCount d <= 1)%nat /\ (appstore.Success d = false -> noFlag d).
Proof.
  inversion 1; subst.
  - split; [|split].
    + unfold flagsAgree; cbn. repeat split; discriminate.
    + cbn. lia.
    + intros _. unfold noFlag; cbn. auto.
  - split; [|split].
    + apply described_flagsAgree.
    + apply described_flagCount.
    + discriminate.
Qed.

(** C10.  Every [DeviceType] that [GetDeviceType] or [RegisterAndGetType]
    returns has IsIPhone, IsIPad and IsMac true exactly when DeviceClass is
    "IPHONE", "IPAD" and "MAC" respectively; so at most one of the flags is
    set, and none is in a failure result. *)
Theorem DeviceType_flags (L : Crypto) (S : System) (st st' : appstore.State)
    (d : appstore.DeviceType) (err : option error) :
  (exists udid, appstore.GetDeviceType L S udid st = (appstore.Returns (d, err), st'))
  \/ (exists name platform udid,
        appstore.RegisterAndGetType L S name platform udid st
          = (appstore.Returns (d, err), st')) ->
  flagsAgree d /\ (flagCount d <= 1)%nat /\ (appstore.Success d = false -> noFlag d).
Proof.
  intros [(udid & H) | (name & platform & udid & H)].
  - apply (lookupValue_flags d err).
    pose proof (GetDeviceType_outcome L S udid st) as Ho. now rewrite H in Ho.
  - apply (lookupValue_flags d err).
    pose proof (RegisterAndGetType_outcome L S name platform udid st) as Ho.
    now rewrite H in Ho.
Qed.

Lemma DeviceType_flags_witness :
  flagsAgree (appstore.described "IPHONE" "model-1" "" "")
  /\ (flagCount (appstore.described "IPHONE" "model-1" "" "") <= 1)%nat
  /\ (appstore.Success (appstore.described "IPHONE" "model-1" "" "") = false ->
      noFlag (appstore.described "IPHONE" "model-1" "" "")).
Proof.
  apply (DeviceType_flags demo.crypto (demo.system demo.upServer) demo.start
           (snd (appstore.GetDeviceType demo.crypto (demo.system demo.upServer)
                   "UDID-1" demo.start))
           (appstore.described "IPHONE" "model-1" "" "") None).
  left. exists "UDID-1". vm_compute. reflexivity.
Defined.

(** * Where failures of the underlying call end up *)

Lemma GetDeviceType_All_failed (L : Crypto) (S : System) (udid : string)
    (st st1 : appstore.State) (response : gmap string JSON) (e : error) :
  appstore.All L S (appstore.lookupParams udid) st
    = (appstore.Returns (response, Some e), st1) ->
  appstore.GetDeviceType L S udid st = (appstore.Returns (appstore.failed e, None), st1).
Proof.
  intros H. unfold appstore.GetDeviceType, mbind, appstore.M_bind. now rewrite H.
Qed.

Lemma RegisterAndGetType_Register_failed (L : Crypto) (S : System)
    (name platform udid : string) (st st1 : appstore.State)
    (registration : gmap string JSON) (e : error) :
  appstore.Register L S name platform udid st
    = (appstore.Returns (registration, Some e), st1) ->
  appstore.RegisterAndGetType L S name platform udid st
    = (appstore.Returns (appstore.failed e, None), st1).
Proof.
  intros H. unfold appstore.RegisterAndGetType, mbind, appstore.M_bind. now rewrite H.
Qed.

Lemma lookupValue_nil_error (d : appstore.DeviceType) (err : option error) :
  lookupValue (d, err) -> err = None.
Proof. now inversion 1. Qed.

(** C7, as the code has it.  [GetDeviceType] and [RegisterAndGetType]
    never return a non-nil error: when the underlying listing or
    registration call fails with error [e], they return a [DeviceType] with
    Success = false and Error = the message of [e], together with a nil
    error. *)
Theorem lookup_failures_in_result (L : Crypto) (S : System) (st : appstore.State) :
  (forall udid response e st1,
      appstore.All L S (appstore.lookupParams udid) st
        = (appstore.Returns (response, Some e), st1) ->
      appstore.GetDeviceType L S udid st
        = (appstore.Returns (appstore.failed e, None), st1))
  /\ (forall name platform udid registration e st1,
      appstore.Register L S name platform udid st
        = (appstore.Returns (registration, Some e), st1) ->
      appstore.RegisterAndGetType L S name platform udid st
        = (appstore.Returns (appstore.failed e, None), st1))
  /\ (forall udid d err st',
      appstore.GetDeviceType L S udid st = (appstore.Returns (d, err), st') ->
      err = None)
  /\ (forall name platform udid d err st',
      appstore.RegisterAndGetType L S name platform udid st
        = (appstore.Returns (d, err), st') ->
      err = None).
Proof.
  repeat apply conj.
  - intros. now apply GetDeviceType_All_failed with response.
  - intros. now apply RegisterAndGetType_Register_failed with registration.
  - intros udid d err st' H. apply (lookupValue_nil_error d).
    pose proof (GetDeviceType_outcome L S udid st) as Ho. now rewrite H in Ho.
  - intros name platform udid d err st' H. apply (lookupValue_nil_error d).
    pose proof (RegisterAndGetType_outcome L S name platform udid st) as Ho.
    now rewrite H in Ho.
Qed.

Lemma lookup_failures_in_result_witness :
  appstore.GetDeviceType demo.crypto (demo.system demo.downServer) "UDID-1" demo.start
    = (appstore.Returns
         (appstore.failed "failed to send request: connection refused", None),
       snd (appstore.All demo.crypto (demo.system demo.downServer)
              (appstore.lookupParams "UDID-1") demo.start)).
Proof.
  destruct (lookup_failures_in_result demo.crypto (demo.system demo.downServer) demo.start)
    as (H & _).
  apply (H "UDID-1" ∅). vm_compute. reflexivity.
Defined.

(** With the server down the listing call fails, and yet the error that
    [GetDeviceType] returns is nil. *)
Lemma lookup_failure_not_an_error :
  ~ lookupFailureIsError demo.crypto (demo.system demo.downServer) "UDID-1" demo.start.
Proof.
  intros H.
  destruct (H ∅ "failed to send request: connection refused"
              (snd (appstore.All demo.crypto (demo.system demo.downServer)
                      (appstore.lookupParams "UDID-1") demo.start)))
    as (d & e' & st' & Hret).
  - vm_compute. reflexivity.
  - pose proof (GetDeviceType_outcome demo.crypto (demo.system demo.downServer)
                  "UDID-1" demo.start) as Ho.
    rewrite Hret in Ho. apply lookupValue_nil_error in Ho. discriminate Ho.
Qed.

Lemma register_failure_not_an_error :
  ~ registerFailureIsError demo.crypto (demo.system demo.downServer)
      "phone" "IOS" "UDID-1" demo.start.
Proof.
  intros H.
  destruct (H ∅ "failed to send request: connection refused"
              (snd (appstore.Register demo.crypto (demo.system demo.downServer)
                      "phone" "IOS" "UDID-1" demo.start)))
    as (d & e' & st' & Hret).
  - vm_compute. reflexivity.
  - pose proof (RegisterAndGetType_outcome demo.crypto (demo.system demo.downServer)
                  "phone" "IOS" "UDID-1" demo.start) as Ho.
    rewrite Hret in Ho. apply lookupValue_nil_error in Ho. discriminate Ho.
Qed.

(** * Registering a device that is already known *)

(** What the branch of lines 137-145 does once it is reached, that is when
    [Register] returned a nil error. *)
Lemma RegisterAndGetType_detail (L : Crypto) (S : System) (name platform udid : string)
    (st st1 : appstore.State) (registration : gmap string JSON) (errorDetail : string) :
  appstore.Register L S name platform udid st
    = (appstore.Returns (registration, None), st1) ->
  appstore.errorsDetail registration = appstore.Detail errorDetail ->
  appstore.RegisterAndGetType L S name platform udid st =
    if appstore.Contains errorDetail "already exists on this team"
    then appstore.GetDeviceType L S udid st1
    else (appstore.Returns (appstore.failed errorDetail, None), st1).
Proof.
  intros H Hd. unfold appstore.RegisterAndGetType, mbind, appstore.M_bind.
  rewrite H, Hd. now destruct (appstore.Contains _ _).
Qed.

Lemma Register_answered (L : Crypto) (S : System) (name platform udid : string)
    (st : appstore.State) (jsonBody : string) (code : Z) (registration : gmap string JSON) :
  let c := appstore.httpClient (appstore.st_client st) in
  attachedToken (appstore.st_client st) <> "" ->
  json_Marshal S (appstore.registerBody S name platform udid) = Ok jsonBody ->
  http_NewRequest_err S "POST" (httpclient.BuildURL c "/devices") = None ->
  answered S (appstore.st_world st) (postRequest c "/devices" jsonBody) code registration ->
  appstore.Register L S name platform udid st =
    (appstore.Returns
       (registration,
        if bool_decide (code >= 400) then Some (httpclient.statusError code) else None),
     at_world (appstore.st_client st)
       (sent (postRequest c "/devices" jsonBody) (appstore.st_world st))).
Proof.
  intros c Htok Hm Hnew Hans.
  unfold appstore.Register, mbind, appstore.M_bind.
  rewrite EnsureAuth_attached by exact Htok.
  unfold appstore.GetHTTPClient, appstore.liftW. fold c.
  now rewrite (PostJSON_answered _ _ _ _ _ _ _ _ Hm Hnew Hans).
Qed.

(** A registration answered with a status of 400 or more ends in the
    failure result that names the status, whatever the body says: the
    error detail is not looked at and no lookup is made. *)
Lemma RegisterAndGetType_status_error (L : Crypto) (S : System)
    (name platform udid : string) (st : appstore.State) (jsonBody : string) (code : Z)
    (registration : gmap string JSON) :
  let c := appstore.httpClient (appstore.st_client st) in
  attachedToken (appstore.st_client st) <> "" ->
  json_Marshal S (appstore.registerBody S name platform udid) = Ok jsonBody ->
  http_NewRequest_err S "POST" (httpclient.BuildURL c "/devices") = None ->
  answered S (appstore.st_world st) (postRequest c "/devices" jsonBody) code registration ->
  code >= 400 ->
  appstore.RegisterAndGetType L S name platform udid st =
    (appstore.Returns (appstore.failed (httpclient.statusError code), None),
     at_world (appstore.st_client st)
       (sent (postRequest c "/devices" jsonBody) (appstore.st_world st))).
Proof.
  intros c Htok Hm Hnew Hans Hcode.
  apply RegisterAndGetType_Register_failed with registration.
  rewrite (Register_answered L S name platform udid st jsonBody code registration
             Htok Hm Hnew Hans).
  now rewrite bool_decide_eq_true_2.
Qed.

(** C4 at a 409.  The server answers the registration with status 409 and
    the vendor's body, whose error detail contains "already exists on this
    team", and would answer a lookup by UDID with the device.
    [RegisterAndGetType] returns the failure "API request failed with
    status 409"; the only request sent is the POST. *)
Theorem RegisterAndGetType_conflict_409 :
  let S := demo.system demo.conflictServer in
  let run := appstore.RegisterAndGetType demo.crypto S "phone" "IOS" "UDID-1" demo.start in
  fst (appstore.Register demo.crypto S "phone" "IOS" "UDID-1" demo.start)
    = appstore.Returns (demo.conflict, Some "API request failed with status 409")
  /\ appstore.errorsDetail demo.conflict
       = appstore.Detail "A device with number 'UDID-1' already exists on this team."
  /\ appstore.Contains "A device with number 'UDID-1' already exists on this team."
       "already exists on this team" = true
  /\ fst run
       = appstore.Returns (appstore.failed "API request failed with status 409", None)
  /\ map req_Method (w_sent (appstore.st_world (snd run))) = ["POST"]
  /\ fst (appstore.GetDeviceType demo.crypto S "UDID-1" demo.start)
       = appstore.Returns (appstore.described "IPHONE" "model-1" "" "", None).
Proof.
  cbv zeta. repeat apply conj; vm_compute; reflexivity.
Qed.

(** * Slot accounting *)

Lemma classCount_cons (class : string) (item : JSON) (data : list JSON) :
  classCount class (item :: data) =
    (if decide (deviceClassOf item = Some class) then 1 else 0) + classCount class data.
Proof.
  unfold classCount. rewrite filter_cons.
  destruct (decide _); cbn [length]; lia.
Qed.

Lemma countDevice_classes (iPhone iPad : Z) (item : JSON) :
  appstore.countDevice (iPhone, iPad) item =
    (iPhone + (if decide (deviceClassOf item = Some "IPHONE") then 1 else 0),
     iPad + (if decide (deviceClassOf item = Some "IPAD") then 1 else 0)).
Proof.
  unfold appstore.countDevice, deviceClassOf.
  destruct item as [|b|n|s|l|device].
  1-5: repeat case_decide; try discriminate; f_equal; lia.
  destruct (as_object (device !! "attributes")) as [attributes|].
  2: repeat case_decide; try discriminate; f_equal; lia.
  destruct (as_string (attributes !! "deviceClass")) as [deviceClass|].
  2: repeat case_decide; try discriminate; f_equal; lia.
  destruct (String.eqb_spec deviceClass "IPHONE") as [->|Hn1].
  - repeat case_decide; try discriminate; try congruence; f_equal; lia.
  - destruct (String.eqb_spec deviceClass "IPAD") as [->|Hn2].
    + repeat case_decide; try discriminate; try congruence; f_equal; lia.
    + repeat case_decide; try discriminate; try congruence; f_equal; lia.
Qed.

Lemma foldl_countDevice (data : list JSON) (iPhone iPad : Z) :
  foldl appstore.countDevice (iPhone, iPad) data =
    (iPhone + classCount "IPHONE" data, iPad + classCount "IPAD" data).
Proof.
  revert iPhone iPad. induction data as [|item data IH]; intros iPhone iPad.
  - cbn. f_equal; unfold classCount; cbn; lia.
  - cbn [foldl]. rewrite countDevice_classes, IH, !classCount_cons. f_equal; lia.
Qed.

Lemma countDevices_classes (iOSData : gmap string JSON) :
  appstore.countDevices iOSData =
    (classCount "IPHONE" (listed iOSData), classCount "IPAD" (listed iOSData)).
Proof.
  unfold appstore.countDevices, listed.
  destruct (as_array (iOSData !! "data")) as [data|]; cbn.
  - now rewrite foldl_countDevice.
  - reflexivity.
Qed.

(** C5, as the code has it.  When the listing call, the query for Mac
    devices and the query for the user all return without error, and the
    Mac response carries no error detail, [DeviceSort] returns code 1 with
    IPHONE = 100 - N and IPAD = 100 - M, where N and M count the entries of
    the listing's data array of class "IPHONE" and "IPAD". *)
Theorem DeviceSort_slots (L : Crypto) (S : System) (st st1 st2 : appstore.State)
    (iOSData macData userData : gmap string JSON) (w3 : World) :
  appstore.All L S appstore.iOSParams st = (appstore.Returns (iOSData, None), st1) ->
  appstore.All L S appstore.macParams st1 = (appstore.Returns (macData, None), st2) ->
  appstore.errorsDetail macData = appstore.NoDetail ->
  httpclient.Get S (appstore.httpClient (appstore.st_client st2)) "/users" ∅
    (appstore.st_world st2) = ((userData, None), w3) ->
  appstore.DeviceSort L S st =
    (appstore.Returns
       ({| appstore.Code := 1; appstore.Msg := "ok";
           appstore.Data :=
             {| appstore.IPHONE := 100 - classCount "IPHONE" (listed iOSData);
                appstore.IPAD := 100 - classCount "IPAD" (listed iOSData);
                appstore.MAC := appstore.wrap64 (100 - appstore.macTotal macData);
                appstore.Email := appstore.userEmail userData |} |}, None),
     at_world (appstore.st_client st2) w3).
Proof.
  intros HiOS Hmac Hdetail Husers.
  unfold appstore.DeviceSort, mbind, appstore.M_bind.
  rewrite HiOS, countDevices_classes, Hmac, Hdetail.
  unfold appstore.GetHTTPClient, appstore.liftW. now rewrite Husers.
Qed.

Lemma DeviceSort_slots_witness :
  fst (appstore.DeviceSort demo.crypto (demo.system demo.upServer) demo.start) =
    appstore.Returns
      ({| appstore.Code := 1; appstore.Msg := "ok";
          appstore.Data := {| appstore.IPHONE := 98; appstore.IPAD := 99;
                              appstore.MAC := 100; appstore.Email := "" |} |}, None).
Proof.
  set (S := demo.system demo.upServer).
  set (r1 := appstore.All demo.crypto S appstore.iOSParams demo.start).
  set (r2 := appstore.All demo.crypto S appstore.macParams (snd r1)).
  set (r3 := httpclient.Get S (appstore.httpClient (appstore.st_client (snd r2))) "/users" ∅
               (appstore.st_world (snd r2))).
  rewrite (DeviceSort_slots demo.crypto S demo.start (snd r1) (snd r2)
             demo.listing demo.listing demo.listing (snd r3)).
  - reflexivity.
  - vm_compute. reflexivity.
  - vm_compute. reflexivity.
  - reflexivity.
  - vm_compute. reflexivity.
Defined.

(** The listing has two IPHONE entries and one IPAD entry, the query for
    Mac devices fails, and [DeviceSort] returns code 1001 with IPHONE = 0
    and IPAD = 0. *)
Lemma slots_lost_when_mac_query_fails :
  ~ slotsFollowListing demo.crypto (demo.system demo.macDownServer) demo.start.
Proof.
  intros H.
  destruct (H demo.listing None
              (snd (appstore.All demo.crypto (demo.system demo.macDownServer)
                      appstore.iOSParams demo.start)))
    as (r & e & st' & Hrun & HiPhone & _).
  - vm_compute. reflexivity.
  - assert (Hr : fst (appstore.DeviceSort demo.crypto (demo.system demo.macDownServer)
                        demo.start)
                 = appstore.Returns (appstore.failedSort "Failed to query Mac devices", None))
      by (vm_compute; reflexivity).
    rewrite Hrun in Hr. injection Hr as ->.
    vm_compute in HiPhone. discriminate HiPhone.
Qed.

(** * The query string of a GET *)

Lemma queryValues_singletons (params : gmap string string) :
  httpclient.queryValues params = singletons params.
Proof.
  unfold httpclient.queryValues, singletons.
  apply (map_fold_weak_ind (fun r m => r = (fun v => [v]) <$> m)).
  - now rewrite fmap_empty.
  - intros i x m r Hi ->. unfold url.Add.
    rewrite lookup_fmap, Hi, fmap_insert. reflexivity.
Qed.

Lemma QueryEscape_cons (c : ascii) (s : string) :
  url.QueryEscape (String c s) = escapeByte c ++ url.QueryEscape s.
Proof.
  cbn [url.QueryEscape]. unfold escapeByte.
  destruct (Ascii.eqb c " "); [reflexivity|].
  destruct (url.shouldEscape c); reflexivity.
Qed.

Lemma escapeByte_no_sep (c : ascii) :
  url.ContainsByte "&" (escapeByte c) = false
  /\ url.ContainsByte "=" (escapeByte c) = false
  /\ url.ContainsByte ";" (escapeByte c) = false.
Proof.
  destruct c as [[] [] [] [] [] [] [] []]; vm_compute; auto.
Qed.


Lemma append_cons (x : ascii) (a b : string) : String x a ++ b = String x (a ++ b).
Proof. reflexivity. Qed.

Lemma append_nil_l (b : string) : "" ++ b = b.
Proof. reflexivity. Qed.

Lemma append_nil_r (a : string) : a ++ "" = a.
Proof. induction a as [|x a IH]; [reflexivity | now rewrite append_cons, IH]. Qed.

Lemma append_assoc (a b c : string) : (a ++ b) ++ c = a ++ b ++ c.
Proof. induction a as [|x a IH]; [reflexivity | now rewrite !append_cons, IH]. Qed.

Lemma length_append (a b : string) :
  String.length (a ++ b) = (String.length a + String.length b)%nat.
Proof.
  induction a as [|x a IH]; [reflexivity|].
  rewrite append_cons. cbn. now rewrite IH.
Qed.

Lemma ContainsByte_append (sep : ascii) (a b : string) :
  url.ContainsByte sep (a ++ b) = url.ContainsByte sep a || url.ContainsByte sep b.
Proof.
  induction a as [|x a IH]; [reflexivity|].
  rewrite append_cons. cbn. rewrite IH. now destruct (Ascii.eqb x sep).
Qed.

Lemma Cut_found (sep : ascii) (a b : string) :
  url.ContainsByte sep a = false ->
  url.Cut sep (a ++ String sep b) = (a, b, true).
Proof.
  induction a as [|x a IH].
  - intros _. rewrite append_nil_l. cbn. now rewrite Ascii.eqb_refl.
  - rewrite append_cons. cbn.
    destruct (Ascii.eqb x sep); [discriminate|]. cbn. intros H. now rewrite IH.
Qed.


Lemma QueryEscape_no_sep (s : string) :
  url.ContainsByte "&" (url.QueryEscape s) = false
  /\ url.ContainsByte "=" (url.QueryEscape s) = false
  /\ url.ContainsByte ";" (url.QueryEscape s) = false.
Proof.
  induction s as [|c s (IH1 & IH2 & IH3)]; [now cbn|].
  rewrite QueryEscape_cons, !ContainsByte_append, IH1, IH2, IH3.
  destruct (escapeByte_no_sep c) as (-> & -> & ->). auto.
Qed.


Lemma segment_facts (p : string * string) :
  segment p <> ""
  /\ url.ContainsByte "&" (segment p) = false
  /\ url.ContainsByte ";" (segment p) = false
  /\ url.Cut "=" (segment p) = (url.QueryEscape p.1, url.QueryEscape p.2, true).
Proof.
  unfold segment.
  destruct (QueryEscape_no_sep p.1) as (Ha1 & He1 & Hs1).
  destruct (QueryEscape_no_sep p.2) as (Ha2 & He2 & Hs2).
  repeat apply conj.
  - destruct (url.QueryEscape p.1); discriminate.
  - rewrite ContainsByte_append, Ha1, append_cons. cbn. exact Ha2.
  - rewrite ContainsByte_append, Hs1, append_cons. cbn. exact Hs2.
  - now apply Cut_found.
Qed.




Lemma sortedKeys_perm (v : url.Values) : url.sortedKeys v ≡ₚ (map_to_list v).*1.
Proof. apply merge_sort_Permutation. Qed.

Lemma elem_of_sortedKeys (params : gmap string string) (k : string) :
  k ∈ url.sortedKeys (singletons params) <-> is_Some (params !! k).
Proof.
  rewrite sortedKeys_perm, list_elem_of_fmap. split.
  - intros ([k' vs] & -> & Hin). apply elem_of_map_to_list in Hin.
    cbn. unfold singletons in Hin. rewrite lookup_fmap in Hin.
    destruct (params !! k'); [eauto | discriminate].
  - intros [v Hv]. exists (k, [v]). split; [reflexivity|].
    apply elem_of_map_to_list. unfold singletons. now rewrite lookup_fmap, Hv.
Qed.


Lemma writePair_nonempty (keyEscaped buf v : string) :
  url.writePair keyEscaped buf v <> "".
Proof.
  unfold url.writePair. destruct (decide (buf = "")) as [->|Hne].
  - rewrite append_nil_l. destruct keyEscaped; discriminate.
  - destruct buf; [contradiction | discriminate].
Qed.

Lemma foldl_writePairs (params : gmap string string) (keys : list string) (buf : string) :
  (forall k, k ∈ keys -> is_Some (params !! k)) ->
  foldl (fun buf k => foldl (url.writePair (url.QueryEscape k)) buf
                        (default [] (singletons params !! k))) buf keys
  = let ps := (fun k => (k, default "" (params !! k))) <$> keys in
    if decide (buf = "") then segments ps else buf ++ moreSegments ps.
Proof.
  revert buf. induction keys as [|k keys IH]; intros buf Hkeys.
  - cbn. destruct (decide (buf = "")) as [->|]; [reflexivity | now rewrite append_nil_r].
  - destruct (Hkeys k) as [v Hv]; [apply list_elem_of_here|].
    assert (Hstep : foldl (url.writePair (url.QueryEscape k)) buf
                      (default [] (singletons params !! k))
                    = url.writePair (url.QueryEscape k) buf v).
    { unfold singletons. now rewrite lookup_fmap, Hv. }
    cbn [foldl fmap list_fmap]. rewrite Hstep, Hv.
    change (default "" (Some v)) with v.
    rewrite IH by (intros; apply Hkeys; now apply list_elem_of_further).
    cbv zeta. rewrite decide_False by apply writePair_nonempty.
    unfold url.writePair.
    destruct (decide (buf = "")) as [->|_]; cbn [segments moreSegments];
      unfold segment; cbn [fst snd]; now rewrite ?append_nil_l, !append_assoc.
Qed.

Lemma Encode_segments (params : gmap string string) :
  url.Encode (singletons params) = segments (encodedPairs params).
Proof.
  unfold url.Encode, encodedPairs.
  rewrite foldl_writePairs by (intros k; apply elem_of_sortedKeys).
  reflexivity.
Qed.








(** The lookup by UDID, spelled out. *)
Example lookup_query :
  url.Encode (httpclient.queryValues (appstore.lookupParams "ABC123"))
    = "fields%5Bdevices%5D=deviceClass%2Cmodel%2Cplatform%2Cstatus&filter%5Budid%5D=ABC123"
  /\ (url.ParseQuery
        "fields%5Bdevices%5D=deviceClass%2Cmodel%2Cplatform%2Cstatus&filter%5Budid%5D=ABC123").1
       !! "filter[udid]" = Some ["ABC123"].
Proof. split; vm_compute; reflexivity. Qed.

(** * The model at work on the concrete environment *)

Lemma EnsureAuth_presence_check_witness :
  let run := appstore.EnsureAuth demo.crypto (demo.system demo.upServer) demo.start in
  let c' := appstore.st_client (snd run) in
  attachedToken demo.client = ""
  /\ fst run = appstore.Returns None
  /\ attachedToken c' = "e30.e30.signature"
  /\ httpclient.GetHeaders (appstore.httpClient c') !! "Authorization"
       = Some "Bearer e30.e30.signature"
  /\ w_sent (appstore.st_world (snd run)) = []
  /\ forall w',
       appstore.EnsureAuth demo.crypto (demo.system demo.upServer) (at_world c' w')
       = (appstore.Returns None, at_world c' w').
Proof.
  intros run c'.
  destruct (EnsureAuth_presence_check demo.crypto (demo.system demo.upServer) demo.start)
    as (_ & Hmint & _ & _ & _ & Hidem).
  destruct (Hmint "e30.e30.signature" eq_refl eq_refl) as (Hret & Htok & Hauth & _ & Hsent).
  split; [reflexivity|]. split; [exact Hret|]. split; [exact Htok|].
  split; [exact Hauth|]. split; [exact Hsent|].
  intros w'. apply (Hidem (snd run)).
  unfold run in Hret |- *.
  destruct (appstore.EnsureAuth demo.crypto (demo.system demo.upServer) demo.start)
    as [r st']. cbn in Hret. now rewrite Hret.
Defined.

Lemma NewClient_validation_witness :
  is_Ok (appstore.NewClient (demo.system demo.upServer) demo.clientConfig) = true
  /\ (forall c, appstore.NewClient (demo.system demo.upServer) demo.clientConfig = Ok c ->
        appstore.APIVersion (appstore.config c) = "v1").
Proof.
  destruct (NewClient_validation (demo.system demo.upServer) demo.clientConfig)
    as (_ & Hversion & Hok & _).
  split.
  - apply (Hok ltac:(discriminate) ltac:(discriminate) ltac:(discriminate)) with "PEM:pkcs8-ec";
      [reflexivity | discriminate].
  - intros c Hc. apply (Hversion c Hc).
Defined.

Example NewClient_demo :
  appstore.NewClient (demo.system demo.upServer) demo.clientConfig = Ok demo.client.
Proof. reflexivity. Qed.

(** * More on the token issuer *)

(** X1.  Every error of the key parser is one of three: no PEM block; the
    key is not an ECDSA key; or neither container format parsed, in which
    case the message carries the PKCS#1 parser's error (the PKCS#8 parser's
    error is discarded). *)
Theorem parsePrivateKey_errors (L : Crypto) (g : jwtutil.Generator) (e : error) :
  jwtutil.parsePrivateKey L g = Err e ->
  (pem_Decode L (jwtutil.PrivateKey (jwtutil.config g)) = None
     /\ e = "failed to decode PEM block")
  \/ (exists block key,
        pem_Decode L (jwtutil.PrivateKey (jwtutil.config g)) = Some block
        /\ jwtutil.parseKeyContainer L (block_Bytes block) = Ok key
        /\ (forall k, key <> KeyECDSA k)
        /\ e = "private key is not ECDSA")
  \/ (exists block e8 e1,
        pem_Decode L (jwtutil.PrivateKey (jwtutil.config g)) = Some block
        /\ x509_ParsePKCS8PrivateKey L (block_Bytes block) = Err e8
        /\ x509_ParsePKCS1PrivateKey L (block_Bytes block) = Err e1
        /\ e = "failed to parse private key: " ++ e1).
Proof.
  unfold jwtutil.parsePrivateKey.
  destruct (pem_Decode L _) as [block|]; [|intros [= <-]; now left].
  destruct (jwtutil.parseKeyContainer L (block_Bytes block)) as [key|e'] eqn:Hc.
  - intros He. right; left. exists block, key.
    destruct key; try discriminate He; injection He as <-;
      (split; [reflexivity | split; [exact Hc | split; [intros k' [=] | reflexivity]]]).
  - intros [= <-]. right; right.
    unfold jwtutil.parseKeyContainer in Hc.
    destruct (x509_ParsePKCS8PrivateKey L (block_Bytes block)) as [|e8] eqn:H8;
      [discriminate Hc|].
    destruct (x509_ParsePKCS1PrivateKey L (block_Bytes block)) as [|e1] eqn:H1;
      [discriminate Hc|].
    injection Hc as <-. now exists block, e8, e1.
Qed.

Lemma parsePrivateKey_errors_witness :
  let g := demo.generator "PEM:garbage" in
  let e := "failed to parse private key: x509: failed to parse private key" in
  (pem_Decode demo.crypto (jwtutil.PrivateKey (jwtutil.config g)) = None
     /\ e = "failed to decode PEM block")
  \/ (exists block key,
        pem_Decode demo.crypto (jwtutil.PrivateKey (jwtutil.config g)) = Some block
        /\ jwtutil.parseKeyContainer demo.crypto (block_Bytes block) = Ok key
        /\ (forall k, key <> KeyECDSA k)
        /\ e = "private key is not ECDSA")
  \/ (exists block e8 e1,
        pem_Decode demo.crypto (jwtutil.PrivateKey (jwtutil.config g)) = Some block
        /\ x509_ParsePKCS8PrivateKey demo.crypto (block_Bytes block) = Err e8
        /\ x509_ParsePKCS1PrivateKey demo.crypto (block_Bytes block) = Err e1
        /\ e = "failed to parse private key: " ++ e1).
Proof.
  intros g e. apply (parsePrivateKey_errors demo.crypto g e). reflexivity.
Defined.

(** X2.  [GenerateToken] fails exactly when the key does not parse or the
    signing fails, and wraps the cause: "failed to parse private key: ..."
    or "failed to sign token: ...". *)
Theorem GenerateToken_errors (L : Crypto) (g : jwtutil.Generator) (now : Time) (e : error) :
  jwtutil.GenerateToken L g now = Err e <->
  (exists e', jwtutil.parsePrivateKey L g = Err e'
              /\ e = "failed to parse private key: " ++ e')
  \/ (exists key e', jwtutil.parsePrivateKey L g = Ok key
                     /\ SignedString L (jwtutil.mintToken g now) key = Err e'
                     /\ e = "failed to sign token: " ++ e').
Proof.
  unfold jwtutil.GenerateToken. split.
  - destruct (jwtutil.parsePrivateKey L g) as [key|e'].
    + destruct (SignedString L _ key) as [|e'] eqn:Hs; [discriminate|].
      intros [= <-]. right. now exists key, e'.
    + intros [= <-]. left. now exists e'.
  - intros [(e' & -> & ->) | (key & e' & -> & -> & ->)]; reflexivity.
Qed.

(** X3.  The unsigned token depends on the mint time only through its
    whole second: two mints carry the same claims and header exactly when
    they fall into the same Unix second. *)
Theorem mintToken_same_second (g : jwtutil.Generator) (now now' : Time) :
  jwtutil.mintToken g now = jwtutil.mintToken g now' <-> time_Unix now = time_Unix now'.
Proof.
  split.
  - intros H. apply (f_equal (fun t => tok_Claims t !! "iat")) in H. cbn in H.
    rewrite !mintClaims_iat in H. injection H. lia.
  - intros H. unfold jwtutil.mintToken, jwtutil.mintClaims.
    now rewrite !time_Unix_Add_seconds, !time_Unix_Add_minutes, H.
Qed.

(** X4.  A minted token has exactly the claims iss, iat, exp and aud and
    exactly the header fields typ, alg and kid; typ is "JWT". *)
Theorem mintToken_fields (g : jwtutil.Generator) (now : Time) :
  dom (tok_Claims (jwtutil.mintToken g now)) = ({["iss"; "iat"; "exp"; "aud"]} : gset string)
  /\ dom (tok_Header (jwtutil.mintToken g now)) = ({["typ"; "alg"; "kid"]} : gset string)
  /\ tok_Header (jwtutil.mintToken g now) !! "typ" = Some (CString "JWT")
  /\ tok_Method (jwtutil.mintToken g now) = SigningMethodES256.
Proof.
  repeat apply conj.
  - cbn. unfold jwtutil.mintClaims. rewrite !dom_insert_L, dom_empty_L. set_solver.
  - cbn. rewrite !dom_insert_L, dom_empty_L. set_solver.
  - cbn. rewrite lookup_insert_ne by done. now rewrite lookup_insert_eq.
  - reflexivity.
Qed.

(** X5.  A key comes out of the parser only through the PKCS#8
    interpretation: [parsePrivateKey] returns a key exactly when the PEM
    block decodes and its payload parses as PKCS#8 to an ECDSA key.  Once
    the PKCS#8 interpretation has failed, the PKCS#1 retry can only end in
    an error. *)
Theorem key_only_through_pkcs8 (L : Crypto) (g : jwtutil.Generator) :
  (forall key,
     jwtutil.parsePrivateKey L g = Ok key <->
     exists block,
       pem_Decode L (jwtutil.PrivateKey (jwtutil.config g)) = Some block
       /\ x509_ParsePKCS8PrivateKey L (block_Bytes block) = Ok (KeyECDSA key))
  /\ (forall block,
     pem_Decode L (jwtutil.PrivateKey (jwtutil.config g)) = Some block ->
     is_Ok (x509_ParsePKCS8PrivateKey L (block_Bytes block)) = false ->
     is_Ok (jwtutil.parsePrivateKey L g) = false).
Proof.
  split.
  - intros key. apply parsePrivateKey_Ok_inv.
  - intros block Hpem H8.
    destruct (jwtutil.parsePrivateKey L g) as [key|] eqn:Hp; [|reflexivity].
    apply parsePrivateKey_Ok_inv in Hp as (block' & Hpem' & H8').
    rewrite Hpem in Hpem'. injection Hpem' as <-. rewrite H8' in H8. discriminate H8.
Qed.

(** * More on the transport *)

(** X6.  Headers and token compose as follows.  [SetHeaders] merges (a key
    of the new map takes the new value, every other key keeps its old one)
    and commutes with [SetToken]; the last token set is the one in force.
    In the header set of a request every custom header other than
    Authorization is sent as set, while Authorization is "Bearer <token>"
    whenever a non-empty token is set, even if a custom Authorization header
    was set afterwards; with the empty token the custom headers are sent as
    they are. *)
Theorem headers_and_token (headers : gmap string string) (token : string)
    (c : httpclient.Client) :
  let c' := httpclient.SetHeaders headers (httpclient.SetToken token c) in
  c' = httpclient.SetToken token (httpclient.SetHeaders headers c)
  /\ (forall token', httpclient.SetToken token' (httpclient.SetToken token c)
                     = httpclient.SetToken token' c)
  /\ (forall headers', httpclient.SetHeaders headers' (httpclient.SetHeaders headers c)
                       = httpclient.SetHeaders (headers' ∪ headers) c)
  /\ (forall k, k <> "Authorization" ->
        httpclient.GetHeaders c' !! k
          = match headers !! k with
            | Some v => Some v
            | None => httpclient.Headers (httpclient.config c) !! k
            end)
  /\ (token <> "" -> httpclient.GetHeaders c' !! "Authorization" = Some ("Bearer " ++ token))
  /\ (token = "" ->
        httpclient.GetHeaders c' = headers ∪ httpclient.Headers (httpclient.config c))
  /\ (forall path, httpclient.BuildURL c' path = httpclient.BuildURL c path).
Proof.
  intros c'. subst c'. unfold httpclient.GetHeaders. cbn. repeat apply conj; try reflexivity.
  - intros headers'. unfold httpclient.SetHeaders. cbn.
    now rewrite (map_union_assoc headers' headers).
  - intros k Hk. destruct (decide (token = "")).
    + rewrite lookup_union.
      destruct (headers !! k), (httpclient.Headers (httpclient.config c) !! k); reflexivity.
    + rewrite lookup_insert_ne by congruence. rewrite lookup_union.
      destruct (headers !! k), (httpclient.Headers (httpclient.config c) !! k); reflexivity.
  - intros Ht. destruct (decide (token = "")); [contradiction|]. now rewrite lookup_insert_eq.
  - intros ->. reflexivity.
Qed.

(** What a verb does with a request once it is built. *)
Lemma roundTrip_sends (S : System) (req : Request) (w : World) :
  snd (httpclient.roundTrip S req w) = sent req w.
Proof.
  unfold httpclient.roundTrip.
  destruct (http_Do S (w_sent w) req) as [resp|]; [|reflexivity].
  destruct (Body resp) as [body|]; [|reflexivity].
  destruct (json_Unmarshal S body); [|reflexivity].
  now destruct (bool_decide _).
Qed.

Lemma roundTrip_nil_error (S : System) (req : Request) (w : World)
    (result : gmap string JSON) :
  fst (httpclient.roundTrip S req w) = (result, None) <->
  exists code, answered S w req code result /\ code < 400.
Proof.
  unfold httpclient.roundTrip, answered. split.
  - destruct (http_Do S (w_sent w) req) as [resp|] eqn:Hdo; [|discriminate].
    destruct (Body resp) as [body|] eqn:Hbody; [|discriminate].
    destruct (json_Unmarshal S body) as [r|] eqn:Hjson; [|discriminate].
    destruct (bool_decide (StatusCode resp >= 400)) eqn:Hcode; [discriminate|].
    intros [= <-]. apply bool_decide_eq_false in Hcode.
    exists (StatusCode resp). split; [|lia]. now exists resp, body.
  - intros (code & (resp & body & -> & <- & -> & ->) & Hlt).
    rewrite bool_decide_eq_false_2 by lia. reflexivity.
Qed.

(** X7.  A call returns a nil error exactly when the request could be built
    (and, for POST, the body marshalled), was answered, the body was read and
    parsed as a JSON object, and the status is below 400; the value returned
    is then the parsed body. *)
Theorem nil_error_iff_answered_below_400 (S : System) (c : httpclient.Client)
    (path : string) (w : World) (result : gmap string JSON) :
  (forall params,
     fst (httpclient.Get S c path params w) = (result, None) <->
     http_NewRequest_err S "GET" (httpclient.fullURL c path params) = None
     /\ exists code, answered S w (getRequest c path params) code result /\ code < 400)
  /\ (forall body,
     fst (httpclient.PostJSON S c path body w) = (result, None) <->
     exists jsonBody,
       json_Marshal S body = Ok jsonBody
       /\ http_NewRequest_err S "POST" (httpclient.BuildURL c path) = None
       /\ exists code, answered S w (postRequest c path jsonBody) code result /\ code < 400)
  /\ (forall params,
     fst (httpclient.Delete S c path params w) = (result, None) <->
     http_NewRequest_err S "DELETE" (httpclient.fullURL c path params) = None
     /\ exists code, answered S w (deleteRequest c path params) code result /\ code < 400).
Proof.
  repeat apply conj.
  - intros params. unfold httpclient.Get. fold (getRequest c path params).
    destruct (http_NewRequest_err S "GET" _) as [e|].
    + split; [discriminate | intros [[=] _]].
    + rewrite roundTrip_nil_error. tauto.
  - intros body. unfold httpclient.PostJSON.
    destruct (json_Marshal S body) as [jsonBody|e].
    + fold (postRequest c path jsonBody).
      destruct (http_NewRequest_err S "POST" _) as [e|].
      * split; [discriminate | intros (? & _ & [=] & _)].
      * rewrite roundTrip_nil_error. split.
        -- intros H. now exists jsonBody.
        -- intros (j & [= <-] & _ & H). exact H.
    + split; [discriminate | intros (? & [=] & _)].
  - intros params. unfold httpclient.Delete. fold (deleteRequest c path params).
    destruct (http_NewRequest_err S "DELETE" _) as [e|].
    + split; [discriminate | intros [[=] _]].
    + rewrite roundTrip_nil_error. tauto.
Qed.

(** X8.  No verb retries or reads the clock: a call sends nothing when the
    request cannot be built (or the body not marshalled) and exactly one
    request otherwise, whatever the answer. *)
Theorem one_request_per_call (S : System) (c : httpclient.Client) (path : string) (w : World) :
  (forall params,
     snd (httpclient.Get S c path params w)
       = match http_NewRequest_err S "GET" (httpclient.fullURL c path params) with
         | Some _ => w
         | None => sent (getRequest c path params) w
         end)
  /\ (forall body,
     snd (httpclient.PostJSON S c path body w)
       = match json_Marshal S body with
         | Err _ => w
         | Ok jsonBody =>
             match http_NewRequest_err S "POST" (httpclient.BuildURL c path) with
             | Some _ => w
             | None => sent (postRequest c path jsonBody) w
             end
         end)
  /\ (forall params,
     snd (httpclient.Delete S c path params w)
       = match http_NewRequest_err S "DELETE" (httpclient.fullURL c path params) with
         | Some _ => w
         | None => sent (deleteRequest c path params) w
         end).
Proof.
  repeat apply conj.
  - intros params. unfold httpclient.Get.
    destruct (http_NewRequest_err S "GET" _); [reflexivity | apply roundTrip_sends].
  - intros body. unfold httpclient.PostJSON.
    destruct (json_Marshal S body); [|reflexivity].
    destruct (http_NewRequest_err S "POST" _); [reflexivity | apply roundTrip_sends].
  - intros params. unfold httpclient.Delete.
    destruct (http_NewRequest_err S "DELETE" _); [reflexivity | apply roundTrip_sends].
Qed.

(** X9.  A body that does not parse as a JSON object is reported as
    "failed to parse JSON", with an empty result, whatever the status: for a
    status of 400 or more the status itself is not reported. *)
Theorem unparsable_body_hides_status (S : System) (req : Request) (w : World)
    (resp : Response) (text : string) (e : error) :
  http_Do S (w_sent w) req = Ok resp ->
  Body resp = Ok text ->
  json_Unmarshal S text = Err e ->
  fst (httpclient.roundTrip S req w) = (∅, Some ("failed to parse JSON: " ++ e))
  /\ (forall c path params,
        req = getRequest c path params ->
        http_NewRequest_err S "GET" (httpclient.fullURL c path params) = None ->
        fst (httpclient.Get S c path params w) = (∅, Some ("failed to parse JSON: " ++ e))).
Proof.
  intros Hdo Hbody Hjson.
  assert (Hrt : fst (httpclient.roundTrip S req w) = (∅, Some ("failed to parse JSON: " ++ e))).
  { unfold httpclient.roundTrip. now rewrite Hdo, Hbody, Hjson. }
  split; [exact Hrt|].
  intros c path params -> Hnew. unfold httpclient.Get. rewrite Hnew. exact Hrt.
Qed.

(** X10.  What [PostJSON] sends for a client without custom headers: when
    the body marshals and the request can be built, exactly one request, a
    POST to the built URL without query string, carrying the marshalled
    body, whose headers are Content-Type: application/json and, when a
    token is set, Authorization: Bearer <token>, and no other.  For every
    client: when the body does not marshal, nothing is sent and the error is
    "failed to marshal JSON: ...". *)
Theorem PostJSON_request (S : System) (c : httpclient.Client) (path : string) (body : JSON)
    (w : World) :
  (forall jsonBody,
     httpclient.Headers (httpclient.config c) = ∅ ->
     json_Marshal S body = Ok jsonBody ->
     http_NewRequest_err S "POST" (httpclient.BuildURL c path) = None ->
     snd (httpclient.PostJSON S c path body w)
       = sent {| req_Method := "POST";
                 req_URL := httpclient.BaseURL (httpclient.config c) ++ "/"
                              ++ httpclient.APIVersion (httpclient.config c) ++ path;
                 req_Header :=
                   if decide (httpclient.Token (httpclient.config c) = "")
                   then {[ "Content-Type" := "application/json" ]}
                   else {[ "Content-Type" := "application/json";
                           "Authorization" :=
                             "Bearer " ++ httpclient.Token (httpclient.config c) ]};
                 req_Body := Some jsonBody |} w)
  /\ (forall e,
     json_Marshal S body = Err e ->
     httpclient.PostJSON S c path body w = ((∅, Some ("failed to marshal JSON: " ++ e)), w)).
Proof.
  split.
  - intros jsonBody Hh Hm Hnew.
    unfold httpclient.PostJSON. rewrite Hm, Hnew. rewrite roundTrip_sends.
    unfold httpclient.GetHeaders. rewrite Hh.
    destruct (decide (httpclient.Token (httpclient.config c) = "")); reflexivity.
  - intros e Hm. unfold httpclient.PostJSON. now rewrite Hm.
Qed.

Lemma PostJSON_request_witness :
  w_sent (snd (httpclient.PostJSON (demo.system demo.upServer) demo.transport "/devices"
                 (JObject ∅) demo.world0))
  = [ {| req_Method := "POST";
         req_URL := "https://api.appstoreconnect.apple.com/v1/devices";
         req_Header := {[ "Content-Type" := "application/json" ]};
         req_Body := Some "{}" |} ].
Proof.
  destruct (PostJSON_request (demo.system demo.upServer) demo.transport "/devices"
              (JObject ∅) demo.world0) as (H & _).
  rewrite (H "{}" eq_refl eq_refl eq_refl). reflexivity.
Defined.

Lemma unparsable_body_hides_status_witness :
  fst (httpclient.Get (demo.system scenario.gatewayServer) demo.transport "/devices" ∅
         demo.world0)
    = (∅, Some "failed to parse JSON: invalid character").
Proof.
  destruct (unparsable_body_hides_status (demo.system scenario.gatewayServer)
              (getRequest demo.transport "/devices" ∅) demo.world0
              {| StatusCode := 502; Body := Ok "<html>" |} "<html>" "invalid character"
              eq_refl eq_refl eq_refl) as (_ & H).
  apply (H demo.transport "/devices" ∅); reflexivity.
Defined.

(** Bytes of a string. *)
Lemma allBytes_append (P : ascii -> bool) (a b : string) :
  allBytes P (a ++ b) = allBytes P a && allBytes P b.
Proof.
  induction a as [|x a IH]; [reflexivity|].
  rewrite append_cons. cbn. rewrite IH. now destruct (P x).
Qed.

Lemma escapeByte_safe (c : ascii) : allBytes querySafe (escapeByte c) = true.
Proof. destruct c as [[] [] [] [] [] [] [] []]; reflexivity. Qed.

Lemma QueryEscape_safe (s : string) : allBytes querySafe (url.QueryEscape s) = true.
Proof.
  induction s as [|c s IH]; [reflexivity|].
  now rewrite QueryEscape_cons, allBytes_append, escapeByte_safe, IH.
Qed.

Lemma segment_safe (p : string * string) : allBytes querySafe (segment p) = true.
Proof.
  unfold segment. rewrite !allBytes_append, !QueryEscape_safe. reflexivity.
Qed.

Lemma moreSegments_safe (ps : list (string * string)) :
  allBytes querySafe (moreSegments ps) = true.
Proof.
  induction ps as [|p ps IH]; [reflexivity|].
  cbn [moreSegments]. now rewrite !allBytes_append, segment_safe, IH.
Qed.

(** X11.  Whatever bytes the parameter keys and values contain, the query
    string of a request consists of unreserved bytes (letters, digits,
    - _ . ~), percent escapes, +, = and & only: no space, no ?, no #, no
    byte above 127; and an empty parameter map adds nothing to the URL, not
    even the question mark. *)
Theorem query_string_is_safe (c : httpclient.Client) (path : string)
    (params : gmap string string) :
  allBytes querySafe (url.Encode (httpclient.queryValues params)) = true
  /\ httpclient.fullURL c path ∅ = httpclient.BuildURL c path
  /\ (params <> ∅ ->
        exists query,
          httpclient.fullURL c path params = httpclient.BuildURL c path ++ "?" ++ query
          /\ query <> "" /\ allBytes querySafe query = true).
Proof.
  assert (Hsafe : allBytes querySafe (url.Encode (httpclient.queryValues params)) = true).
  { rewrite queryValues_singletons, Encode_segments.
    destruct (encodedPairs params) as [|p ps]; [reflexivity|].
    cbn [segments]. now rewrite allBytes_append, segment_safe, moreSegments_safe. }
  repeat apply conj.
  - exact Hsafe.
  - reflexivity.
  - intros Hne. exists (url.Encode (httpclient.queryValues params)).
    split; [|split; [|exact Hsafe]].
    + unfold httpclient.fullURL. now rewrite decide_False.
    + rewrite queryValues_singletons, Encode_segments.
      destruct (encodedPairs params) as [|p ps] eqn:Hps.
      * exfalso. apply Hne. apply map_eq. intros k. rewrite lookup_empty.
        destruct (params !! k) as [v|] eqn:Hk; [|reflexivity].
        assert (Hin : k ∈ url.sortedKeys (singletons params))
          by (apply elem_of_sortedKeys; eauto).
        unfold encodedPairs in Hps. apply fmap_nil_inv in Hps.
        rewrite Hps in Hin. inversion Hin.
      * cbn [segments]. destruct (segment_facts p) as (Hp & _).
        destruct (segment p); [contradiction | discriminate].
Qed.

(** * More on the facade *)

(** X12.  [API] knows exactly five names (case-sensitively); every other
    name is an error that quotes it. *)
Theorem API_names (name : string) :
  (is_Ok (appstore.API name) = true <->
     name ∈ ["device"; "bundleId"; "bundleIdCapabilities"; "profiles"; "certificates"])
  /\ (is_Ok (appstore.API name) = false ->
        appstore.API name = Err ("undefined API: " ++ name)).
Proof.
  unfold appstore.API.
  destruct (String.eqb_spec name "device") as [->|H1].
  { split; [split; [intros _; set_solver | reflexivity] | discriminate]. }
  destruct (String.eqb_spec name "bundleId") as [->|H2].
  { split; [split; [intros _; set_solver | reflexivity] | discriminate]. }
  destruct (String.eqb_spec name "bundleIdCapabilities") as [->|H3].
  { split; [split; [intros _; set_solver | reflexivity] | discriminate]. }
  destruct (String.eqb_spec name "profiles") as [->|H4].
  { split; [split; [intros _; set_solver | reflexivity] | discriminate]. }
  destruct (String.eqb_spec name "certificates") as [->|H5].
  { split; [split; [intros _; set_solver | reflexivity] | discriminate]. }
  split; [|reflexivity].
  split; [discriminate|].
  rewrite !elem_of_cons, elem_of_nil. tauto.
Qed.

(** X13.  A client that [NewClient] returns talks to the fixed base URI,
    has no token attached and no custom header, keeps the configured issuer,
    key ID and secret, and its generator holds the resolved secret text (the
    file's content when the secret names an existing file). *)
Theorem NewClient_result (S : System) (cfg : appstore.Config) (c : appstore.Client) :
  appstore.NewClient S cfg = Ok c ->
  httpclient.BaseURL (httpclient.config (appstore.httpClient c))
    = "https://api.appstoreconnect.apple.com"
  /\ attachedToken c = ""
  /\ httpclient.Headers (httpclient.config (appstore.httpClient c)) = ∅
  /\ authorization (appstore.httpClient c) = ""
  /\ appstore.Issuer (appstore.config c) = appstore.Issuer cfg
  /\ appstore.KeyID (appstore.config c) = appstore.KeyID cfg
  /\ appstore.Secret (appstore.config c) = appstore.Secret cfg
  /\ jwtutil.Issuer (jwtutil.config (appstore.jwtGenerator c)) = appstore.Issuer cfg
  /\ jwtutil.KeyID (jwtutil.config (appstore.jwtGenerator c)) = appstore.KeyID cfg
  /\ resolvedSecret S (appstore.Secret cfg)
       = Ok (jwtutil.PrivateKey (jwtutil.config (appstore.jwtGenerator c))).
Proof.
  unfold appstore.NewClient, resolvedSecret.
  destruct (decide (appstore.Issuer cfg = "")); [discriminate|].
  destruct (decide (appstore.KeyID cfg = "")); [discriminate|].
  destruct (decide (appstore.Secret cfg = "")); [discriminate|].
  destruct (decide (appstore.APIVersion cfg = "")); cbn;
    destruct (os_Stat S (appstore.Secret cfg));
    try destruct (os_ReadFile S (appstore.Secret cfg)) as [content|]; try discriminate;
    match goal with
    | |- context [jwtutil.NewGenerator ?j] =>
        destruct (jwtutil.NewGenerator j) as [g|] eqn:Hg
    end; try discriminate;
    unfold jwtutil.NewGenerator in Hg; cbn in Hg;
    repeat (destruct (decide _) in Hg; [discriminate Hg|]);
    injection Hg as <-; intros [= <-]; cbn; repeat apply conj; reflexivity.
Qed.

Lemma NewClient_result_witness :
  attachedToken demo.client = ""
  /\ resolvedSecret (demo.system demo.upServer) "/keys/AuthKey.p8" = Ok "PEM:pkcs8-ec".
Proof.
  destruct (NewClient_result (demo.system demo.upServer) demo.clientConfig demo.client
              eq_refl) as (_ & H2 & _ & _ & _ & _ & _ & _ & _ & H10).
  split; [exact H2 | exact H10].
Defined.

(** X14.  [NewClient] reports the first missing field, in the order issuer,
    key ID, secret, before it touches the file system; with the three
    present, a secret that names an existing file which cannot be read is
    "failed to read secret file: ...", and one that names an empty file is
    "failed to create JWT generator: private key is required". *)
Theorem NewClient_errors (S : System) (cfg : appstore.Config) :
  (appstore.Issuer cfg = "" -> appstore.NewClient S cfg = Err "issuer is required")
  /\ (appstore.Issuer cfg <> "" -> appstore.KeyID cfg = "" ->
        appstore.NewClient S cfg = Err "key id is required")
  /\ (appstore.Issuer cfg <> "" -> appstore.KeyID cfg <> "" -> appstore.Secret cfg = "" ->
        appstore.NewClient S cfg = Err "secret is required")
  /\ (appstore.Issuer cfg <> "" -> appstore.KeyID cfg <> "" -> appstore.Secret cfg <> "" ->
        os_Stat S (appstore.Secret cfg) = true ->
        (forall e, os_ReadFile S (appstore.Secret cfg) = Err e ->
           appstore.NewClient S cfg = Err ("failed to read secret file: " ++ e))
        /\ (os_ReadFile S (appstore.Secret cfg) = Ok "" ->
              appstore.NewClient S cfg
                = Err "failed to create JWT generator: private key is required")).
Proof.
  unfold appstore.NewClient. repeat apply conj.
  - intros H. now rewrite decide_True.
  - intros H1 H2. now rewrite decide_False, decide_True.
  - intros H1 H2 H3. now rewrite decide_False, decide_False, decide_True.
  - intros H1 H2 H3 Hstat.
    rewrite decide_False, decide_False, decide_False by assumption.
    split.
    + intros e He. destruct (decide (appstore.APIVersion cfg = "")); cbn;
        now rewrite Hstat, He.
    + intros He. destruct (decide (appstore.APIVersion cfg = "")); cbn;
        rewrite Hstat, He; unfold jwtutil.NewGenerator; cbn;
        now rewrite decide_False, decide_False by assumption.
Qed.

Lemma NewClient_errors_witness :
  appstore.NewClient scenario.unreadable demo.clientConfig
    = Err "failed to read secret file: permission denied".
Proof.
  destruct (NewClient_errors scenario.unreadable demo.clientConfig) as (_ & _ & _ & H).
  destruct (H ltac:(discriminate) ltac:(discriminate) ltac:(discriminate) eq_refl)
    as (Hread & _).
  exact (Hread "permission denied" eq_refl).
Defined.

(** [EnsureAuth] never sends a request, and it changes the client only by
    attaching a token. *)
Lemma EnsureAuth_effect (L : Crypto) (S : System) (st : appstore.State) :
  exists r st',
    appstore.EnsureAuth L S st = (appstore.Returns r, st')
    /\ w_sent (appstore.st_world st') = w_sent (appstore.st_world st)
    /\ (r <> None -> appstore.st_client st' = appstore.st_client st).
Proof.
  destruct (decide (authorization (appstore.httpClient (appstore.st_client st)) = ""))
    as [Habs|Hpres].
  - rewrite EnsureAuth_absent by exact Habs.
    destruct (jwtutil.GenerateToken L _ _) as [token|e].
    + eexists _, _. split; [reflexivity|]. split; [reflexivity | congruence].
    + eexists _, _. split; [reflexivity|]. split; [|reflexivity].
      cbn. now destruct (is_Ok _).
  - rewrite EnsureAuth_present by exact Hpres.
    eexists _, _. split; [reflexivity|]. split; [reflexivity | congruence].
Qed.

(** X15.  [GetToken] mints afresh on every call, from the current clock
    reading, and attaches nothing: the client is unchanged, no request is
    sent, and with a key that parses two calls in a row use two successive
    clock readings. *)
Theorem GetToken_fresh (L : Crypto) (S : System) (st : appstore.State) :
  let g := appstore.jwtGenerator (appstore.st_client st) in
  let k := w_ticks (appstore.st_world st) in
  let mint now :=
    match jwtutil.GenerateToken L g now with
    | Ok token => Ok token
    | Err e => Err ("failed to generate token: " ++ e)
    end in
  let run1 := appstore.GetToken L S st in
  let run2 := appstore.GetToken L S (snd run1) in
  fst run1 = appstore.Returns (mint (time_Now S k))
  /\ appstore.st_client (snd run1) = appstore.st_client st
  /\ w_sent (appstore.st_world (snd run1)) = w_sent (appstore.st_world st)
  /\ (is_Ok (jwtutil.parsePrivateKey L g) = true ->
        fst run2 = appstore.Returns (mint (time_Now S (Datatypes.S k))))
  /\ (is_Ok (jwtutil.parsePrivateKey L g) = false ->
        snd run1 = st /\ fst run2 = fst run1).
Proof.
  cbv zeta. unfold appstore.GetToken. cbn.
  repeat apply conj; try reflexivity.
  - now destruct (is_Ok _).
  - intros ->. reflexivity.
  - intros ->. destruct st as [c w]. cbn. split; reflexivity.
Qed.

(** * Authentication in front of every resource call *)

Ltac unfold_ops :=
  unfold appstore.All, appstore.Register,
    bundleid.All, bundleid.Register, bundleid.Delete, bundleid.Query,
    bundleidcapability.Enable, bundleidcapability.Disable,
    profiles.Query, profiles.Create, profiles.ListDevices, profiles.ListCertificates,
    profiles.Delete, certificates.All, certificates.Delete,
    mbind, appstore.M_bind.

(** X16.  When the token cannot be minted, nothing is sent and the client
    stays as it was, and the error reaches the caller as follows.  Each of
    the fifteen methods that consist of [EnsureAuth] and one transport call
    (devices: All, Register; bundle IDs: All, Register, Delete, Query;
    capabilities: Enable, Disable; profiles: Query, Create, ListDevices,
    ListCertificates, Delete; certificates: All, Delete) returns that error
    with an empty result.  [GetDeviceType] and [RegisterAndGetType] return a
    nil error and the message in a failure result; [DeviceSort] returns that
    error with the zero result.  (The creation of a certificate, which draws
    a random signing request, is not part of the model.) *)
Theorem auth_failure_sends_nothing (L : Crypto) (S : System) (st st' : appstore.State)
    (e : error) :
  appstore.EnsureAuth L S st = (appstore.Returns (Some e), st') ->
  let failed := (appstore.Returns ((∅ : gmap string JSON), Some e), st') in
  (w_sent (appstore.st_world st') = w_sent (appstore.st_world st)
   /\ appstore.st_client st' = appstore.st_client st)
  /\ (forall params, appstore.All L S params st = failed)
  /\ (forall name platform udid, appstore.Register L S name platform udid st = failed)
  /\ (forall params, bundleid.All L S params st = failed)
  /\ (forall name platform bundleId, bundleid.Register L S name platform bundleId st = failed)
  /\ (forall bId, bundleid.Delete L S bId st = failed)
  /\ (forall bId params, bundleid.Query L S bId params st = failed)
  /\ (forall bId capability, bundleidcapability.Enable L S bId capability st = failed)
  /\ (forall bcId, bundleidcapability.Disable L S bcId st = failed)
  /\ (forall params, profiles.Query L S params st = failed)
  /\ (forall name bId profileType devices certificates,
        profiles.Create L S name bId profileType devices certificates st = failed)
  /\ (forall pId params, profiles.ListDevices L S pId params st = failed)
  /\ (forall pId params, profiles.ListCertificates L S pId params st = failed)
  /\ (forall pId, profiles.Delete L S pId st = failed)
  /\ (forall params, certificates.All L S params st = failed)
  /\ (forall id, certificates.Delete L S id st = failed)
  /\ (forall udid,
        appstore.GetDeviceType L S udid st
          = (appstore.Returns (appstore.failed e, None), st'))
  /\ (forall name platform udid,
        appstore.RegisterAndGetType L S name platform udid st
          = (appstore.Returns (appstore.failed e, None), st'))
  /\ appstore.DeviceSort L S st = (appstore.Returns (appstore.zeroSort, Some e), st').
Proof.
  intros Hauth failed. split.
  - destruct (EnsureAuth_effect L S st) as (r & st0 & Hrun & Hsent & Hclient).
    rewrite Hrun in Hauth. injection Hauth as -> ->.
    split; [exact Hsent | now apply Hclient].
  - assert (Hall : forall params, appstore.All L S params st = failed).
    { intros params. unfold appstore.All, mbind, appstore.M_bind. now rewrite Hauth. }
    assert (Hreg : forall name platform udid,
               appstore.Register L S name platform udid st = failed).
    { intros name platform udid. unfold appstore.Register, mbind, appstore.M_bind.
      now rewrite Hauth. }
    repeat apply conj; intros; try (unfold_ops; now rewrite Hauth).
    + unfold appstore.GetDeviceType, mbind, appstore.M_bind. now rewrite Hall.
    + unfold appstore.RegisterAndGetType, mbind, appstore.M_bind. now rewrite Hreg.
    + unfold appstore.DeviceSort, mbind, appstore.M_bind. now rewrite Hall.
Qed.

Lemma auth_failure_sends_nothing_witness :
  let st := at_world scenario.badKeyClient demo.world0 in
  let e := "failed to generate token: failed to parse private key: "
           ++ "failed to decode PEM block" in
  appstore.All demo.crypto (demo.system demo.upServer) (appstore.lookupParams "UDID-1") st
    = (appstore.Returns (∅, Some e), st)
  /\ appstore.GetDeviceType demo.crypto (demo.system demo.upServer) "UDID-1" st
    = (appstore.Returns (appstore.failed e, None), st)
  /\ appstore.DeviceSort demo.crypto (demo.system demo.upServer) st
    = (appstore.Returns (appstore.zeroSort, Some e), st).
Proof.
  intros st e.
  destruct (auth_failure_sends_nothing demo.crypto (demo.system demo.upServer) st st e
              eq_refl) as (_ & Hall & _ & _ & _ & _ & _ & _ & _ & _ & _ & _ & _ & _ & _ & _
                           & Hlookup & _ & Hsort).
  split; [apply Hall|]. split; [apply Hlookup | exact Hsort].
Defined.

(** X17.  The key is validated neither by [NewGenerator] nor by
    [NewClient] but at the first authenticated call: with a secret that holds
    no PEM block (or a key that does not parse), the call fails with the
    whole chain of messages and nothing at all changes, so that every later
    call fails the same way. *)
Theorem key_checked_at_first_call (L : Crypto) (S : System) (st : appstore.State)
    (e : error) :
  authorization (appstore.httpClient (appstore.st_client st)) = "" ->
  jwtutil.parsePrivateKey L (appstore.jwtGenerator (appstore.st_client st)) = Err e ->
  let msg := "failed to generate token: failed to parse private key: " ++ e in
  appstore.EnsureAuth L S st = (appstore.Returns (Some msg), st)
  /\ (forall params,
        appstore.All L S params st = (appstore.Returns (∅, Some msg), st))
  /\ (forall name platform udid,
        appstore.RegisterAndGetType L S name platform udid st
          = (appstore.Returns (appstore.failed msg, None), st)).
Proof.
  intros Habs Hparse msg.
  assert (Hauth : appstore.EnsureAuth L S st = (appstore.Returns (Some msg), st)).
  { rewrite EnsureAuth_absent by exact Habs.
    unfold jwtutil.GenerateToken. rewrite Hparse. cbn. now destruct st. }
  repeat apply conj.
  - exact Hauth.
  - intros params. unfold appstore.All, mbind, appstore.M_bind. now rewrite Hauth.
  - intros name platform udid.
    apply RegisterAndGetType_Register_failed with (registration := ∅).
    unfold appstore.Register, mbind, appstore.M_bind. now rewrite Hauth.
Qed.

Lemma key_checked_at_first_call_witness :
  appstore.EnsureAuth demo.crypto (demo.system demo.upServer)
    (at_world scenario.badKeyClient demo.world0)
  = (appstore.Returns
       (Some ("failed to generate token: failed to parse private key: "
              ++ "failed to decode PEM block")),
     at_world scenario.badKeyClient demo.world0).
Proof.
  apply (key_checked_at_first_call demo.crypto (demo.system demo.upServer)
           (at_world scenario.badKeyClient demo.world0) "failed to decode PEM block");
    reflexivity.
Defined.

(** A listing of devices with a token attached is the bare GET. *)
Lemma All_attached (L : Crypto) (S : System) (st : appstore.State)
    (params : gmap string string) :
  attachedToken (appstore.st_client st) <> "" ->
  appstore.All L S params st =
    (appstore.Returns
       (fst (httpclient.Get S (appstore.httpClient (appstore.st_client st)) "/devices" params
               (appstore.st_world st))),
     at_world (appstore.st_client st)
       (snd (httpclient.Get S (appstore.httpClient (appstore.st_client st)) "/devices" params
               (appstore.st_world st)))).
Proof.
  intros Htok. unfold appstore.All, mbind, appstore.M_bind.
  rewrite EnsureAuth_attached by exact Htok.
  unfold appstore.GetHTTPClient, appstore.liftW.
  now destruct (httpclient.Get S _ "/devices" params _).
Qed.

(** X18.  With a token attached, each of the fifteen methods that consist
    of [EnsureAuth] and one transport call (devices: All, Register; bundle
    IDs: All, Register, Delete, Query; capabilities: Enable, Disable;
    profiles: Query, Create, ListDevices, ListCertificates, Delete;
    certificates: All, Delete) is that transport call alone, on the path
    and with the parameters or body shown: nothing is minted, the clock is
    not read, the client is unchanged, and the value and error of the verb
    are passed through.  (The methods built on them, [GetDeviceType],
    [RegisterAndGetType] and [DeviceSort], and the creation of a
    certificate are not among the fifteen.) *)
Theorem attached_token_is_reused (L : Crypto) (S : System) (st : appstore.State) :
  attachedToken (appstore.st_client st) <> "" ->
  let c := appstore.httpClient (appstore.st_client st) in
  let bare (call : World -> (gmap string JSON * option error) * World) :=
    (appstore.Returns (fst (call (appstore.st_world st))),
     at_world (appstore.st_client st) (snd (call (appstore.st_world st)))) in
  (forall params, appstore.All L S params st = bare (httpclient.Get S c "/devices" params))
  /\ (forall name platform udid,
        appstore.Register L S name platform udid st
          = bare (httpclient.PostJSON S c "/devices" (appstore.registerBody S name platform udid)))
  /\ (forall params, bundleid.All L S params st = bare (httpclient.Get S c "/bundleIds" params))
  /\ (forall name platform bundleId,
        bundleid.Register L S name platform bundleId st
          = bare (httpclient.PostJSON S c "/bundleIds"
                    (bundleid.registerBody name platform bundleId)))
  /\ (forall bId,
        bundleid.Delete L S bId st = bare (httpclient.Delete S c ("/bundleIds/" ++ bId) ∅))
  /\ (forall bId params,
        bundleid.Query L S bId params st
          = bare (httpclient.Get S c ("/bundleIds/" ++ bId ++ "/bundleIdCapabilities") params))
  /\ (forall bId capability,
        bundleidcapability.Enable L S bId capability st
          = bare (httpclient.PostJSON S c "/bundleIdCapabilities"
                    (bundleidcapability.enableBody bId capability)))
  /\ (forall bcId,
        bundleidcapability.Disable L S bcId st
          = bare (httpclient.Delete S c ("/bundleIdCapabilities/" ++ bcId) ∅))
  /\ (forall params, profiles.Query L S params st = bare (httpclient.Get S c "/profiles" params))
  /\ (forall name bId profileType devices certificates,
        profiles.Create L S name bId profileType devices certificates st
          = bare (httpclient.PostJSON S c "/profiles"
                    (profiles.createBody name bId profileType devices certificates)))
  /\ (forall pId params,
        profiles.ListDevices L S pId params st
          = bare (httpclient.Get S c ("/profiles/" ++ pId ++ "/devices") params))
  /\ (forall pId params,
        profiles.ListCertificates L S pId params st
          = bare (httpclient.Get S c ("/profiles/" ++ pId ++ "/relationships/certificates")
                    params))
  /\ (forall pId,
        profiles.Delete L S pId st = bare (httpclient.Delete S c ("/profiles/" ++ pId) ∅))
  /\ (forall params,
        certificates.All L S params st = bare (httpclient.Get S c "/certificates" params))
  /\ (forall id,
        certificates.Delete L S id st
          = bare (httpclient.Delete S c ("/certificates/" ++ id) ∅)).
Proof.
  intros Htok c bare.
  pose proof (EnsureAuth_attached L S st Htok) as Hauth.
  repeat apply conj; intros; unfold_ops; rewrite Hauth;
    unfold appstore.GetHTTPClient, appstore.liftW, bare; fold c;
    match goal with
    | |- context [let '(_, _) := ?call in _] => now destruct call
    end.
Qed.

Lemma attached_token_is_reused_witness :
  appstore.All demo.crypto (demo.system demo.upServer) (appstore.lookupParams "UDID-1")
    scenario.authed
  = (appstore.Returns (demo.listing, None),
     at_world (attach "e30.e30.signature" demo.client)
       (sent (getRequest (httpclient.SetToken "e30.e30.signature" demo.transport)
                "/devices" (appstore.lookupParams "UDID-1")) demo.world0)).
Proof.
  destruct (attached_token_is_reused demo.crypto (demo.system demo.upServer)
              scenario.authed ltac:(discriminate)) as (H & _).
  rewrite H. reflexivity.
Defined.

(** X19.  The first listing of devices through a client without custom
    headers and without a token mints one token, at the current clock
    reading, attaches it and sends one request, a GET whose only header is
    Authorization: Bearer <token>; what the call returns is the answer to
    that request, the token stays attached and the clock has been read
    once. *)
Theorem first_call_mints (L : Crypto) (S : System) (st : appstore.State)
    (token : string) (params : gmap string string) :
  let c := appstore.httpClient (appstore.st_client st) in
  let w := appstore.st_world st in
  httpclient.Headers (httpclient.config c) = ∅ ->
  attachedToken (appstore.st_client st) = "" ->
  jwtutil.GenerateToken L (appstore.jwtGenerator (appstore.st_client st))
    (time_Now S (w_ticks w)) = Ok token ->
  http_NewRequest_err S "GET" (httpclient.fullURL c "/devices" params) = None ->
  let req := {| req_Method := "GET";
                req_URL := httpclient.fullURL c "/devices" params;
                req_Header := {[ "Authorization" := "Bearer " ++ token ]};
                req_Body := None |} in
  let run := appstore.All L S params st in
  fst run = appstore.Returns (fst (httpclient.roundTrip S req (tick w)))
  /\ appstore.st_client (snd run) = attach token (appstore.st_client st)
  /\ attachedToken (appstore.st_client (snd run)) = token
  /\ httpclient.Headers (httpclient.config (appstore.httpClient (appstore.st_client (snd run))))
       = ∅
  /\ appstore.st_world (snd run) = sent req (tick w).
Proof.
  intros c w Hh Htok Hgen Hnew req run.
  assert (Habs : authorization c = "").
  { rewrite authorization_no_token by exact Htok. unfold index_str. now rewrite Hh. }
  pose proof (GenerateToken_nonempty L _ _ _ Hgen) as Hne.
  set (c' := appstore.httpClient (attach token (appstore.st_client st))).
  assert (Hreq : getRequest c' "/devices" params = req).
  { unfold getRequest, req, httpclient.GetHeaders. cbn. fold c. rewrite Hh.
    destruct (decide (token = "")); [contradiction | reflexivity]. }
  assert (Hget : httpclient.Get S c' "/devices" params (tick w)
                 = httpclient.roundTrip S req (tick w)).
  { unfold httpclient.Get.
    change (httpclient.fullURL c' "/devices" params)
      with (httpclient.fullURL c "/devices" params).
    rewrite Hnew. fold (getRequest c' "/devices" params).
    unfold getRequest in Hreq |- *. now rewrite <- Hreq. }
  assert (Hrun : run = (appstore.Returns (fst (httpclient.roundTrip S req (tick w))),
                        at_world (attach token (appstore.st_client st))
                          (snd (httpclient.roundTrip S req (tick w))))).
  { unfold run, appstore.All, mbind, appstore.M_bind.
    rewrite EnsureAuth_absent by exact Habs. fold w. rewrite Hgen.
    unfold appstore.GetHTTPClient, appstore.liftW. cbn. fold c.
    change {| httpclient.config := _ |} with c'. rewrite Hget.
    now destruct (httpclient.roundTrip S req (tick w)). }
  rewrite Hrun. cbn. repeat apply conj; try reflexivity.
  - exact Hh.
  - apply roundTrip_sends.
Qed.

Lemma first_call_mints_witness :
  let run := appstore.All demo.crypto (demo.system demo.upServer) appstore.iOSParams
               demo.start in
  attachedToken (appstore.st_client (snd run)) = "e30.e30.signature"
  /\ w_sent (appstore.st_world (snd run))
     = [ {| req_Method := "GET";
            req_URL := httpclient.fullURL demo.transport "/devices" appstore.iOSParams;
            req_Header := {[ "Authorization" := "Bearer e30.e30.signature" ]};
            req_Body := None |} ].
Proof.
  intros run.
  destruct (first_call_mints demo.crypto (demo.system demo.upServer) demo.start
              "e30.e30.signature" appstore.iOSParams eq_refl eq_refl eq_refl eq_refl)
    as (_ & _ & Htok & _ & Hworld).
  split; [exact Htok|]. unfold run. rewrite Hworld. reflexivity.
Defined.

(** * More on the device lookups *)

(** X20.  What [GetDeviceType] returns, read backwards.  A result with
    Success = true describes the first entry of the listing's data array:
    its class, model, platform and status are that entry's attributes, ""
    for one that is missing or not a string, and Error is empty.  A result
    with Success = false carries the message of the failed call, the error
    detail of the response, or one of "Device not found" (no data array, or
    an empty one), "Invalid device data", "Invalid device attributes". *)
Theorem GetDeviceType_inv (L : Crypto) (S : System) (udid : string)
    (st st' : appstore.State) (d : appstore.DeviceType) (err : option error) :
  appstore.GetDeviceType L S udid st = (appstore.Returns (d, err), st') ->
  exists response callErr,
    appstore.All L S (appstore.lookupParams udid) st
      = (appstore.Returns (response, callErr), st')
    /\ ((appstore.Success d = true
         /\ callErr = None
         /\ appstore.Error d = ""
         /\ exists device attributes,
              head (listed response) = Some (JObject device)
              /\ as_object (device !! "attributes") = Some attributes
              /\ appstore.DeviceClass d = appstore.stringField attributes "deviceClass"
              /\ appstore.Model d = appstore.stringField attributes "model"
              /\ appstore.Platform d = appstore.stringField attributes "platform"
              /\ appstore.Status d = appstore.stringField attributes "status")
        \/ (appstore.Success d = false
            /\ (callErr = Some (appstore.Error d)
                \/ (callErr = None
                    /\ appstore.errorsDetail response = appstore.Detail (appstore.Error d))
                \/ (callErr = None /\ listed response = []
                    /\ appstore.Error d = "Device not found")
                \/ (callErr = None /\ (exists item, head (listed response) = Some item)
                    /\ (appstore.Error d = "Invalid device data"
                        \/ appstore.Error d = "Invalid device attributes"))))).
Proof.
  unfold appstore.GetDeviceType, mbind, appstore.M_bind.
  destruct (appstore.All L S (appstore.lookupParams udid) st)
    as [[[response [e|]]|msg] st1]; [| |discriminate].
  - intros [= <- <- <-]. exists response, (Some e). split; [reflexivity|].
    right. split; [reflexivity|]. now left.
  - unfold mret, appstore.M_ret, appstore.panic.
    destruct (appstore.errorsDetail response) as [|errorDetail|] eqn:Hd; [| |discriminate].
    + destruct (as_array (response !! "data")) as [[|item data]|] eqn:Hdata.
      * intros [= <- <- <-]. exists response, None. split; [reflexivity|].
        unfold listed. rewrite Hdata. cbn.
        right. split; [reflexivity|]. right; right; left. auto.
      * destruct item as [|b|n|s|l|device];
          try (intros [= <- <- <-]; exists response, None; split; [reflexivity|];
               unfold listed; rewrite Hdata; cbn;
               right; split; [reflexivity|]; right; right; right;
               split; [reflexivity|]; split; [eexists; reflexivity | now left]).
        destruct (as_object (device !! "attributes")) as [attributes|] eqn:Hattr.
        -- intros [= <- <- <-]. exists response, None. split; [reflexivity|].
           unfold listed. rewrite Hdata. cbn.
           left. split; [reflexivity|]. split; [reflexivity|]. split; [reflexivity|].
           exists device, attributes. rewrite Hattr. auto 10.
        -- intros [= <- <- <-]. exists response, None. split; [reflexivity|].
           unfold listed. rewrite Hdata. cbn.
           right. split; [reflexivity|]. right; right; right.
           split; [reflexivity|]. split; [eexists; reflexivity | now right].
      * intros [= <- <- <-]. exists response, None. split; [reflexivity|].
        unfold listed. rewrite Hdata. cbn.
        right. split; [reflexivity|]. right; right; left. auto.
    + intros [= <- <- <-]. exists response, None. split; [reflexivity|].
      right. split; [reflexivity|]. right; left. auto.
Qed.

Lemma GetDeviceType_inv_witness :
  exists response callErr,
    appstore.All demo.crypto (demo.system demo.upServer) (appstore.lookupParams "UDID-1")
      demo.start
      = (appstore.Returns (response, callErr),
         snd (appstore.GetDeviceType demo.crypto (demo.system demo.upServer) "UDID-1"
                demo.start))
    /\ callErr = None.
Proof.
  destruct (GetDeviceType_inv demo.crypto (demo.system demo.upServer) "UDID-1" demo.start
              (snd (appstore.GetDeviceType demo.crypto (demo.system demo.upServer) "UDID-1"
                      demo.start))
              (appstore.described "IPHONE" "model-1" "" "") None)
    as (response & callErr & Hall & [(_ & Herr & _) | (Hs & _)]).
  - vm_compute. reflexivity.
  - exists response, callErr. split; [exact Hall | exact Herr].
  - discriminate Hs.
Defined.

(** X21.  The unchecked type assertion: when a response that came back
    with a nil error has a non-empty "errors" array whose first entry is not
    a JSON object, [GetDeviceType], [RegisterAndGetType] and (for the Mac
    query) [DeviceSort] panic. *)
Theorem errors_entry_not_an_object_panics (L : Crypto) (S : System)
    (st st1 : appstore.State) (response : gmap string JSON) (first : JSON)
    (rest : list JSON) :
  as_array (response !! "errors") = Some (first :: rest) ->
  (forall o, first <> JObject o) ->
  (forall udid,
     appstore.All L S (appstore.lookupParams udid) st
       = (appstore.Returns (response, None), st1) ->
     appstore.GetDeviceType L S udid st
       = (appstore.Panics appstore.interfaceConversion, st1))
  /\ (forall name platform udid,
     appstore.Register L S name platform udid st
       = (appstore.Returns (response, None), st1) ->
     appstore.RegisterAndGetType L S name platform udid st
       = (appstore.Panics appstore.interfaceConversion, st1))
  /\ (forall st0 iOSData,
     appstore.All L S appstore.iOSParams st0 = (appstore.Returns (iOSData, None), st) ->
     appstore.All L S appstore.macParams st = (appstore.Returns (response, None), st1) ->
     appstore.DeviceSort L S st0 = (appstore.Panics appstore.interfaceConversion, st1)).
Proof.
  intros Herrors Hfirst.
  assert (Hd : appstore.errorsDetail response = appstore.NotAnObject).
  { unfold appstore.errorsDetail. rewrite Herrors.
    destruct first; try reflexivity. now destruct (Hfirst m). }
  repeat apply conj.
  - intros udid Hall. unfold appstore.GetDeviceType, mbind, appstore.M_bind.
    now rewrite Hall, Hd.
  - intros name platform udid Hreg. unfold appstore.RegisterAndGetType, mbind, appstore.M_bind.
    now rewrite Hreg, Hd.
  - intros st0 iOSData HiOS Hmac. unfold appstore.DeviceSort, mbind, appstore.M_bind.
    rewrite HiOS. destruct (appstore.countDevices iOSData). now rewrite Hmac, Hd.
Qed.

Lemma errors_entry_not_an_object_panics_witness :
  appstore.GetDeviceType demo.crypto (scenario.system scenario.strangeServer) "UDID-1"
    scenario.authed
  = (appstore.Panics appstore.interfaceConversion,
     snd (appstore.All demo.crypto (scenario.system scenario.strangeServer)
            (appstore.lookupParams "UDID-1") scenario.authed)).
Proof.
  destruct (errors_entry_not_an_object_panics demo.crypto
              (scenario.system scenario.strangeServer) scenario.authed
              (snd (appstore.All demo.crypto (scenario.system scenario.strangeServer)
                      (appstore.lookupParams "UDID-1") scenario.authed))
              scenario.strange (JString "rate limited") [] eq_refl
              ltac:(discriminate)) as (H & _).
  apply H. vm_compute. reflexivity.
Defined.

(** X22.  [RegisterAndGetType] follows a registration with a lookup in one
    case only: the registration came back with a nil error and an error
    detail that contains "already exists on this team"; the result is then
    that of [GetDeviceType].  In every other case nothing happens after the
    registration call, and when the registration succeeded the result
    describes the "data" object of its response. *)
Theorem lookup_follows_only_soft_conflict (L : Crypto) (S : System)
    (name platform udid : string) (st st1 : appstore.State)
    (registration : gmap string JSON) (err : option error) :
  appstore.Register L S name platform udid st
    = (appstore.Returns (registration, err), st1) ->
  (forall errorDetail,
     err = None ->
     appstore.errorsDetail registration = appstore.Detail errorDetail ->
     appstore.Contains errorDetail "already exists on this team" = true ->
     appstore.RegisterAndGetType L S name platform udid st
       = appstore.GetDeviceType L S udid st1)
  /\ (forall errorDetail,
     err = None ->
     appstore.errorsDetail registration = appstore.Detail errorDetail ->
     appstore.Contains errorDetail "already exists on this team" = false ->
     appstore.RegisterAndGetType L S name platform udid st
       = (appstore.Returns (appstore.failed errorDetail, None), st1))
  /\ (forall data attributes,
     err = None ->
     appstore.errorsDetail registration = appstore.NoDetail ->
     as_object (registration !! "data") = Some data ->
     as_object (data !! "attributes") = Some attributes ->
     appstore.RegisterAndGetType L S name platform udid st
       = (appstore.Returns
            (appstore.described (appstore.stringField attributes "deviceClass")
               (appstore.stringField attributes "model")
               (appstore.stringField attributes "platform")
               (appstore.stringField attributes "status"), None), st1))
  /\ ((err <> None \/ forall errorDetail,
         appstore.errorsDetail registration = appstore.Detail errorDetail ->
         appstore.Contains errorDetail "already exists on this team" = false) ->
      snd (appstore.RegisterAndGetType L S name platform udid st) = st1).
Proof.
  intros Hreg. repeat apply conj.
  - intros errorDetail -> Hd Hc.
    rewrite (RegisterAndGetType_detail L S name platform udid st st1 registration
               errorDetail Hreg Hd). now rewrite Hc.
  - intros errorDetail -> Hd Hc.
    rewrite (RegisterAndGetType_detail L S name platform udid st st1 registration
               errorDetail Hreg Hd). now rewrite Hc.
  - intros data attributes -> Hd Hdata Hattr.
    unfold appstore.RegisterAndGetType, mbind, appstore.M_bind.
    now rewrite Hreg, Hd, Hdata, Hattr.
  - intros Hcase. unfold appstore.RegisterAndGetType, mbind, appstore.M_bind.
    rewrite Hreg. destruct err as [e|]; [reflexivity|].
    destruct Hcase as [Hne | Hno]; [congruence|].
    unfold mret, appstore.M_ret, appstore.panic.
    destruct (appstore.errorsDetail registration) as [|errorDetail|] eqn:Hd.
    + destruct (as_object (registration !! "data")) as [data|]; [|reflexivity].
      now destruct (as_object (data !! "attributes")).
    + now rewrite (Hno errorDetail eq_refl).
    + reflexivity.
Qed.

Lemma lookup_follows_only_soft_conflict_witness :
  fst (appstore.RegisterAndGetType demo.crypto (scenario.system scenario.softConflictServer)
         "phone" "IOS" "UDID-1" scenario.authed)
    = appstore.Returns (appstore.described "IPHONE" "model-1" "" "", None)
  /\ fst (appstore.RegisterAndGetType demo.crypto
            (scenario.system scenario.registeringServer) "pad" "IOS" "UDID-2" scenario.authed)
    = appstore.Returns (appstore.described "IPAD" "" "" "ENABLED", None).
Proof.
  split.
  - destruct (lookup_follows_only_soft_conflict demo.crypto
                (scenario.system scenario.softConflictServer) "phone" "IOS" "UDID-1"
                scenario.authed
                (snd (appstore.Register demo.crypto
                        (scenario.system scenario.softConflictServer)
                        "phone" "IOS" "UDID-1" scenario.authed))
                demo.conflict None) as (H & _).
    + vm_compute. reflexivity.
    + rewrite (H "A device with number 'UDID-1' already exists on this team.");
        [vm_compute; reflexivity | reflexivity | reflexivity | vm_compute; reflexivity].
  - destruct (lookup_follows_only_soft_conflict demo.crypto
                (scenario.system scenario.registeringServer) "pad" "IOS" "UDID-2"
                scenario.authed
                (snd (appstore.Register demo.crypto
                        (scenario.system scenario.registeringServer)
                        "pad" "IOS" "UDID-2" scenario.authed))
                scenario.registered None) as (_ & _ & H & _).
    + vm_compute. reflexivity.
    + rewrite (H (<["id" := JString "D1"]>
                   {[ "attributes" := JObject (<["deviceClass" := JString "IPAD"]>
                                               {[ "status" := JString "ENABLED" ]}) ]})
                 (<["deviceClass" := JString "IPAD"]> {[ "status" := JString "ENABLED" ]}));
        [vm_compute; reflexivity | reflexivity | reflexivity
        | vm_compute; reflexivity | vm_compute; reflexivity].
Defined.

(** X23.  With a real error status the vendor's error detail is never
    looked at: when the listing (for [GetDeviceType]) or the registration
    (for [RegisterAndGetType]) is answered with a status of 400 or more, the
    result is the failure "API request failed with status N", whatever the
    body says, and nothing else is sent. *)
Theorem error_status_hides_detail (L : Crypto) (S : System) (st : appstore.State)
    (code : Z) (body : gmap string JSON) :
  let c := appstore.httpClient (appstore.st_client st) in
  let w := appstore.st_world st in
  attachedToken (appstore.st_client st) <> "" ->
  code >= 400 ->
  (forall udid,
     http_NewRequest_err S "GET"
       (httpclient.fullURL c "/devices" (appstore.lookupParams udid)) = None ->
     answered S w (getRequest c "/devices" (appstore.lookupParams udid)) code body ->
     appstore.GetDeviceType L S udid st
       = (appstore.Returns (appstore.failed (httpclient.statusError code), None),
          at_world (appstore.st_client st)
            (sent (getRequest c "/devices" (appstore.lookupParams udid)) w)))
  /\ (forall name platform udid jsonBody,
     json_Marshal S (appstore.registerBody S name platform udid) = Ok jsonBody ->
     http_NewRequest_err S "POST" (httpclient.BuildURL c "/devices") = None ->
     answered S w (postRequest c "/devices" jsonBody) code body ->
     appstore.RegisterAndGetType L S name platform udid st
       = (appstore.Returns (appstore.failed (httpclient.statusError code), None),
          at_world (appstore.st_client st) (sent (postRequest c "/devices" jsonBody) w))).
Proof.
  intros c w Htok Hcode. split.
  - intros udid Hnew Hans.
    apply GetDeviceType_All_failed with (response := body).
    rewrite All_attached by exact Htok. fold c w.
    rewrite (Get_answered S c "/devices" _ w code body Hnew Hans).
    cbn. now rewrite bool_decide_eq_true_2.
  - intros name platform udid jsonBody Hm Hnew Hans.
    now apply (RegisterAndGetType_status_error L S name platform udid st jsonBody code body).
Qed.

Lemma error_status_hides_detail_witness :
  fst (appstore.RegisterAndGetType demo.crypto (demo.system demo.conflictServer)
         "phone" "IOS" "UDID-1" scenario.authed)
    = appstore.Returns (appstore.failed "API request failed with status 409", None).
Proof.
  destruct (error_status_hides_detail demo.crypto (demo.system demo.conflictServer)
              scenario.authed 409 demo.conflict ltac:(discriminate) ltac:(lia))
    as (_ & H).
  rewrite (H "phone" "IOS" "UDID-1" "{}" eq_refl eq_refl); [reflexivity|].
  now apply conflict_answered.
Defined.

(** * More on slot accounting *)

Lemma classCount_nonneg (class : string) (data : list JSON) : 0 <= classCount class data.
Proof. unfold classCount. lia. Qed.

Lemma classCount_disjoint (data : list JSON) :
  classCount "IPHONE" data + classCount "IPAD" data <= Z.of_nat (length data).
Proof.
  induction data as [|item data IH]; [unfold classCount; cbn; lia|].
  rewrite !classCount_cons. cbn [length].
  destruct (decide (deviceClassOf item = Some "IPHONE")) as [H1|];
    destruct (decide (deviceClassOf item = Some "IPAD")) as [H2|]; try lia.
  rewrite H1 in H2. discriminate H2.
Qed.

Lemma wrap64_range (z : Z) : - 2 ^ 63 <= appstore.wrap64 z < 2 ^ 63.
Proof.
  unfold appstore.wrap64.
  pose proof (Z.mod_pos_bound (z + 2 ^ 63) (2 ^ 64) ltac:(lia)). lia.
Qed.

(** X24.  Every result of [DeviceSort] is of one of three kinds: code 1
    and "ok" with a nil error, where IPHONE and IPAD are at most 100 and
    together at least 200 minus the number of entries listed (they are not
    clamped at zero); code 1001 with a nil error and all-zero data; or the
    zero result together with a non-nil error. *)
Theorem DeviceSort_results (L : Crypto) (S : System) (st st' : appstore.State)
    (r : appstore.DeviceSortResult) (e : option error) :
  appstore.DeviceSort L S st = (appstore.Returns (r, e), st') ->
  (e = None /\ appstore.Code r = 1 /\ appstore.Msg r = "ok"
   /\ appstore.IPHONE (appstore.Data r) <= 100
   /\ appstore.IPAD (appstore.Data r) <= 100
   /\ - 2 ^ 63 <= appstore.MAC (appstore.Data r) < 2 ^ 63
   /\ exists iOSData st1,
        appstore.All L S appstore.iOSParams st = (appstore.Returns (iOSData, None), st1)
        /\ 200 - Z.of_nat (length (listed iOSData))
             <= appstore.IPHONE (appstore.Data r) + appstore.IPAD (appstore.Data r))
  \/ (e = None /\ appstore.Code r = 1001 /\ appstore.Data r = appstore.zeroData)
  \/ (e <> None /\ r = appstore.zeroSort).
Proof.
  unfold appstore.DeviceSort, mbind, appstore.M_bind.
  destruct (appstore.All L S appstore.iOSParams st)
    as [[[iOSData [e1|]]|msg] st1] eqn:HiOS; [| |discriminate].
  { intros [= <- <- <-]. right; right. split; [discriminate | reflexivity]. }
  rewrite countDevices_classes.
  destruct (appstore.All L S appstore.macParams st1)
    as [[[macData [e2|]]|msg] st2]; [| |discriminate].
  { intros [= <- <- <-]. right; left. repeat split. }
  unfold mret, appstore.M_ret, appstore.panic.
  destruct (appstore.errorsDetail macData) as [|errorDetail|]; [| |discriminate].
  2: { intros [= <- <- <-]. right; left. repeat split. }
  unfold appstore.GetHTTPClient, appstore.liftW.
  destruct (httpclient.Get S _ "/users" ∅ _) as [[userData [e3|]] w3].
  { intros [= <- <- <-]. right; right. split; [discriminate | reflexivity]. }
  intros [= <- <- <-]. left. cbn.
  pose proof (classCount_nonneg "IPHONE" (listed iOSData)).
  pose proof (classCount_nonneg "IPAD" (listed iOSData)).
  pose proof (classCount_disjoint (listed iOSData)).
  split; [reflexivity|]. split; [reflexivity|]. split; [reflexivity|].
  split; [lia|]. split; [lia|]. split; [apply wrap64_range|].
  exists iOSData, st1. split; [reflexivity | lia].
Qed.

Lemma DeviceSort_results_witness :
  exists iOSData st1,
    appstore.All demo.crypto (demo.system demo.upServer) appstore.iOSParams demo.start
      = (appstore.Returns (iOSData, None), st1)
    /\ 200 - Z.of_nat (length (listed iOSData)) <= 98 + 99.
Proof.
  destruct (DeviceSort_results demo.crypto (demo.system demo.upServer) demo.start
              (snd (appstore.DeviceSort demo.crypto (demo.system demo.upServer) demo.start))
              {| appstore.Code := 1; appstore.Msg := "ok";
                 appstore.Data := {| appstore.IPHONE := 98; appstore.IPAD := 99;
                                     appstore.MAC := 100; appstore.Email := "" |} |}
              None)
    as [(_ & _ & _ & _ & _ & _ & H) | [(_ & Hc & _) | (He & _)]].
  - vm_compute. reflexivity.
  - exact H.
  - discriminate Hc.
  - destruct (He eq_refl).
Defined.

(** X25.  The two kinds of failure inside [DeviceSort] are reported
    differently.  A failed query for Mac devices is answered with code 1001,
    the fixed text "Failed to query Mac devices" and a nil error: the cause
    is not passed on and the counts already made are dropped.  A failed
    listing or user query is passed on as the error, with the zero result. *)
Theorem DeviceSort_failures (L : Crypto) (S : System) (st : appstore.State) :
  (forall iOSData e st1,
     appstore.All L S appstore.iOSParams st = (appstore.Returns (iOSData, Some e), st1) ->
     appstore.DeviceSort L S st = (appstore.Returns (appstore.zeroSort, Some e), st1))
  /\ (forall iOSData st1 macData e st2,
     appstore.All L S appstore.iOSParams st = (appstore.Returns (iOSData, None), st1) ->
     appstore.All L S appstore.macParams st1 = (appstore.Returns (macData, Some e), st2) ->
     appstore.DeviceSort L S st
       = (appstore.Returns (appstore.failedSort "Failed to query Mac devices", None), st2))
  /\ (forall iOSData st1 macData errorDetail st2,
     appstore.All L S appstore.iOSParams st = (appstore.Returns (iOSData, None), st1) ->
     appstore.All L S appstore.macParams st1 = (appstore.Returns (macData, None), st2) ->
     appstore.errorsDetail macData = appstore.Detail errorDetail ->
     appstore.DeviceSort L S st
       = (appstore.Returns (appstore.failedSort errorDetail, None), st2))
  /\ (forall iOSData st1 macData st2 userData e w3,
     appstore.All L S appstore.iOSParams st = (appstore.Returns (iOSData, None), st1) ->
     appstore.All L S appstore.macParams st1 = (appstore.Returns (macData, None), st2) ->
     appstore.errorsDetail macData = appstore.NoDetail ->
     httpclient.Get S (appstore.httpClient (appstore.st_client st2)) "/users" ∅
       (appstore.st_world st2) = ((userData, Some e), w3) ->
     appstore.DeviceSort L S st
       = (appstore.Returns (appstore.zeroSort, Some e), at_world (appstore.st_client st2) w3)).
Proof.
  unfold appstore.DeviceSort, mbind, appstore.M_bind. repeat apply conj.
  - intros iOSData e st1 ->. reflexivity.
  - intros iOSData st1 macData e st2 -> Hmac.
    destruct (appstore.countDevices iOSData). now rewrite Hmac.
  - intros iOSData st1 macData errorDetail st2 -> Hmac Hd.
    destruct (appstore.countDevices iOSData). now rewrite Hmac, Hd.
  - intros iOSData st1 macData st2 userData e w3 -> Hmac Hd Husers.
    destruct (appstore.countDevices iOSData). rewrite Hmac, Hd.
    unfold appstore.GetHTTPClient, appstore.liftW. now rewrite Husers.
Qed.

(** The world after a GET: either the request could not be built, and the
    call failed without touching the world, or the request was sent. *)
Lemma Get_world (S : System) (c : httpclient.Client) (path : string)
    (params : gmap string string) (w : World) :
  (exists e, httpclient.Get S c path params w = ((∅, Some e), w))
  \/ snd (httpclient.Get S c path params w) = sent (getRequest c path params) w.
Proof.
  unfold httpclient.Get.
  destruct (http_NewRequest_err S "GET" _) as [e|].
  - left. now eexists.
  - right. apply roundTrip_sends.
Qed.

Lemma DeviceSort_final_state (L : Crypto) (S : System) (st : appstore.State) :
  attachedToken (appstore.st_client st) <> "" ->
  let c := appstore.httpClient (appstore.st_client st) in
  let w := appstore.st_world st in
  let r1 := getRequest c "/devices" appstore.iOSParams in
  let r2 := getRequest c "/devices" appstore.macParams in
  let r3 := getRequest c "/users" ∅ in
  exists w',
    snd (appstore.DeviceSort L S st) = at_world (appstore.st_client st) w'
    /\ (w' = w \/ w' = sent r1 w \/ w' = sent r2 (sent r1 w)
        \/ w' = sent r3 (sent r2 (sent r1 w))).
Proof.
  intros Htok c w r1 r2 r3.
  unfold appstore.DeviceSort, mbind, appstore.M_bind.
  rewrite All_attached by exact Htok. fold c w.
  destruct (Get_world S c "/devices" appstore.iOSParams w) as [(e & H1) | H1].
  { rewrite H1. cbn. exists w. split; [reflexivity | now left]. }
  fold r1 in H1.
  destruct (httpclient.Get S c "/devices" appstore.iOSParams w) as [[iOSData err1] w1].
  cbn in H1. subst w1. cbn.
  destruct err1 as [e1|].
  { cbn. exists (sent r1 w). split; [reflexivity | right; now left]. }
  destruct (appstore.countDevices iOSData) as [iPhone iPad].
  pose proof (All_attached L S (at_world (appstore.st_client st) (sent r1 w))
                appstore.macParams Htok) as Hall2.
  unfold at_world in Hall2 |- *. rewrite Hall2. cbn. fold c.
  destruct (Get_world S c "/devices" appstore.macParams (sent r1 w)) as [(e & H2) | H2].
  { rewrite H2. cbn. exists (sent r1 w). split; [reflexivity | right; now left]. }
  fold r2 in H2.
  destruct (httpclient.Get S c "/devices" appstore.macParams (sent r1 w))
    as [[macData err2] w2].
  cbn in H2. subst w2. cbn.
  destruct err2 as [e2|].
  { cbn. exists (sent r2 (sent r1 w)). split; [reflexivity | right; right; now left]. }
  unfold mret, appstore.M_ret, appstore.panic.
  destruct (appstore.errorsDetail macData);
    try (cbn; exists (sent r2 (sent r1 w)); split; [reflexivity | right; right; now left]).
  unfold appstore.GetHTTPClient, appstore.liftW. cbn. fold c.
  destruct (Get_world S c "/users" ∅ (sent r2 (sent r1 w))) as [(e & H3) | H3].
  { rewrite H3. cbn. exists (sent r2 (sent r1 w)).
    split; [reflexivity | right; right; now left]. }
  fold r3 in H3.
  destruct (httpclient.Get S c "/users" ∅ (sent r2 (sent r1 w))) as [[userData err3] w3].
  cbn in H3. subst w3.
  destruct err3; cbn; exists (sent r3 (sent r2 (sent r1 w)));
    (split; [reflexivity | right; right; now right]).
Qed.

(** X26.  With a token attached, [DeviceSort] sends at most three requests
    and never repeats one: some initial part of the listing of iOS devices,
    the query for Mac devices and the query for users, in this order; it
    does not read the clock and leaves the client unchanged. *)
Theorem DeviceSort_requests (L : Crypto) (S : System) (st : appstore.State) :
  attachedToken (appstore.st_client st) <> "" ->
  let c := appstore.httpClient (appstore.st_client st) in
  let st' := snd (appstore.DeviceSort L S st) in
  (exists n,
     w_sent (appstore.st_world st')
       = (w_sent (appstore.st_world st)
          ++ take n [getRequest c "/devices" appstore.iOSParams;
                     getRequest c "/devices" appstore.macParams;
                     getRequest c "/users" ∅])%list)
  /\ w_ticks (appstore.st_world st') = w_ticks (appstore.st_world st)
  /\ appstore.st_client st' = appstore.st_client st.
Proof.
  intros Htok c st'. subst st'.
  destruct (DeviceSort_final_state L S st Htok) as (w' & -> & Hw'). fold c in Hw'.
  cbn. destruct Hw' as [-> | [-> | [-> | ->]]]; (split; [|split; reflexivity]).
  - exists 0%nat. cbn. now rewrite app_nil_r.
  - now exists 1%nat.
  - exists 2%nat. cbn. now rewrite <- app_assoc.
  - exists 3%nat. cbn. now rewrite <- !app_assoc.
Qed.

Lemma DeviceSort_requests_witness :
  w_ticks (appstore.st_world
             (snd (appstore.DeviceSort demo.crypto (demo.system demo.upServer)
                     scenario.authed))) = 0%nat.
Proof.
  destruct (DeviceSort_requests demo.crypto (demo.system demo.upServer) scenario.authed
              ltac:(discriminate)) as (_ & H & _).
  exact H.
Defined.

(** * The string helpers of certificates.go *)

Lemma substring_all (s : string) : String.substring 0 (String.length s) s = s.
Proof. induction s as [|c s IH]; [reflexivity | cbn; now rewrite IH]. Qed.

Lemma substring_prefix (p s : string) :
  String.substring 0 (String.length p) (p ++ s) = p.
Proof.
  induction p as [|c p IH]; [now destruct s|].
  rewrite append_cons. cbn. now rewrite IH.
Qed.

Lemma substring_suffix (p s : string) :
  String.substring (String.length p) (String.length s) (p ++ s) = s.
Proof.
  induction p as [|c p IH]; [apply substring_all|].
  rewrite append_cons. cbn. exact IH.
Qed.

Lemma substring_split (s : string) (n : nat) :
  (n <= String.length s)%nat ->
  s = String.substring 0 n s ++ String.substring n (String.length s - n) s.
Proof.
  revert n. induction s as [|c s IH]; intros [|n] Hn; cbn in *; try lia.
  - reflexivity.
  - now rewrite substring_all.
  - rewrite append_cons. f_equal. apply IH. lia.
Qed.

Lemma trimPrefix_found (p s : string) : certificates.trimPrefix (p ++ s) p = s.
Proof.
  unfold certificates.trimPrefix, certificates.slice.
  rewrite length_append, Nat.sub_0_r, substring_prefix, String.eqb_refl.
  replace (String.length p <=? String.length p + String.length s)%nat with true
    by (symmetry; apply Nat.leb_le; lia).
  cbn [andb]. replace (String.length p + String.length s - String.length p)%nat
    with (String.length s) by lia.
  apply substring_suffix.
Qed.

Lemma trimPrefix_cases (s p : string) :
  (exists t, s = p ++ t /\ certificates.trimPrefix s p = t)
  \/ ((forall t, s <> p ++ t) /\ certificates.trimPrefix s p = s).
Proof.
  unfold certificates.trimPrefix, certificates.slice. rewrite Nat.sub_0_r.
  destruct (String.length p <=? String.length s)%nat eqn:Hlen; cbn [andb].
  - apply Nat.leb_le in Hlen.
    destruct (String.eqb_spec (String.substring 0 (String.length p) s) p) as [Heq|Hne].
    + left. eexists. split; [|reflexivity].
      rewrite <- Heq at 1. now apply substring_split.
    + right. split; [|reflexivity]. intros t ->. apply Hne, substring_prefix.
  - right. split; [|reflexivity]. intros t ->.
    apply Nat.leb_gt in Hlen. rewrite length_append in Hlen. lia.
Qed.

Lemma trimSuffix_found (s p : string) : certificates.trimSuffix (s ++ p) p = s.
Proof.
  unfold certificates.trimSuffix, certificates.slice.
  rewrite length_append.
  replace (String.length p <=? String.length s + String.length p)%nat with true
    by (symmetry; apply Nat.leb_le; lia).
  replace (String.length s + String.length p - String.length p)%nat
    with (String.length s) by lia.
  replace (String.length s + String.length p - String.length s)%nat
    with (String.length p) by lia.
  rewrite substring_suffix, String.eqb_refl, Nat.sub_0_r. cbn [andb].
  apply substring_prefix.
Qed.

Lemma trimSuffix_cases (s p : string) :
  (exists t, s = t ++ p /\ certificates.trimSuffix s p = t)
  \/ ((forall t, s <> t ++ p) /\ certificates.trimSuffix s p = s).
Proof.
  unfold certificates.trimSuffix, certificates.slice. rewrite Nat.sub_0_r.
  destruct (String.length p <=? String.length s)%nat eqn:Hlen; cbn [andb].
  - apply Nat.leb_le in Hlen.
    replace (String.length s - (String.length s - String.length p))%nat
      with (String.length p) by lia.
    destruct (String.eqb_spec
                (String.substring (String.length s - String.length p) (String.length p) s) p)
      as [Heq|Hne].
    + left. eexists. split; [|reflexivity].
      pose proof (substring_split s (String.length s - String.length p) ltac:(lia)) as Hs.
      replace (String.length s - (String.length s - String.length p))%nat
        with (String.length p) in Hs by lia.
      now rewrite Heq in Hs.
    + right. split; [|reflexivity]. intros t ->. apply Hne.
      rewrite length_append.
      replace (String.length t + String.length p - String.length p)%nat
        with (String.length t) by lia.
      apply substring_suffix.
  - right. split; [|reflexivity]. intros t ->.
    apply Nat.leb_gt in Hlen. rewrite length_append in Hlen. lia.
Qed.

(** X27.  [trimPrefix] removes the prefix once when the string starts with
    it and returns the string unchanged otherwise; [trimSuffix] does the
    same at the end.  (An empty prefix or suffix changes nothing.) *)
Theorem trimPrefix_trimSuffix_spec (s p : string) :
  certificates.trimPrefix (p ++ s) p = s
  /\ certificates.trimSuffix (s ++ p) p = s
  /\ ((forall t, s <> p ++ t) -> certificates.trimPrefix s p = s)
  /\ ((forall t, s <> t ++ p) -> certificates.trimSuffix s p = s)
  /\ certificates.trimPrefix s "" = s
  /\ certificates.trimSuffix s "" = s.
Proof.
  repeat apply conj.
  - apply trimPrefix_found.
  - apply trimSuffix_found.
  - intros Hno. destruct (trimPrefix_cases s p) as [(t & -> & _) | [_ H]]; [|exact H].
    now destruct (Hno t).
  - intros Hno. destruct (trimSuffix_cases s p) as [(t & -> & _) | [_ H]]; [|exact H].
    now destruct (Hno t).
  - apply (trimPrefix_found "" s).
  - rewrite <- (append_nil_r s) at 1. apply trimSuffix_found.
Qed.

(** Last bytes. *)
Lemma append_last_inj (a b : string) (c d : ascii) :
  a ++ String c "" = b ++ String d "" -> a = b /\ c = d.
Proof.
  revert b. induction a as [|x a IH]; intros [|y b]; rewrite ?append_cons, ?append_nil_l.
  - now intros [= ->].
  - intros [= _ H]. now destruct b.
  - intros [= _ H]. now destruct a.
  - intros [= -> H]. apply IH in H as [-> ->]. auto.
Qed.

Lemma ends_differently (a b p : string) (c d : ascii) :
  c <> d -> a ++ String c "" <> b ++ p ++ String d "".
Proof.
  intros Hcd H. rewrite <- append_assoc in H. apply append_last_inj in H as [_ H].
  contradiction.
Qed.

(** X28.  [trim] removes at most one space at each end and nothing else:
    other white space (a newline, say) stays, and so does a second space. *)
Theorem trim_one_space (s : string) :
  certificates.trim (" " ++ s ++ " ") = s
  /\ (forall c d t, c <> " "%char -> d <> " "%char ->
        certificates.trim (String c t ++ String d "") = String c t ++ String d "")
  /\ certificates.trim (newline ++ s ++ newline) = newline ++ s ++ newline
  /\ certificates.trim ("  " ++ s ++ "  ") = " " ++ s ++ " ".
Proof.
  assert (Hkeep : forall c d t, c <> " "%char -> d <> " "%char ->
            certificates.trim (String c t ++ String d "") = String c t ++ String d "").
  { intros c d t Hc Hd. unfold certificates.trim.
    destruct (trimPrefix_cases (String c t ++ String d "") " ") as [(u & Hu & _) | [_ ->]].
    - rewrite append_cons in Hu. injection Hu as -> _. contradiction.
    - destruct (trimSuffix_cases (String c t ++ String d "") " ") as [(u & Hu & _) | [_ H]];
        [|exact H].
      apply append_last_inj in Hu as [_ ->]. contradiction. }
  repeat apply conj.
  - unfold certificates.trim. now rewrite trimPrefix_found, trimSuffix_found.
  - exact Hkeep.
  - unfold newline. rewrite <- append_assoc. rewrite append_cons, append_nil_l.
    apply Hkeep; discriminate.
  - unfold certificates.trim.
    change ("  " ++ s ++ "  ") with (" " ++ (" " ++ s ++ "  ")).
    rewrite trimPrefix_found.
    replace (" " ++ s ++ "  ") with ((" " ++ s ++ " ") ++ " ").
    + apply trimSuffix_found.
    + now rewrite !append_assoc.
Qed.

(** X29.  [pemHeadersToContent] on the two shapes a PEM-armoured request
    takes.  Without a final newline, the BEGIN and END lines are removed and
    the newlines around the base64 text stay.  With a final newline, as
    [pem.EncodeToMemory] writes it, only the BEGIN line is removed: the END
    line stays in the content. *)
Theorem pemHeadersToContent_shapes (body : string) :
  let head := "-----BEGIN CERTIFICATE REQUEST-----" in
  let foot := "-----END CERTIFICATE REQUEST-----" in
  certificates.pemHeadersToContent (head ++ newline ++ body ++ newline ++ foot)
    = newline ++ body ++ newline
  /\ certificates.pemHeadersToContent (head ++ newline ++ body ++ newline ++ foot ++ newline)
    = newline ++ body ++ newline ++ foot ++ newline.
Proof.
  intros head foot.
  assert (Hstart : forall t p, certificates.trimPrefix (newline ++ t) (String "-" p)
                               = newline ++ t).
  { intros t p. destruct (trimPrefix_cases (newline ++ t) (String "-" p))
      as [(u & Hu & _) | [_ H]]; [discriminate Hu | exact H]. }
  assert (Hspace : forall t, certificates.trimPrefix (newline ++ t) " " = newline ++ t).
  { intros t. destruct (trimPrefix_cases (newline ++ t) " ")
      as [(u & Hu & _) | [_ H]]; [discriminate Hu | exact H]. }
  assert (Hend : forall t p d, d <> "010"%char ->
            certificates.trimSuffix (t ++ newline) (p ++ String d "") = t ++ newline).
  { intros t p d Hd. destruct (trimSuffix_cases (t ++ newline) (p ++ String d ""))
      as [(u & Hu & _) | [_ H]]; [|exact H].
    unfold newline in Hu. apply ends_differently in Hu; [destruct Hu | congruence]. }
  split; unfold certificates.pemHeadersToContent, certificates.trim.
  - rewrite trimPrefix_found.
    rewrite (Hstart _ "----BEGIN CERTIFICATE-----").
    replace (newline ++ body ++ newline ++ foot) with ((newline ++ body ++ newline) ++ foot)
      by now rewrite !append_assoc.
    rewrite trimSuffix_found.
    replace (newline ++ body ++ newline) with ((newline ++ body) ++ newline)
      by now rewrite !append_assoc.
    rewrite (Hend _ "-----END CERTIFICATE----" "-"%char) by discriminate.
    rewrite append_assoc, Hspace, <- append_assoc.
    apply (Hend _ "" " "%char). discriminate.
  - rewrite trimPrefix_found.
    rewrite (Hstart _ "----BEGIN CERTIFICATE-----").
    replace (newline ++ body ++ newline ++ foot ++ newline)
      with ((newline ++ body ++ newline ++ foot) ++ newline) by now rewrite !append_assoc.
    rewrite (Hend _ "-----END CERTIFICATE REQUEST----" "-"%char) by discriminate.
    rewrite (Hend _ "-----END CERTIFICATE----" "-"%char) by discriminate.
    rewrite append_assoc, Hspace, <- append_assoc.
    apply (Hend _ "" " "%char). discriminate.
Qed.

(** * randomString *)

Lemma get_in_range (s : string) (n : nat) :
  (n < String.length s)%nat -> exists b, String.get n s = Some b.
Proof.
  revert n. induction s as [|c s IH]; intros [|n] Hn; cbn in *; try lia.
  - now exists c.
  - apply IH. lia.
Qed.

Lemma wrap64_small (z : Z) : - 2 ^ 63 <= z < 2 ^ 63 -> appstore.wrap64 z = z.
Proof.
  intros H. unfold appstore.wrap64.
  rewrite Z.mod_small by lia. lia.
Qed.

Lemma randomBytes_ok (S : System) (n : nat) (i : Z) (w : World) :
  0 <= i ->
  (forall j, (j < n)%nat ->
     0 <= time_Now S (w_ticks w + j) /\ time_Now S (w_ticks w + j) + i + Z.of_nat j < 2 ^ 63) ->
  exists s,
    certificates.randomBytes S n i w = (appstore.Returns s, advance n w)
    /\ String.length s = n
    /\ bytesIn certificates.charset s.
Proof.
  revert i w. induction n as [|n IH]; intros i w Hi Hclock.
  - exists "". cbn. split; [|split; [reflexivity | intros j b; now destruct j]].
    unfold advance. rewrite Nat.add_0_r. now destruct w.
  - destruct (Hclock 0%nat ltac:(lia)) as [Hnow Hsum]. rewrite Nat.add_0_r in Hnow, Hsum.
    cbn [certificates.randomBytes]. unfold certificates.time_UnixNano.
    rewrite (wrap64_small (time_Now S (w_ticks w))) by lia.
    rewrite wrap64_small by lia.
    set (index := Z.rem (time_Now S (w_ticks w) + i)
                    (Z.of_nat (String.length certificates.charset))).
    assert (Hindex : 0 <= index < 36).
    { unfold index. change (Z.of_nat (String.length certificates.charset)) with 36.
      apply Z.rem_bound_pos; lia. }
    replace (index <? 0)%Z with false by (symmetry; apply Z.ltb_ge; lia).
    destruct (get_in_range certificates.charset (Z.to_nat index)) as [b Hb].
    { change (String.length certificates.charset) with 36%nat. lia. }
    rewrite Hb.
    destruct (IH (i + 1) (tick w)) as (rest & Hrest & Hlen & Hbytes).
    + lia.
    + intros j Hj. cbn [tick w_ticks].
      destruct (Hclock (Datatypes.S j) ltac:(lia)) as [H1 H2].
      replace (Datatypes.S (w_ticks w) + j)%nat with (w_ticks w + Datatypes.S j)%nat by lia.
      split; [exact H1 | lia].
    + rewrite Hrest. exists (String b rest). split; [|split].
      * f_equal. unfold advance, tick. cbn. f_equal. lia.
      * cbn. now rewrite Hlen.
      * intros [|j] c; cbn.
        -- intros [= <-]. exists (Z.to_nat index). exact Hb.
        -- apply Hbytes.
Qed.

(** X30.  [randomString]: for a non-negative length, and as long as the
    clock shows a time after the epoch whose nanosecond count (plus the
    length) fits 64 bits, the result has exactly the requested length, every
    byte of it is one of the 36 characters of the charset, and the clock has
    been read once per byte; a negative length panics. *)
Theorem randomString_spec (S : System) (length : Z) (w : World) :
  (length < 0 ->
     certificates.randomString S length w
       = (appstore.Panics "makeslice: len out of range", w))
  /\ (0 <= length ->
      (forall j, (j < Z.to_nat length)%nat ->
         0 <= time_Now S (w_ticks w + j) /\ time_Now S (w_ticks w + j) + length < 2 ^ 63) ->
      exists s,
        certificates.randomString S length w
          = (appstore.Returns s, advance (Z.to_nat length) w)
        /\ Z.of_nat (String.length s) = length
        /\ bytesIn certificates.charset s).
Proof.
  unfold certificates.randomString. split.
  - intros Hneg. now rewrite (proj2 (Z.ltb_lt length 0) Hneg).
  - intros Hpos Hclock. rewrite (proj2 (Z.ltb_ge length 0) Hpos).
    destruct (randomBytes_ok S (Z.to_nat length) 0 w ltac:(lia)) as (s & Hs & Hlen & Hbytes).
    + intros j Hj. destruct (Hclock j Hj) as [H1 H2]. split; [exact H1 | lia].
    + exists s. split; [exact Hs | split; [lia | exact Hbytes]].
Qed.

Lemma randomString_spec_witness :
  exists s,
    certificates.randomString (demo.system demo.upServer) 8 demo.world0
      = (appstore.Returns s, advance 8 demo.world0)
    /\ Z.of_nat (String.length s) = 8
    /\ bytesIn certificates.charset s.
Proof.
  destruct (randomString_spec (demo.system demo.upServer) 8 demo.world0) as (_ & H).
  apply H; [lia|].
  intros j Hj. cbn. unfold demo.noon, Second. lia.
Defined.
